(** * Workflow runner: a shallow embedding of [workflow_runner.py]

    The program reads a workflow description (numbered shell commands in an
    ini section), expands each command against a growing dictionary of
    variables, runs it through a shell and stops at the first failure.

    The development follows the source file top to bottom:
    - Python built-ins the program relies on ([str.strip], [str.split],
      [int], slicing, [str.replace], [repr], the [%] formatting operator);
    - the [DSConfig] accessors of [dslib/dsconfig.py];
    - [run_cmd], [prepare_cmd], [get_workflow_cmd_num], [WorkflowRuntime],
      [WorkflowException], [WFConfigException] and the [__main__] block;
    - the properties of the engine. *)

From stdpp Require Import base option list gmap strings sorting pretty.
From Stdlib Require Import Ascii String ZArith Lia.

Local Open Scope Z_scope.

(** ** Python strings *)

Module Py.

(** [c.isspace()] for an 8-bit [str] in the C locale. *)
Definition is_space (c : ascii) : bool :=
  let n := nat_of_ascii c in
  ((n =? 32) || ((9 <=? n) && (n <=? 13)))%nat.

Definition is_digit (c : ascii) : bool :=
  let n := nat_of_ascii c in ((48 <=? n) && (n <=? 57))%nat.

Definition digit_val (c : ascii) : Z := Z.of_nat (nat_of_ascii c) - 48.

Fixpoint lstrip (s : string) : string :=
  match s with
  | EmptyString => EmptyString
  | String c s' => if is_space c then lstrip s' else s
  end.

Definition is_empty (s : string) : bool :=
  match s with EmptyString => true | String _ _ => false end.

Fixpoint rstrip (s : string) : string :=
  match s with
  | EmptyString => EmptyString
  | String c s' =>
      let r := rstrip s' in
      if is_space c && is_empty r then EmptyString else String c r
  end.

(** [s.strip()] *)
Definition strip (s : string) : string := lstrip (rstrip s).

(** [s.split(sep)] for a one-character separator. *)
Fixpoint split (sep : ascii) (s : string) : list string :=
  match s with
  | EmptyString => [EmptyString]
  | String c s' =>
      if Ascii.eqb c sep then EmptyString :: split sep s'
      else match split sep s' with
           | [] => [String c EmptyString]
           | h :: t => String c h :: t
           end
  end.

Fixpoint digits (acc : Z) (s : string) : option Z :=
  match s with
  | EmptyString => Some acc
  | String c s' => if is_digit c then digits (acc * 10 + digit_val c) s' else None
  end.

Definition nonempty_digits (s : string) : option Z :=
  if is_empty s then None else digits 0 s.

(** [int(s)] on a string: [None] stands for [ValueError].  Accepted here:
    a decimal literal with an optional sign, surrounded by optional
    whitespace.  Python integers are unbounded, hence [Z]. *)
Definition int (s : string) : option Z :=
  match strip s with
  | String "+" r => nonempty_digits r
  | String "-" r => Z.opp <$> nonempty_digits r
  | r => nonempty_digits r
  end.

Fixpoint take (n : nat) (s : string) : string :=
  match n, s with
  | S n', String c s' => String c (take n' s')
  | _, _ => EmptyString
  end.

(** [s[0:stop]]; [None] is Python's [None] (no bound), a negative bound
    counts from the end. *)
Definition slice_to (s : string) (stop : option Z) : string :=
  match stop with
  | None => s
  | Some k =>
      if 0 <=? k then take (Z.to_nat k) s
      else take (Z.to_nat (Z.of_nat (String.length s) + k)) s
  end.

Fixpoint starts_with (p s : string) : bool :=
  match p, s with
  | EmptyString, _ => true
  | String a p', String b s' => Ascii.eqb a b && starts_with p' s'
  | String _ _, EmptyString => false
  end.

(** [s.replace(old, new)] for a non-empty [old]: occurrences are found left
    to right and do not overlap.  [skip] counts the characters of a matched
    occurrence that are still to be passed over. *)
Fixpoint replace_from (old new : string) (skip : nat) (s : string) : string :=
  match s with
  | EmptyString => EmptyString
  | String c s' =>
      match skip with
      | S k => replace_from old new k s'
      | O =>
          if starts_with old s
          then new +:+ replace_from old new (String.length old - 1) s'
          else String c (replace_from old new 0 s')
      end
  end.

Definition replace (old new s : string) : string := replace_from old new 0 s.

Definition hex_digit (n : nat) : ascii :=
  ascii_of_nat (if (n <? 10)%nat then 48 + n else 87 + n).

Definition mem (c : ascii) (s : string) : bool :=
  existsb (Ascii.eqb c) (list_ascii_of_string s).

Definition backslash : ascii := ascii_of_nat 92.

Fixpoint repr_body (quote : ascii) (s : string) : string :=
  match s with
  | EmptyString => EmptyString
  | String c s' =>
      let n := nat_of_ascii c in
      (if Ascii.eqb c quote || Ascii.eqb c backslash
       then String backslash (String c EmptyString)
       else if (n =? 9)%nat then String backslash "t"
       else if (n =? 10)%nat then String backslash "n"
       else if (n =? 13)%nat then String backslash "r"
       else if ((n <? 32) || (127 <=? n))%nat
       then String backslash (String "x" (String (hex_digit (n / 16))
                                     (String (hex_digit (n mod 16)) EmptyString)))
       else String c EmptyString) +:+ repr_body quote s'
  end.

(** [repr(s)] of a [str]. *)
Definition repr (s : string) : string :=
  let dq := ascii_of_nat 34 in
  let quote := if mem "'" s && negb (mem dq s) then dq else "'"%char in
  String quote (repr_body quote s +:+ String quote EmptyString).

(** [str(n)] of an integer. *)
Definition str_int (n : Z) : string := pretty n.

Definition newline : string := String (ascii_of_nat 10) EmptyString.

End Py.

(** ** Values, dates and exceptions *)

(** A naive [datetime.datetime], as returned by [datetime.datetime.now()]. *)
Record datetime := {
  year : Z; month : Z; day : Z;
  hour : Z; minute : Z; second : Z; microsecond : Z
}.

Fixpoint zeros (n : nat) : string :=
  match n with O => EmptyString | S n' => String "0" (zeros n') end.

(** [%0wd] for a non-negative number. *)
Definition zpad (w : nat) (n : Z) : string :=
  let s := Py.str_int n in zeros (w - String.length s) +:+ s.

(** [str(d)], that is [d.isoformat(' ')]. *)
Definition datetime_str (d : datetime) : string :=
  zpad 4 (year d) +:+ "-" +:+ zpad 2 (month d) +:+ "-" +:+ zpad 2 (day d) +:+ " " +:+
  zpad 2 (hour d) +:+ ":" +:+ zpad 2 (minute d) +:+ ":" +:+ zpad 2 (second d) +:+
  (if microsecond d =? 0 then EmptyString else "." +:+ zpad 6 (microsecond d)).

(** [repr(d)] *)
Definition datetime_repr (d : datetime) : string :=
  "datetime.datetime(" +:+ Py.str_int (year d) +:+ ", " +:+ Py.str_int (month d) +:+ ", " +:+
  Py.str_int (day d) +:+ ", " +:+ Py.str_int (hour d) +:+ ", " +:+ Py.str_int (minute d) +:+
  (if microsecond d =? 0
   then if second d =? 0 then EmptyString else ", " +:+ Py.str_int (second d)
   else ", " +:+ Py.str_int (second d) +:+ ", " +:+ Py.str_int (microsecond d)) +:+ ")".

(** The three [strftime] patterns of the program: ["%Y%m"], ["%Y%m%d"] and
    ["%Y-%m-%d"]. *)
Definition strftime_Ym (d : datetime) : string := zpad 4 (year d) +:+ zpad 2 (month d).
Definition strftime_Ymd (d : datetime) : string :=
  zpad 4 (year d) +:+ zpad 2 (month d) +:+ zpad 2 (day d).
Definition strftime_Y_m_d (d : datetime) : string :=
  zpad 4 (year d) +:+ "-" +:+ zpad 2 (month d) +:+ "-" +:+ zpad 2 (day d).

(** What the variable dictionary holds: strings, and the [datetime] stored
    under [now]. *)
Inductive pyval :=
| VStr (s : string)
| VDatetime (d : datetime).

Definition pyval_str (v : pyval) : string :=
  match v with VStr s => s | VDatetime d => datetime_str d end.

Definition pyval_repr (v : pyval) : string :=
  match v with VStr s => Py.repr s | VDatetime d => datetime_repr d end.

(** [convenience_variables] *)
Abbreviation variables := (gmap string pyval).

(** The exceptions that travel through the program.  [SystemExit] carries the
    argument of [sys.exit]: [None] or a message. *)
Inductive exn :=
| KeyError (key : string)
| ValueError
| TypeError
| RuntimeError
| ConfigException (msg : string)
| PlainException (msg : string)
| SystemExit (arg : option string).

Inductive result (A : Type) :=
| Ok (a : A)
| Raise (e : exn).
Arguments Ok {A} a.
Arguments Raise {A} e.

(** ** The [%] operator on a [str] and a [dict]

    [PyString_Format] scans the format once, left to right.  It is embedded
    as an automaton reading one character at a time; [fmode] is the place
    in the conversion specification the scan has reached. *)

Record fspec := {
  sp_ljust : bool;           (* the [-] flag *)
  sp_width : option Z;
  sp_prec : option Z
}.

Definition fspec0 : fspec := {| sp_ljust := false; sp_width := None; sp_prec := None |}.

Inductive fmode :=
| FText
| FPercent
| FKey (depth : nat) (key : string)
| FFlags (sp : fspec)
| FWidth (sp : fspec)
| FDot (sp : fspec)
| FPrec (sp : fspec)
| FConv (sp : fspec).

(** The argument the next conversion takes: the right operand itself, or the
    value found under the last [%(key)]; [None] once it has been taken. *)
Inductive farg :=
| ADict
| AVal (v : pyval).

Definition PY_SSIZE_T_MAX : Z := 2 ^ 63 - 1.
Definition INT_MAX : Z := 2 ^ 31 - 1.

Fixpoint spaces (n : nat) : string :=
  match n with O => EmptyString | S n' => String " " (spaces n') end.

Definition truncate (sp : fspec) (s : string) : string :=
  match sp_prec sp with
  | Some p => if Z.of_nat (String.length s) >? p then Py.take (Z.to_nat p) s else s
  | None => s
  end.

Definition pad (sp : fspec) (s : string) : string :=
  match sp_width sp with
  | Some w =>
      let fill := spaces (Z.to_nat w - String.length s) in
      if sp_ljust sp then s +:+ fill else fill +:+ s
  | None => s
  end.

Definition is_flag (c : ascii) : bool := Py.mem c "-+ #0".
Definition is_length_modifier (c : ascii) : bool := Py.mem c "hlL".
Definition is_number_conversion (c : ascii) : bool := Py.mem c "diuoxXeEfFgG".

Section Format.

(** [str(d)] of a dictionary lists the entries in the interpreter's hash
    order; it is left to the host. *)
Variable dict_str : variables → string.
Variable vars : variables.

Definition farg_str (a : farg) : string :=
  match a with ADict => dict_str vars | AVal v => pyval_str v end.
Definition farg_repr (a : farg) : string :=
  match a with ADict => dict_str vars | AVal v => pyval_repr v end.

(** The conversion character itself. *)
Definition fconv (sp : fspec) (a : option farg) (c : ascii)
  : result (fmode * option farg * string) :=
  if Ascii.eqb c "%" then Ok (FText, a, pad sp "%")
  else match a with
       | None => Raise TypeError
       | Some x =>
           if Ascii.eqb c "s" then Ok (FText, None, pad sp (truncate sp (farg_str x)))
           else if Ascii.eqb c "r" then Ok (FText, None, pad sp (truncate sp (farg_repr x)))
           else if Ascii.eqb c "c" then
             match x with
             | AVal (VStr (String ch EmptyString)) =>
                 Ok (FText, None, pad sp (String ch EmptyString))
             | _ => Raise TypeError
             end
           else if is_number_conversion c then Raise TypeError
           else Raise ValueError
       end.

Definition flenmod (sp : fspec) (a : option farg) (c : ascii)
  : result (fmode * option farg * string) :=
  if is_length_modifier c then Ok (FConv sp, a, EmptyString) else fconv sp a c.

Definition fdot (sp : fspec) (a : option farg) (c : ascii)
  : result (fmode * option farg * string) :=
  if Ascii.eqb c "."
  then Ok (FDot {| sp_ljust := sp_ljust sp; sp_width := sp_width sp; sp_prec := Some 0 |},
            a, EmptyString)
  else flenmod sp a c.

Definition fstep (m : fmode) (a : option farg) (c : ascii)
  : result (fmode * option farg * string) :=
  match m with
  | FText =>
      if Ascii.eqb c "%" then Ok (FPercent, a, EmptyString)
      else Ok (FText, a, String c EmptyString)
  | FPercent =>
      if Ascii.eqb c "(" then Ok (FKey 1 EmptyString, a, EmptyString)
      else if is_flag c
      then Ok (FFlags {| sp_ljust := Ascii.eqb c "-"; sp_width := None; sp_prec := None |},
                a, EmptyString)
      else if Ascii.eqb c "*" then Raise TypeError
      else if Py.is_digit c
      then Ok (FWidth {| sp_ljust := false; sp_width := Some (Py.digit_val c);
                          sp_prec := None |}, a, EmptyString)
      else fdot fspec0 a c
  | FKey depth key =>
      if Ascii.eqb c ")" then
        match depth with
        | S (S d) => Ok (FKey (S d) (key +:+ ")"), a, EmptyString)
        | _ =>
            match vars !! key with
            | Some v => Ok (FFlags fspec0, Some (AVal v), EmptyString)
            | None => Raise (KeyError key)
            end
        end
      else if Ascii.eqb c "(" then Ok (FKey (S depth) (key +:+ "("), a, EmptyString)
      else Ok (FKey depth (key +:+ String c EmptyString), a, EmptyString)
  | FFlags sp =>
      if is_flag c
      then Ok (FFlags {| sp_ljust := sp_ljust sp || Ascii.eqb c "-";
                          sp_width := None; sp_prec := None |}, a, EmptyString)
      else if Ascii.eqb c "*" then Raise TypeError
      else if Py.is_digit c
      then Ok (FWidth {| sp_ljust := sp_ljust sp; sp_width := Some (Py.digit_val c);
                          sp_prec := None |}, a, EmptyString)
      else fdot sp a c
  | FWidth sp =>
      if Py.is_digit c then
        let w := default 0 (sp_width sp) in
        if w >? (PY_SSIZE_T_MAX - Py.digit_val c) / 10 then Raise ValueError
        else Ok (FWidth {| sp_ljust := sp_ljust sp;
                            sp_width := Some (w * 10 + Py.digit_val c);
                            sp_prec := None |}, a, EmptyString)
      else fdot sp a c
  | FDot sp =>
      if Ascii.eqb c "*" then Raise TypeError
      else if Py.is_digit c
      then Ok (FPrec {| sp_ljust := sp_ljust sp; sp_width := sp_width sp;
                         sp_prec := Some (Py.digit_val c) |}, a, EmptyString)
      else flenmod sp a c
  | FPrec sp =>
      if Py.is_digit c then
        let p := default 0 (sp_prec sp) in
        if p >? (INT_MAX - Py.digit_val c) / 10 then Raise ValueError
        else Ok (FPrec {| sp_ljust := sp_ljust sp; sp_width := sp_width sp;
                           sp_prec := Some (p * 10 + Py.digit_val c) |}, a, EmptyString)
      else flenmod sp a c
  | FConv sp => fconv sp a c
  end.

Fixpoint frun (m : fmode) (a : option farg) (s : string)
  : result (string * (fmode * option farg)) :=
  match s with
  | EmptyString => Ok (EmptyString, (m, a))
  | String c s' =>
      match fstep m a c with
      | Raise e => Raise e
      | Ok (m', a', out) =>
          match frun m' a' s' with
          | Raise e => Raise e
          | Ok (o, fin) => Ok (out +:+ o, fin)
          end
      end
  end.

(** [fmt % vars]: a format that ends inside a conversion specification is a
    [ValueError] (incomplete format, incomplete format key). *)
Definition format (fmt : string) : result string :=
  match frun FText (Some ADict) fmt with
  | Raise e => Raise e
  | Ok (out, (FText, _)) => Ok out
  | Ok (_, _) => Raise ValueError
  end.

End Format.

(** ** [dslib/dsconfig.py]

    A [DSConfig] built from ini files is used through [get] and [has_option]
    on the one section [workflow_config].  The section is embedded as the
    finite map from option name to the value [SafeConfigParser.get]
    returns for it: the parser has this section and every value read
    interpolates.  [get] turns [NoOptionError] into [ConfigException] and
    nothing else; [NoSectionError] and [InterpolationError], which would
    leave it as they are, have no counterpart in the map. *)

Abbreviation config := (gmap string string).

Module DSConfig.

Definition get (cfg : config) (opt : string) : result string :=
  match cfg !! opt with
  | Some v => Ok v
  | None =>
      Raise (ConfigException
               ("No option " +:+ Py.repr opt +:+ " in section: 'workflow_config'"))
  end.

Definition _getList (config_value : string) : list string :=
  Py.strip <$> Py.split "," config_value.

(** [get(option, 'list')] *)
Definition get_list (cfg : config) (opt : string) : result (list string) :=
  match get cfg opt with
  | Ok v => Ok (_getList v)
  | Raise e => Raise e
  end.

Definition has_option (cfg : config) (opt : string) : bool :=
  bool_decide (is_Some (cfg !! opt)).

End DSConfig.

(** ** The host: shell, clock and file system *)

(** What [Popen(...).wait()] and [communicate()] give back, for a process
    that has ended and whose two streams have been read.  A call that does
    not come back (the child blocked on a full pipe while [wait()] waits for
    it to end) has no counterpart in [popen]. *)
Record proc := {
  stdout : string;
  stderr : string;
  return_code : Z
}.

Record Host := {
  world : Type;
  (** [subprocess.Popen(cmd, shell=True, executable='/bin/bash')], waited for *)
  popen : string → world → proc * world;
  (** [datetime.datetime.now()] *)
  datetime_now : world → datetime * world;
  (** [str(b - a)] for two readings of the clock *)
  timedelta_str : datetime → datetime → string;
  (** [str(d)] of a dictionary *)
  dict_str : variables → string;
  (** [DSConfig('workflow_config', environment=filename)]: the section read,
      or [str(e)] of the exception raised *)
  DSConfig_init : string → world → config + string
}.

Definition zookeeper_bin : string := "/usr/local/bin/zk".

(** Depth at which the interpreter gives up on nested calls
    ([sys.getrecursionlimit()]). *)
Definition recursion_limit : nat := 1000.

Definition cmd_output_key (command_num : Z) : string :=
  "cmd_" +:+ Py.str_int command_num +:+ "_output".

Definition is_ConfigException (e : exn) : bool :=
  match e with ConfigException _ => true | _ => false end.

(** [except Exception] does not catch [SystemExit]. *)
Definition is_Exception (e : exn) : bool :=
  match e with SystemExit _ => false | _ => true end.

(** [WFConfigException(emsg)]: the constructor calls [sys.exit(emsg)]. *)
Definition WFConfigException (emsg : option string) : exn := SystemExit emsg.

(** ** [get_workflow_cmd_num] *)

Fixpoint ints (l : list string) : result (list Z) :=
  match l with
  | [] => Ok []
  | x :: l' =>
      match Py.int x with
      | None => Raise ValueError
      | Some n => match ints l' with Ok r => Ok (n :: r) | Raise e => Raise e end
      end
  end.

(** The list the function starts from: the [always_run_cmds] directive when
    the starting number is above 1, and the directive may be absent. *)
Definition always_run_cmds (starting_cmd_num : Z) (workflow_config : config)
  : result (list Z) :=
  if starting_cmd_num >? 1 then
    match DSConfig.get_list workflow_config "always_run_cmds" with
    | Ok l => ints l
    | Raise e => if is_ConfigException e then Ok [] else Raise e
    end
  else Ok [].

(** The [while True] loop, with the number of iterations it may still take.
    It gives back the loop variable and the list at the [break]; [None] when
    the iterations are used up. *)
Fixpoint probe (fuel : nat) (workflow_config : config) (cmd_num : Z)
    (cmd_num_list : list Z) : option (Z * list Z) :=
  match fuel with
  | O => None
  | S fuel' =>
      if DSConfig.has_option workflow_config (Py.str_int cmd_num) then
        probe fuel' workflow_config (cmd_num + 1)
          (if bool_decide (cmd_num ∈ cmd_num_list) then cmd_num_list
           else cmd_num_list ++ [cmd_num])
      else Some (cmd_num, cmd_num_list)
  end.

(** One more iteration than the section has options always reaches the
    [break] (lemma [probe_terminates]). *)
Definition probe_fuel (workflow_config : config) : nat := S (size workflow_config).

Definition probe_all (workflow_config : config) (cmd_num : Z) (cmd_num_list : list Z)
  : Z * list Z :=
  default (cmd_num, cmd_num_list)
    (probe (probe_fuel workflow_config) workflow_config cmd_num cmd_num_list).

(** The generator runs to its first [yield] only after the whole list is
    built and sorted, so the numbers it yields are given as a list. *)
Definition get_workflow_cmd_num (starting_cmd_num : Z) (workflow_config : config)
  : result (list Z) :=
  match always_run_cmds starting_cmd_num workflow_config with
  | Raise e => Raise e
  | Ok cmd_num_list0 =>
      let cmd_num_list := snd (probe_all workflow_config starting_cmd_num cmd_num_list0) in
      if (List.length cmd_num_list =? 0)%nat
      then Raise (WFConfigException (Some "No workflow commands found."))
      else Ok (merge_sort Z.le cmd_num_list)
  end.

Section Runner.

Context (H : Host).

(** The interpreter state the program acts on: the outside world, what has
    been printed on standard output, one entry for each [print] statement
    (an entry may hold several lines), and [WorkflowRuntime._runtimes]. *)
Record state := {
  st_world : world H;
  st_out : list string;
  st_runtimes : gmap string datetime
}.

Definition M (A : Type) : Type := state → result A * state.

Definition ret {A} (a : A) : M A := λ st, (Ok a, st).
Definition raise {A} (e : exn) : M A := λ st, (Raise e, st).
Definition lift {A} (r : result A) : M A := λ st, (r, st).
Definition bind {A B} (m : M A) (k : A → M B) : M B :=
  λ st, match m st with
        | (Ok a, st') => k a st'
        | (Raise e, st') => (Raise e, st')
        end.

Notation "'let!' x := m 'in' k" := (bind m (λ x, k))
  (at level 10, x name, m at level 100, k at level 200).
Notation "m ;; k" := (bind m (λ _, k))
  (at level 100, k at level 200, right associativity).

Definition print (line : string) : M unit :=
  λ st, (Ok tt, {| st_world := st_world st; st_out := st_out st ++ [line];
                   st_runtimes := st_runtimes st |}).

Definition print_usage : M unit :=
  print "Workflow Runner v1.1" ;;
  print "Usage: workflow_runner.py <full path to workflow config ini> <starting command num, default 1>" ;;
  print "e.g. ./workflow_runner.py /opt/datasrv/share/bin/config/WF-reporting-current_balances.ini".

Definition run_cmd (full_cmd : string) : M string :=
  λ st,
    let '(p, w) := popen H full_cmd (st_world st) in
    let st' := {| st_world := w; st_out := st_out st; st_runtimes := st_runtimes st |} in
    if negb (Py.is_empty (stderr p)) || negb (return_code p =? 0)
    then (Raise (PlainException
                   (stdout p +:+ Py.newline +:+ "Unexpected return code or value: " +:+
                    Py.str_int (return_code p) +:+ ", " +:+ stderr p)), st')
    else (Ok (Py.strip (stdout p)), st').

(** [prepare_cmd], with the constructor of [WorkflowException] it calls on a
    [KeyError] passed in: the two functions call each other.  [command_num]
    is the module-level loop variable the [except] clause reads. *)
Definition prepare_cmd_with
    (WorkflowException : Z → string → variables → state → exn * state)
    (command_num : Z) (raw_cmd : string) (convenience_variables : variables)
  : M string :=
  λ st,
    match format (dict_str H) convenience_variables raw_cmd with
    | Raise (KeyError key) =>
        let '(e, st') :=
          WorkflowException command_num
            ("Required variable not found during execution " +:+ Py.repr key)
            convenience_variables st in
        (Raise e, st')
    | Raise e => (Raise e, st)
    | Ok cmd_substituted => (Ok (Py.replace "_PERC_" "%" cmd_substituted), st)
    end.

Definition premature_message (command_num : Z) (emsg : string) : string :=
  "Workflow ended prematurely, #" +:+ Py.str_int command_num +:+
  " command error: " +:+ emsg.

(** [WorkflowException.__init__]: it never returns, the result is the
    exception that leaves the constructor.  [depth] is the number of nested
    constructor calls the interpreter still allows. *)
Fixpoint WorkflowException (depth : nat) (workflow_config : config)
    (command_num : Z) (emsg : string) (convenience_vars : variables)
    (st : state) : exn * state :=
  match depth with
  | O => (RuntimeError, st)
  | S d =>
      let exit := SystemExit (Some (premature_message command_num emsg)) in
      let except_ConfigException (e : exn) := if is_ConfigException e then exit else e in
      match DSConfig.get workflow_config "premature_end_cmd" with
      | Raise e => (except_ConfigException e, st)
      | Ok raw =>
          match prepare_cmd_with (WorkflowException d workflow_config)
                  command_num raw convenience_vars st with
          | (Raise e, st1) => (except_ConfigException e, st1)
          | (Ok cleanup_cmd, st1) =>
              match run_cmd cleanup_cmd st1 with
              | (Raise e, st2) => (except_ConfigException e, st2)
              | (Ok out, st2) =>
                  (exit,
                   snd (print ("#Premature workflow end command executed ..." +:+
                               Py.newline +:+ out) st2))
              end
          end
      end
  end.

Definition prepare_cmd (workflow_config : config) :=
  prepare_cmd_with (WorkflowException recursion_limit workflow_config).

(** *** [WorkflowRuntime] *)

Definition now : M datetime :=
  λ st,
    let '(d, w) := datetime_now H (st_world st) in
    (Ok d, {| st_world := w; st_out := st_out st; st_runtimes := st_runtimes st |}).

(** [track]: [report_runtime] is the truth value of [self._report_runtime]. *)
Definition track (report_runtime : bool) (thing : string) : M unit :=
  if report_runtime then
    let! d := now in
    λ st, (Ok tt, {| st_world := st_world st; st_out := st_out st;
                     st_runtimes := <[thing := d]> (st_runtimes st) |})
  else ret tt.

(** [report]: [None] is the [False] returned for a thing never tracked. *)
Definition report (thing : string) : M (option string) :=
  λ st,
    match st_runtimes st !! thing with
    | Some started => (let! d := now in ret (Some (timedelta_str H started d))) st
    | None => (Ok None, st)
    end.

(** [if runtime: print ...] *)
Definition print_runtime (label : string) (runtime : option string) : M unit :=
  match runtime with
  | Some r => if Py.is_empty r then ret tt else print (label +:+ r)
  | None => ret tt
  end.

(** *** The [__main__] block *)

(** The body of the [for] loop, for one [command_num]; it gives back the
    dictionary after [convenience_variables['cmd_%d_output'] = cmd_output].
    The guarded block can only fail in [run_cmd], whose exception is the one
    [except Exception, emsg] hands to [WorkflowException]. *)
Definition main_loop_body (workflow_config : config) (num_chars_to_log : option Z)
    (report_runtime : bool) (command_num : Z) (convenience_variables : variables)
  : M variables :=
  let! raw_command := lift (DSConfig.get workflow_config (Py.str_int command_num)) in
  let! command := prepare_cmd workflow_config command_num raw_command convenience_variables in
  print ("#" +:+ Py.str_int command_num +:+ " >> " +:+
         Py.slice_to command num_chars_to_log +:+ " ...") ;;
  track report_runtime ("cmd_" +:+ Py.str_int command_num) ;;
  let! cmd_output :=
    (λ st,
      match run_cmd command st with
      | (Ok cmd_output, st') => (Ok cmd_output, st')
      | (Raise (PlainException emsg), st') =>
          let '(e, st'') :=
            WorkflowException recursion_limit workflow_config command_num emsg
              convenience_variables st' in
          (Raise e, st'')
      | (Raise e, st') => (Raise e, st')
      end) in
  let! runtime := report ("cmd_" +:+ Py.str_int command_num) in
  print (Py.slice_to cmd_output num_chars_to_log) ;;
  print_runtime ("#" +:+ Py.str_int command_num +:+ " >> runtime: ") runtime ;;
  ret (<[cmd_output_key command_num := VStr cmd_output]> convenience_variables).

Fixpoint main_loop (workflow_config : config) (num_chars_to_log : option Z)
    (report_runtime : bool) (plan : list Z) (convenience_variables : variables)
  : M variables :=
  match plan with
  | [] => ret convenience_variables
  | command_num :: plan' =>
      let! convenience_variables' :=
        main_loop_body workflow_config num_chars_to_log report_runtime command_num
          convenience_variables in
      main_loop workflow_config num_chars_to_log report_runtime plan' convenience_variables'
  end.

(** [max_num_chars_cmd_output]: [None] when absent or not an integer. *)
Definition main_num_chars_to_log (workflow_config : config) : option Z :=
  match DSConfig.get workflow_config "max_num_chars_cmd_output" with
  | Ok v => Py.int v
  | Raise _ => None
  end.

Definition lower_char (c : ascii) : ascii :=
  let n := nat_of_ascii c in
  if ((65 <=? n) && (n <=? 90))%nat then ascii_of_nat (n + 32) else c.

Fixpoint lower (s : string) : string :=
  match s with
  | EmptyString => EmptyString
  | String c s' => String (lower_char c) (lower s')
  end.

(** [report_runtimes]: reporting is on unless the directive reads [false]
    (in any case) or is empty. *)
Definition main_report_runtime (workflow_config : config) : bool :=
  match DSConfig.get workflow_config "report_runtimes" with
  | Ok v => if String.eqb (lower v) "false" then false else negb (Py.is_empty v)
  | Raise _ => true
  end.

Definition main_convenience_variables (now : datetime) : variables :=
  <["now" := VDatetime now]>
    (<["YrMn" := VStr (strftime_Ym now)]>
       (<["YrMnDy" := VStr (strftime_Ymd now)]>
          (<["curdate" := VStr (strftime_Y_m_d now)]> ∅))).

(** The queue lookup made before the loop when [zk_queue_path] is not
    empty. *)
Definition main_zookeeper (workflow_config : config) (convenience_variables : variables)
  : M variables :=
  match DSConfig.get workflow_config "zk_queue_path" with
  | Raise _ =>
      raise (WFConfigException
               (Some "ZK queue path directive not found in config file (can be empty but must be defined)"))
  | Ok workflow_zk_queue_path =>
      if Py.is_empty workflow_zk_queue_path then ret convenience_variables
      else
        λ st,
          match run_cmd (zookeeper_bin +:+ " qpoll " +:+ workflow_zk_queue_path) st with
          | (Ok zk_queue_value, st') =>
              (Ok (<["zk_queue_value" := VStr zk_queue_value]> convenience_variables), st')
          | (Raise e, st') =>
              if is_Exception e
              then (Raise (WFConfigException
                             (Some ("Nothing in the workflow queue '" +:+
                                    workflow_zk_queue_path +:+ "'"))), st')
              else (Raise e, st')
          end
  end.

(** Everything after parameter validation; the result is the dictionary as
    it stands when the program ends. *)
Definition main_workflow (workflow_config : config) (starting_command_num : Z)
  : M variables :=
  let num_chars_to_log := main_num_chars_to_log workflow_config in
  let report_runtime := main_report_runtime workflow_config in
  let! now_ := now in
  let! convenience_variables :=
    main_zookeeper workflow_config (main_convenience_variables now_) in
  track report_runtime "workflow" ;;
  let! plan := lift (get_workflow_cmd_num starting_command_num workflow_config) in
  let! convenience_variables :=
    main_loop workflow_config num_chars_to_log report_runtime plan convenience_variables in
  print ("Workflow completed at " +:+ datetime_str now_) ;;
  let! wf_runtime := report "workflow" in
  print_runtime ">> runtime: " wf_runtime ;;
  ret convenience_variables.

(** [sys.argv] holds the program name first.  One or two arguments
    ([len(sys.argv) > 1 and len(sys.argv) < 4]) are accepted. *)
Definition main (argv : list string) : M variables :=
  match argv with
  | [_; workflow_config_filename] =>
      λ st,
        match DSConfig_init H workflow_config_filename (st_world st) with
        | inr e => (Raise (WFConfigException (Some e)), st)
        | inl workflow_config => main_workflow workflow_config 1 st
        end
  | [_; workflow_config_filename; num] =>
      λ st,
        match DSConfig_init H workflow_config_filename (st_world st) with
        | inr e => (Raise (WFConfigException (Some e)), st)
        | inl workflow_config =>
            match Py.int num with
            | None => (Raise ValueError, st)
            | Some starting_command_num =>
                main_workflow workflow_config starting_command_num st
            end
        end
  | _ =>
      (* [raise WFConfigException(print_usage())]: [print_usage] returns
         [None], which is what [sys.exit] is given *)
      print_usage ;; raise (WFConfigException None)
  end.

Definition initial_state (w : world H) : state :=
  {| st_world := w; st_out := []; st_runtimes := ∅ |}.

End Runner.

Arguments st_world {H} _.
Arguments st_out {H} _.
Arguments st_runtimes {H} _.

(** The exit status of the interpreter: 0 when the script runs to its end or
    [sys.exit] is given [None], 1 when [sys.exit] is given a message (printed
    on standard error) or an exception is not caught. *)
Definition exit_status {A} (r : result A) : Z :=
  match r with
  | Ok _ => 0
  | Raise (SystemExit None) => 0
  | Raise _ => 1
  end.

(** ** A small host for running the program on examples

    The shell knows [echo], [true] and [false]; any other command is not
    found (a line on standard error, status 127).  The clock stands still;
    the configuration is the one given, or none can be read. *)

Fixpoint string_drop (n : nat) (s : string) : string :=
  match n, s with
  | S n', String _ s' => string_drop n' s'
  | _, _ => s
  end.

Definition demo_popen (cmd : string) (w : unit) : proc * unit :=
  if Py.starts_with "echo " cmd
  then ({| stdout := string_drop 5 cmd +:+ Py.newline; stderr := EmptyString;
           return_code := 0 |}, w)
  else if String.eqb cmd "true"
  then ({| stdout := EmptyString; stderr := EmptyString; return_code := 0 |}, w)
  else if String.eqb cmd "false"
  then ({| stdout := EmptyString; stderr := EmptyString; return_code := 1 |}, w)
  else ({| stdout := EmptyString;
           stderr := "bash: " +:+ cmd +:+ ": command not found";
           return_code := 127 |}, w).

Definition demo_now : datetime :=
  {| year := 2013; month := 10; day := 7; hour := 9; minute := 30; second := 0;
     microsecond := 0 |}.

Definition demo_host (cfg : option config) : Host :=
  {| world := unit;
     popen := demo_popen;
     datetime_now := λ w, (demo_now, w);
     timedelta_str := λ _ _, "0:00:00";
     dict_str := λ _, "{...}";
     DSConfig_init := λ _ _,
       match cfg with
       | Some c => inl c
       | None => inr "No configuration files for 'workflow_config' app found."
       end |}.

Definition demo_argv : list string := ["workflow_runner.py"; "wf.ini"].

Definition demo_run (cfg : option config) (argv : list string)
  : result variables * list string :=
  let r := main (demo_host cfg) argv (initial_state (demo_host cfg) tt) in
  (fst r, st_out (snd r)).

(** [1 = echo hello], [2 = echo %(cmd_1_output)s world] *)
Definition cfg_hello : config :=
  <["zk_queue_path" := EmptyString]>
    (<["report_runtimes" := "false"]>
       (<["1" := "echo hello"]> (<["2" := "echo %(cmd_1_output)s world"]> ∅))).

(** A failing command and a failing cleanup command. *)
Definition cfg_cleanup_fails : config :=
  <["zk_queue_path" := EmptyString]>
    (<["report_runtimes" := "false"]>
       (<["1" := "false"]> (<["premature_end_cmd" := "undo-step-one"]> ∅))).

(** A failing command and a cleanup command that succeeds. *)
Definition cfg_cleanup_ok : config :=
  <["zk_queue_path" := EmptyString]>
    (<["report_runtimes" := "false"]>
       (<["1" := "false"]> (<["premature_end_cmd" := "echo cleaned"]> ∅))).

(** A failing command and a cleanup command that reads a variable the
    dictionary does not have. *)
Definition cfg_cleanup_unexpandable : config :=
  <["zk_queue_path" := EmptyString]>
    (<["report_runtimes" := "false"]>
       (<["1" := "false"]> (<["premature_end_cmd" := "echo %(cmd_1_output)s"]> ∅))).

(** Commands 1 to 3 and an override list naming a number past the last. *)
Definition cfg_override_beyond : config :=
  <["always_run_cmds" := "1, 10"]>
    (<["1" := "echo a"]> (<["2" := "echo b"]> (<["3" := "echo c"]> ∅))).

Definition cfg_dense3 : config :=
  <["1" := "echo a"]> (<["2" := "echo b"]> (<["3" := "echo c"]> ∅)).

(** [max_num_chars_cmd_output = 5], [1 = echo hello world] *)
Definition cfg_capped : config :=
  <["zk_queue_path" := EmptyString]>
    (<["report_runtimes" := "false"]>
       (<["max_num_chars_cmd_output" := "5"]> (<["1" := "echo hello world"]> ∅))).


(** ** Notions used in the statements *)

(** [old in s]: [old] occurs somewhere in [s]. *)
Fixpoint contains (old s : string) : bool :=
  Py.starts_with old s ||
  match s with
  | EmptyString => false
  | String _ s' => contains old s'
  end.

(** A placeholder token in the sense of the usage notes: [%(name)] followed
    by its type indicator. *)
Definition has_placeholder (t : string) : Prop :=
  ∃ pre name post, t = pre +:+ "%(" +:+ name +:+ ")" +:+ post.

(** What one pass of the probing loop does to the list. *)
Definition add_new (cmd_num_list : list Z) (cmd_num : Z) : list Z :=
  if bool_decide (cmd_num ∈ cmd_num_list) then cmd_num_list else cmd_num_list ++ [cmd_num].

(** The number at which the probing loop started at [starting_cmd_num]
    breaks. *)
Definition first_missing (workflow_config : config) (starting_cmd_num : Z) : Z :=
  (probe_all workflow_config starting_cmd_num []).1.

Definition first_char (s : string) : option ascii :=
  match s with
  | EmptyString => None
  | String c _ => Some c
  end.

Fixpoint last_char (s : string) : option ascii :=
  match s with
  | EmptyString => None
  | String c EmptyString => Some c
  | String _ s' => last_char s'
  end.

Fixpoint all_space (s : string) : bool :=
  match s with
  | EmptyString => true
  | String c s' => Py.is_space c && all_space s'
  end.

(** Two states that differ at most in what has been printed. *)
Definition same_but_out {H : Host} (st1 st2 : state H) : Prop :=
  st_world st1 = st_world st2 ∧ st_runtimes st1 = st_runtimes st2.

(** Two computations that give the same result, and states that differ at
    most in what has been printed, when started from such states. *)
Definition agree {H : Host} {A} (m1 m2 : M H A) : Prop :=
  ∀ st1 st2, same_but_out st1 st2 →
    (m1 st1).1 = (m2 st2).1 ∧ same_but_out (m1 st1).2 (m2 st2).2.


(** ** More of [dslib/dsconfig.py]: the ZooKeeper lookup *)

(** What starting the client and waiting for it gives: the process has
    ended and its two streams have been read; or [Popen] raised [OSError],
    the client could not be started; or the call does not come back, the
    client being blocked on a full pipe while [wait()] waits for it. *)
Inductive spawned :=
| Exited (p : proc)
| NotStarted (errmsg : string)
| Stuck.

(** How a call of [_getZookeeper] ends. *)
Inductive lookup_end :=
| Returns (zk_value : string)
| RaisesConfigException (msg : string)
| RaisesOSError (errmsg : string)
| NeverReturns.

Section ZooKeeper.

(** The outside world of the lookup and [subprocess.Popen(argv)] on an
    argument list (no shell), followed by [wait()] and [communicate()]. *)
Context {W : Type} (popen_argv : list string → W → spawned * W).

Definition _zookeeper_bin : string := "/usr/local/bin/zk".

(** [DSConfig._getZookeeper]; [zk_value.count("FATAL") > 0] says that
    ["FATAL"] occurs in the value. *)
Definition _getZookeeper (zk_base_path zk_key : string) (w : W) : lookup_end * W :=
  let '(r, w') :=
    popen_argv [_zookeeper_bin; "get"; zk_base_path +:+ "/" +:+ zk_key] w in
  match r with
  | NotStarted errmsg => (RaisesOSError errmsg, w')
  | Stuck => (NeverReturns, w')
  | Exited p =>
      if negb (Py.is_empty (stderr p))
      then (RaisesConfigException ("Error running zookeeper: " +:+ stderr p), w')
      else if contains "FATAL" (stdout p)
      then (RaisesConfigException ("ZooKeeper error: " +:+ stdout p), w')
      else (Returns (Py.strip (stdout p)), w')
  end.

End ZooKeeper.

(** ** More notions used in the statements *)

(** [sep.join(l)] *)
Fixpoint py_join (sep : string) (l : list string) : string :=
  match l with
  | [] => EmptyString
  | [x] => x
  | x :: l' => x +:+ sep +:+ py_join sep l'
  end.

(** The pieces a command template is written with: text, the escape [%%]
    and the placeholder [%(name)s]. *)
Inductive segment :=
| Text (s : string)
| Percent
| Ref (name : string).

Definition segment_text (g : segment) : string :=
  match g with
  | Text s => s
  | Percent => "%%"
  | Ref name => "%(" +:+ name +:+ ")s"
  end.

Fixpoint template (gs : list segment) : string :=
  match gs with
  | [] => EmptyString
  | g :: gs' => segment_text g +:+ template gs'
  end.

(** Text holds no percent sign, a name no parenthesis. *)
Definition segment_ok (g : segment) : bool :=
  match g with
  | Text s => negb (Py.mem "%" s)
  | Percent => true
  | Ref name => negb (Py.mem "(" name) && negb (Py.mem ")" name)
  end.

Definition segment_value (v : variables) (g : segment) : option string :=
  match g with
  | Text s => Some s
  | Percent => Some "%"
  | Ref name => pyval_str <$> v !! name
  end.

(** The pieces put together again with each placeholder replaced by the
    [str] of its value; [None] when a name has no entry. *)
Fixpoint template_value (v : variables) (gs : list segment) : option string :=
  match gs with
  | [] => Some EmptyString
  | g :: gs' =>
      match segment_value v g, template_value v gs' with
      | Some a, Some b => Some (a +:+ b)
      | _, _ => None
      end
  end.

(** The names under which the loop stores the outputs of a plan. *)
Definition output_keys (plan : list Z) : gset string :=
  list_to_set (cmd_output_key <$> plan).

(** What [run_cmd] takes for a failure: something on standard error, or a
    status other than 0. *)
Definition is_failure (p : proc) : bool :=
  negb (Py.is_empty (stderr p)) || negb (return_code p =? 0).

(** The message of the exception [run_cmd] raises for a failed process. *)
Definition run_cmd_message (p : proc) : string :=
  stdout p +:+ Py.newline +:+ "Unexpected return code or value: " +:+
  Py.str_int (return_code p) +:+ ", " +:+ stderr p.

(** Commands 1 and 2 and an override list with a malformed entry. *)
Definition cfg_override_malformed : config :=
  <["always_run_cmds" := "1, two"]> (<["1" := "echo a"]> (<["2" := "echo b"]> ∅)).

(** Commands 1 to 3 with command 1 named twice in the override list. *)
Definition cfg_override_twice : config :=
  <["always_run_cmds" := "1,1"]>
    (<["1" := "echo a"]> (<["2" := "echo b"]> (<["3" := "echo c"]> ∅))).

(** A queue path whose lookup fails on the example host. *)
Definition cfg_gate : config :=
  <["zk_queue_path" := "/queues/daily"]> (<["1" := "echo a"]> ∅).

(** A ZooKeeper client for the examples: one key is known, one is reported
    missing, and for any other argument list the client cannot be started. *)
Definition demo_zk (argv : list string) (w : unit) : spawned * unit :=
  match argv with
  | [_; "get"; "/ds/app/mode"] =>
      (Exited {| stdout := " batch " +:+ Py.newline; stderr := EmptyString;
                 return_code := 0 |}, w)
  | [_; "get"; "/ds/app/missing"] =>
      (Exited {| stdout := "FATAL: node does not exist"; stderr := EmptyString;
                 return_code := 0 |}, w)
  | _ => (NotStarted "[Errno 2] No such file or directory", w)
  end.

(** Command 1 reads the output of command 2, which has not run, and the
    cleanup command fails. *)
Definition cfg_missing_variable : config :=
  <["1" := "echo %(cmd_2_output)s"]> cfg_cleanup_fails.


(** * Properties *)

(** ** Sanity checks of the built-ins *)
Example strip_ex : Py.strip (" hello world" +:+ Py.newline) = "hello world".
Proof. reflexivity. Qed.
Example split_ex : Py.split "," "1, 2,10" = ["1"; " 2"; "10"].
Proof. reflexivity. Qed.
Example split_empty_ex : Py.split "," EmptyString = [EmptyString].
Proof. reflexivity. Qed.
Example int_ex : Py.int " -42 " = Some (-42) ∧ Py.int "4x" = None ∧ Py.int EmptyString = None.
Proof. repeat split; reflexivity. Qed.
Example slice_ex :
  Py.slice_to "hello world" (Some 5) = "hello" ∧
  Py.slice_to "hello" (Some (-1)) = "hell" ∧
  Py.slice_to "hello" None = "hello".
Proof. repeat split; reflexivity. Qed.
Example replace_ex : Py.replace "_PERC_" "%" "date +_PERC_Y_PERC_m" = "date +%Y%m".
Proof. reflexivity. Qed.
Example repr_ex : Py.repr "cmd_2_output" = "'cmd_2_output'".
Proof. reflexivity. Qed.

Example demo_hello :
  demo_run (Some cfg_hello) demo_argv =
  (Ok (<["cmd_2_output" := VStr "hello world"]>
         (<["cmd_1_output" := VStr "hello"]> (main_convenience_variables demo_now))),
   ["#1 >> echo hello ..."; "hello";
    "#2 >> echo hello world ..."; "hello world";
    "Workflow completed at 2013-10-07 09:30:00"]).
Proof. vm_compute. reflexivity. Qed.

(** ** Strings *)

Lemma append_cons x (a b : string) : String x a +:+ b = String x (a +:+ b).
Proof. reflexivity. Qed.

Lemma append_empty_l (a : string) : EmptyString +:+ a = a.
Proof. reflexivity. Qed.

Lemma append_assoc (a b c : string) : (a +:+ b) +:+ c = a +:+ (b +:+ c).
Proof. induction a as [|x a IH]; [done | by rewrite !append_cons, IH]. Qed.

Lemma append_empty_r (a : string) : a +:+ EmptyString = a.
Proof. induction a as [|x a IH]; [done | by rewrite append_cons, IH]. Qed.

Lemma mem_cons c x s : Py.mem c (String x s) = Ascii.eqb c x || Py.mem c s.
Proof. reflexivity. Qed.

Lemma mem_append c a b : Py.mem c (a +:+ b) = Py.mem c a || Py.mem c b.
Proof.
  induction a as [|x a IH]; [done |].
  rewrite append_cons, !mem_cons, IH. by rewrite orb_assoc.
Qed.

Lemma starts_with_split p s :
  Py.starts_with p s = true → ∃ post, s = p +:+ post.
Proof.
  revert s. induction p as [|a p IH]; intros s Hs; simpl in *.
  - by exists s.
  - destruct s as [|b s]; [done |].
    apply andb_prop in Hs as [Hab Hp].
    apply Ascii.eqb_eq in Hab as ->.
    destruct (IH _ Hp) as [post ->]. by exists post.
Qed.

Lemma starts_with_append p post : Py.starts_with p (p +:+ post) = true.
Proof.
  induction p as [|a p IH]; [done |].
  rewrite append_cons. cbn [Py.starts_with]. by rewrite Ascii.eqb_refl, IH.
Qed.

(** [contains old s] is [old in s]: [old] occurs somewhere in [s]. *)
Lemma contains_spec old s :
  contains old s = true ↔ ∃ pre post, s = pre +:+ old +:+ post.
Proof.
  split.
  - induction s as [|c s IH]; cbn [contains]; intros Hc.
    + rewrite orb_false_r in Hc. destruct (starts_with_split _ _ Hc) as [post ->].
      by exists EmptyString, post.
    + apply orb_prop in Hc as [Hc|Hc].
      * destruct (starts_with_split _ _ Hc) as [post ->]. by exists EmptyString, post.
      * destruct (IH Hc) as (pre & post & ->). by exists (String c pre), post.
  - intros (pre & post & ->). induction pre as [|c pre IH].
    + rewrite append_empty_l.
      destruct (old +:+ post) eqn:E; cbn [contains]; rewrite <- E;
        by rewrite starts_with_append.
    + rewrite append_cons. cbn [contains]. rewrite IH. apply orb_true_r.
Qed.

(** A string in which [old] does not occur is left alone by [replace]. *)
Lemma replace_absent old new s :
  contains old s = false → Py.replace old new s = s.
Proof.
  unfold Py.replace. induction s as [|c s IH]; intros Habs; [done |].
  cbn [contains] in Habs. apply orb_false_elim in Habs as [Hsw Hrest].
  cbn [Py.replace_from]. rewrite Hsw. f_equal. by apply IH.
Qed.

(** ** The formatting operator *)

Section FormatFacts.

Variable dict_str : variables → string.
Variable vars : variables.

Lemma frun_app m a s1 s2 :
  frun dict_str vars m a (s1 +:+ s2) =
  match frun dict_str vars m a s1 with
  | Raise e => Raise e
  | Ok (o1, (m', a')) =>
      match frun dict_str vars m' a' s2 with
      | Raise e => Raise e
      | Ok (o2, fin) => Ok (o1 +:+ o2, fin)
      end
  end.
Proof.
  revert m a. induction s1 as [|c s1 IH]; intros m a.
  - rewrite append_empty_l. simpl. destruct (frun dict_str vars m a s2) as [[o2 fin]|e]; done.
  - rewrite append_cons. simpl. destruct (fstep dict_str vars m a c) as [[[m' a'] out]|e]; [|done].
    rewrite IH. destruct (frun dict_str vars m' a' s1) as [[o1 [m1 a1]]|e]; [|done].
    destruct (frun dict_str vars m1 a1 s2) as [[o2 fin]|e]; [|done].
    by rewrite append_assoc.
Qed.

Lemma frun_cons m a c s :
  frun dict_str vars m a (String c s) =
  match fstep dict_str vars m a c with
  | Raise e => Raise e
  | Ok (m', a', out) =>
      match frun dict_str vars m' a' s with
      | Raise e => Raise e
      | Ok (o, fin) => Ok (out +:+ o, fin)
      end
  end.
Proof. reflexivity. Qed.

(** Text without a percent sign is copied as it is. *)
Lemma frun_text a s :
  Py.mem "%" s = false → frun dict_str vars FText a s = Ok (s, (FText, a)).
Proof.
  induction s as [|c s IH]; intros Hs; [done |].
  rewrite mem_cons in Hs. apply orb_false_elim in Hs as [Hc Hs].
  simpl. rewrite Ascii.eqb_sym, Hc. by rewrite (IH Hs).
Qed.

Lemma format_text s : Py.mem "%" s = false → format dict_str vars s = Ok s.
Proof. intros Hs. unfold format. by rewrite (frun_text _ _ Hs). Qed.

(** Inside a key with one parenthesis open, characters other than
    parentheses are collected. *)
Lemma frun_key a key name s :
  Py.mem "(" name = false → Py.mem ")" name = false →
  frun dict_str vars (FKey 1 key) a (name +:+ s) = frun dict_str vars (FKey 1 (key +:+ name)) a s.
Proof.
  revert key. induction name as [|c name IH]; intros key Ho Hc.
  - by rewrite append_empty_r.
  - rewrite mem_cons in Ho, Hc.
    apply orb_false_elim in Ho as [Ho1 Ho], Hc as [Hc1 Hc].
    rewrite append_cons. cbn [frun fstep].
    rewrite (Ascii.eqb_sym c ")"), Hc1, (Ascii.eqb_sym c "("), Ho1.
    rewrite (IH _ Ho Hc), append_assoc, append_cons, append_empty_l.
    by destruct (frun dict_str vars _ a s) as [[o fin]|e].
Qed.

(** A placeholder reached in text whose name has no entry raises
    [KeyError] with that name, whatever follows. *)
Lemma frun_missing a name rest :
  Py.mem "(" name = false → Py.mem ")" name = false →
  vars !! name = None →
  frun dict_str vars FText a ("%(" +:+ name +:+ ")" +:+ rest) = Raise (KeyError name).
Proof.
  intros Ho Hc Hnone.
  change ("%(" +:+ name +:+ ")" +:+ rest)
    with (String "%" (String "(" (name +:+ String ")" rest))).
  rewrite (frun_cons FText).
  change (fstep dict_str vars FText a "%") with (Ok (FPercent, a, EmptyString)).
  cbv beta iota. rewrite (frun_cons FPercent).
  change (fstep dict_str vars FPercent a "(") with (Ok (FKey 1 EmptyString, a, EmptyString)).
  cbv beta iota. rewrite (frun_key _ _ _ _ Ho Hc), append_empty_l, frun_cons.
  replace (fstep dict_str vars (FKey 1 name) a ")") with (@Raise (fmode * option farg * string) (KeyError name)); [done |].
  cbn [fstep]. change (Ascii.eqb ")" ")") with true. cbv iota. by rewrite Hnone.
Qed.

Lemma format_Ok_frun fmt s :
  format dict_str vars fmt = Ok s → ∃ a, frun dict_str vars FText (Some ADict) fmt = Ok (s, (FText, a)).
Proof.
  unfold format. destruct (frun dict_str vars FText (Some ADict) fmt) as [[o [m a]]|e]; [|done].
  destruct m; intros [= ->]. by exists a.
Qed.

Lemma format_missing pre name rest s :
  format dict_str vars pre = Ok s →
  Py.mem "(" name = false → Py.mem ")" name = false →
  vars !! name = None →
  format dict_str vars (pre +:+ "%(" +:+ name +:+ ")" +:+ rest) = Raise (KeyError name).
Proof.
  intros Hpre Ho Hc Hnone. destruct (format_Ok_frun _ _ Hpre) as [a Ha].
  unfold format. rewrite frun_app, Ha.
  by rewrite (frun_missing a name rest Ho Hc Hnone).
Qed.

End FormatFacts.

(** ** [prepare_cmd] *)

Lemma has_placeholder_percent t : has_placeholder t → Py.mem "%" t = true.
Proof.
  intros (pre & name & post & ->). rewrite mem_append.
  change ("%(" +:+ name +:+ ")" +:+ post) with (String "%" ("(" +:+ name +:+ ")" +:+ post)).
  rewrite mem_cons. change (Ascii.eqb "%" "%") with true. apply orb_true_r.
Qed.

Lemma recursion_limit_S : ∃ d, recursion_limit = S d.
Proof. by exists 999%nat. Qed.

Section PrepareFacts.

Context (H : Host) (workflow_config : config).

Lemma prepare_cmd_Ok command_num t v st s :
  format (dict_str H) v t = Ok s →
  prepare_cmd H workflow_config command_num t v st = (Ok (Py.replace "_PERC_" "%" s), st).
Proof. unfold prepare_cmd, prepare_cmd_with. by intros ->. Qed.

Lemma prepare_cmd_KeyError command_num t v st key :
  format (dict_str H) v t = Raise (KeyError key) →
  prepare_cmd H workflow_config command_num t v st =
  (Raise (WorkflowException H recursion_limit workflow_config command_num
            ("Required variable not found during execution " +:+ Py.repr key) v st).1,
   (WorkflowException H recursion_limit workflow_config command_num
      ("Required variable not found during execution " +:+ Py.repr key) v st).2).
Proof.
  unfold prepare_cmd, prepare_cmd_with. intros ->.
  by destruct (WorkflowException _ _ _ _ _ _ _).
Qed.

(** Without a [premature_end_cmd] directive the constructor goes straight
    to [sys.exit]. *)
Lemma WorkflowException_no_directive d command_num emsg v st :
  workflow_config !! "premature_end_cmd" = None →
  WorkflowException H (S d) workflow_config command_num emsg v st =
  (SystemExit (Some (premature_message command_num emsg)), st).
Proof. intros Hnone. cbn [WorkflowException]. unfold DSConfig.get. by rewrite Hnone. Qed.

End PrepareFacts.

(** C5. [prepare_cmd] turns [_PERC_] into a percent sign on the text that
    substitution has produced: the formatter itself never sees a percent sign
    where the template has the escape token, so a template without percent
    signs expands to itself with the tokens restored, whatever the variables;
    ["a_PERC_b"] expands to ["a%b"] against the empty dictionary, and
    ["_PERC_(x)s"] expands to the text ["%(x)s"], not to the value of [x]. *)
Theorem prepare_cmd_restores_percent_after_substitution
    (H : Host) (workflow_config : config) (command_num : Z) (v : variables)
    (st : state H) :
  (∀ t s, format (dict_str H) v t = Ok s →
     prepare_cmd H workflow_config command_num t v st =
     (Ok (Py.replace "_PERC_" "%" s), st)) ∧
  (∀ t, Py.mem "%" t = false →
     prepare_cmd H workflow_config command_num t v st =
     (Ok (Py.replace "_PERC_" "%" t), st)) ∧
  prepare_cmd H workflow_config command_num "a_PERC_b" ∅ st = (Ok "a%b", st) ∧
  prepare_cmd H workflow_config command_num "_PERC_(x)s" (<["x" := VStr "v"]> ∅) st =
  (Ok "%(x)s", st).
Proof.
  split; [|split; [|split]].
  - intros t s Hs. by apply prepare_cmd_Ok.
  - intros t Ht. apply prepare_cmd_Ok. by apply format_text.
  - by rewrite (prepare_cmd_Ok H workflow_config command_num "a_PERC_b" ∅ st "a_PERC_b").
  - by rewrite (prepare_cmd_Ok H workflow_config command_num "_PERC_(x)s" _ st "_PERC_(x)s").
Qed.

Lemma prepare_cmd_restores_percent_witness :
  Py.mem "%" "date +_PERC_Y_PERC_m" = false ∧
  prepare_cmd (demo_host None) ∅ 3 "date +_PERC_Y_PERC_m"
    (main_convenience_variables demo_now) (initial_state (demo_host None) tt) =
  (Ok "date +%Y%m", initial_state (demo_host None) tt).
Proof.
  split; [reflexivity |].
  exact (proj1 (proj2 (prepare_cmd_restores_percent_after_substitution
                         (demo_host None) ∅ 3 (main_convenience_variables demo_now)
                         (initial_state (demo_host None) tt)))
           "date +_PERC_Y_PERC_m" eq_refl).
Defined.

(** C6, as stated, fails: a template without any placeholder token that
    holds the escape token does not expand to itself. *)
Lemma expand_identity_counterexample :
  ¬ (∀ t v, ¬ has_placeholder t →
       (prepare_cmd (demo_host None) ∅ 1 t v (initial_state (demo_host None) tt)).1 = Ok t).
Proof.
  intros Hall. specialize (Hall "a_PERC_b" ∅).
  assert (¬ has_placeholder "a_PERC_b") as Hno.
  { intros Hp. apply has_placeholder_percent in Hp. discriminate Hp. }
  specialize (Hall Hno). vm_compute in Hall. discriminate Hall.
Qed.

(** C6, amended. A template with no percent sign and no occurrence of the
    escape token [_PERC_] expands to itself, whatever the variables, and
    expansion leaves the state alone. *)
Theorem prepare_cmd_identity
    (H : Host) (workflow_config : config) (command_num : Z) (t : string)
    (v : variables) (st : state H) :
  Py.mem "%" t = false →
  contains "_PERC_" t = false →
  prepare_cmd H workflow_config command_num t v st = (Ok t, st).
Proof.
  intros Hpct Hesc.
  rewrite (prepare_cmd_Ok H workflow_config command_num t v st t (format_text _ _ _ Hpct)).
  by rewrite (replace_absent _ _ _ Hesc).
Qed.

Lemma prepare_cmd_identity_witness :
  Py.mem "%" "ls /" = false ∧ contains "_PERC_" "ls /" = false ∧
  prepare_cmd (demo_host None) ∅ 1 "ls /" ∅ (initial_state (demo_host None) tt) =
  (Ok "ls /", initial_state (demo_host None) tt).
Proof.
  split; [reflexivity | split; [reflexivity |]].
  apply (prepare_cmd_identity (demo_host None) ∅ 1 "ls /" ∅); reflexivity.
Defined.

(** A template in which the formatter reaches a placeholder [%(name)]
    whose name has no entry in the dictionary does not expand: the lookup
    raises [KeyError] with that name, [prepare_cmd] never returns a command
    (so nothing, and in particular no empty string, is substituted) and hands
    the failure, with a message naming the variable, to [WorkflowException];
    without a cleanup directive the program exits with that message.  What
    leaves [WorkflowException] when a cleanup directive is there is the
    matter of the lemmas on the cleanup below. *)
Theorem prepare_cmd_missing_variable
    (H : Host) (workflow_config : config) (command_num : Z)
    (pre name rest : string) (v : variables) (st : state H) (s : string) :
  format (dict_str H) v pre = Ok s →
  Py.mem "(" name = false → Py.mem ")" name = false →
  v !! name = None →
  let t := pre +:+ "%(" +:+ name +:+ ")" +:+ rest in
  let emsg := "Required variable not found during execution " +:+ Py.repr name in
  format (dict_str H) v t = Raise (KeyError name) ∧
  (∀ out, (prepare_cmd H workflow_config command_num t v st).1 ≠ Ok out) ∧
  prepare_cmd H workflow_config command_num t v st =
    (Raise (WorkflowException H recursion_limit workflow_config command_num emsg v st).1,
     (WorkflowException H recursion_limit workflow_config command_num emsg v st).2) ∧
  (workflow_config !! "premature_end_cmd" = None →
   prepare_cmd H workflow_config command_num t v st =
   (Raise (SystemExit (Some (premature_message command_num emsg))), st)).
Proof.
  intros Hpre Ho Hc Hnone t emsg.
  pose proof (format_missing (dict_str H) v pre name rest s Hpre Ho Hc Hnone) as Hfmt.
  pose proof (prepare_cmd_KeyError H workflow_config command_num t v st name Hfmt) as Hprep.
  fold emsg in Hprep.
  split; [exact Hfmt | split; [| split; [exact Hprep |]]].
  - intros out. by rewrite Hprep.
  - intros Hcfg. rewrite Hprep. destruct recursion_limit_S as [d ->].
    by rewrite (WorkflowException_no_directive H workflow_config d _ _ _ _ Hcfg).
Qed.

Lemma prepare_cmd_missing_variable_witness :
  prepare_cmd (demo_host None) cfg_hello 1 "echo %(cmd_2_output)s"
    (<["cmd_1_output" := VStr "hello"]> (main_convenience_variables demo_now))
    (initial_state (demo_host None) tt) =
  (Raise (SystemExit (Some "Workflow ended prematurely, #1 command error: Required variable not found during execution 'cmd_2_output'")),
   initial_state (demo_host None) tt).
Proof.
  apply (prepare_cmd_missing_variable (demo_host None) cfg_hello 1
           "echo " "cmd_2_output" "s"
           (<["cmd_1_output" := VStr "hello"]> (main_convenience_variables demo_now))
           (initial_state (demo_host None) tt) "echo ");
    reflexivity.
Defined.

(** A command that reads the output of a later command. *)
Example demo_reads_later_output :
  demo_run (Some (<["1" := "echo %(cmd_2_output)s"]> cfg_hello)) demo_argv =
  (Raise (SystemExit (Some "Workflow ended prematurely, #1 command error: Required variable not found during execution 'cmd_2_output'")),
   []).
Proof. vm_compute. reflexivity. Qed.

(** ** [get_workflow_cmd_num] *)

Section Sequencer.

Variable workflow_config : config.

Lemma probe_None fuel cmd_num l :
  probe fuel workflow_config cmd_num l = None →
  ∀ i : nat, (i < fuel)%nat →
    DSConfig.has_option workflow_config (Py.str_int (cmd_num + Z.of_nat i)) = true.
Proof.
  revert cmd_num l. induction fuel as [|fuel IH]; intros cmd_num l Hp i Hi; [lia |].
  cbn [probe] in Hp.
  destruct (DSConfig.has_option workflow_config (Py.str_int cmd_num)) eqn:Hopt; [|done].
  destruct i as [|i].
  - by rewrite Z.add_0_r.
  - replace (cmd_num + Z.of_nat (S i)) with (cmd_num + 1 + Z.of_nat i) by lia.
    eapply IH; [exact Hp | lia].
Qed.

(** The loop ends: the numbers probed have distinct names, and the section
    has room for [size workflow_config] of them only. *)
Lemma probe_terminates cmd_num l :
  is_Some (probe (probe_fuel workflow_config) workflow_config cmd_num l).
Proof.
  destruct (probe _ _ cmd_num l) as [r|] eqn:Hp; [by eexists |]. exfalso.
  pose proof (probe_None _ _ _ Hp) as Hall. unfold probe_fuel in Hall.
  set (n := S (size workflow_config)) in *.
  set (names := (λ i : nat, Py.str_int (cmd_num + Z.of_nat i)) <$> seq 0 n).
  assert (NoDup names) as Hnd.
  { apply NoDup_fmap_2; [| apply NoDup_seq].
    intros i j Hij. unfold Py.str_int in Hij. apply (inj pretty) in Hij. lia. }
  assert (list_to_set names ⊆ dom workflow_config) as Hsub.
  { intros x Hx. apply elem_of_list_to_set in Hx.
    apply list_elem_of_fmap in Hx as (i & -> & Hi).
    apply elem_of_seq in Hi. apply elem_of_dom.
    specialize (Hall i ltac:(lia)). unfold DSConfig.has_option in Hall.
    by apply bool_decide_eq_true in Hall. }
  apply subseteq_size in Hsub.
  rewrite size_list_to_set in Hsub by done.
  rewrite size_dom in Hsub. unfold names in Hsub.
  rewrite length_fmap, length_seq in Hsub. lia.
Qed.

Lemma probe_Some fuel cmd_num l stop l' :
  probe fuel workflow_config cmd_num l = Some (stop, l') →
  cmd_num ≤ stop ∧
  (∀ k, cmd_num ≤ k < stop →
     DSConfig.has_option workflow_config (Py.str_int k) = true) ∧
  DSConfig.has_option workflow_config (Py.str_int stop) = false ∧
  l' = foldl add_new l (seqZ cmd_num (stop - cmd_num)).
Proof.
  revert cmd_num l. induction fuel as [|fuel IH]; intros cmd_num l Hp; [done |].
  cbn [probe] in Hp.
  destruct (DSConfig.has_option workflow_config (Py.str_int cmd_num)) eqn:Hopt.
  - apply IH in Hp as (Hle & Hin & Hout & ->).
    split; [lia |]. split; [| split; [done |]].
    + intros k Hk. destruct (decide (k = cmd_num)) as [->|]; [done |].
      apply Hin. lia.
    + rewrite (seqZ_cons cmd_num) by lia. cbn [foldl].
      by replace (Z.pred (stop - cmd_num)) with (stop - (cmd_num + 1)) by lia.
  - injection Hp as <- <-. split; [lia |]. split; [intros k Hk; lia |].
    split; [done |]. by rewrite Z.sub_diag.
Qed.

Lemma probe_all_spec cmd_num l :
  ∃ stop,
    probe_all workflow_config cmd_num l =
      (stop, foldl add_new l (seqZ cmd_num (stop - cmd_num))) ∧
    cmd_num ≤ stop ∧
    (∀ k, cmd_num ≤ k < stop →
       DSConfig.has_option workflow_config (Py.str_int k) = true) ∧
    DSConfig.has_option workflow_config (Py.str_int stop) = false.
Proof.
  unfold probe_all. destruct (probe_terminates cmd_num l) as [[stop l'] Hp].
  rewrite Hp. apply probe_Some in Hp as (Hle & Hin & Hout & ->). by exists stop.
Qed.

(** Where the loop breaks is decided by the section alone. *)
Lemma probe_boundary_unique cmd_num stop stop' :
  cmd_num ≤ stop → cmd_num ≤ stop' →
  (∀ k, cmd_num ≤ k < stop →
     DSConfig.has_option workflow_config (Py.str_int k) = true) →
  (∀ k, cmd_num ≤ k < stop' →
     DSConfig.has_option workflow_config (Py.str_int k) = true) →
  DSConfig.has_option workflow_config (Py.str_int stop) = false →
  DSConfig.has_option workflow_config (Py.str_int stop') = false →
  stop = stop'.
Proof.
  intros Hle Hle' Hin Hin' Hout Hout'.
  destruct (Z.lt_trichotomy stop stop') as [Hlt|[->|Hlt]]; [| done |].
  - rewrite Hin' in Hout by lia. done.
  - rewrite Hin in Hout' by lia. done.
Qed.

Lemma probe_all_boundary cmd_num l :
  (probe_all workflow_config cmd_num l).1 = first_missing workflow_config cmd_num.
Proof.
  unfold first_missing.
  destruct (probe_all_spec cmd_num l) as (stop & -> & Hle & Hin & Hout).
  destruct (probe_all_spec cmd_num []) as (stop' & -> & Hle' & Hin' & Hout').
  by apply (probe_boundary_unique cmd_num).
Qed.

Lemma first_missing_spec cmd_num :
  cmd_num ≤ first_missing workflow_config cmd_num ∧
  (∀ k, cmd_num ≤ k < first_missing workflow_config cmd_num →
     DSConfig.has_option workflow_config (Py.str_int k) = true) ∧
  DSConfig.has_option workflow_config (Py.str_int (first_missing workflow_config cmd_num))
    = false.
Proof.
  unfold first_missing.
  by destruct (probe_all_spec cmd_num []) as (stop & -> & Hle & Hin & Hout).
Qed.

End Sequencer.

Lemma elem_of_foldl_add_new (xs l : list Z) (n : Z) :
  n ∈ foldl add_new l xs ↔ n ∈ l ∨ n ∈ xs.
Proof.
  revert l. induction xs as [|x xs IH]; intros l; cbn [foldl].
  - rewrite elem_of_nil. tauto.
  - rewrite IH, elem_of_cons. unfold add_new. case_bool_decide as Hx.
    + split; [intros [?|?]; [by left | by right; right] |].
      intros [?|[->|?]]; [by left | by left | by right].
    + rewrite elem_of_app, list_elem_of_singleton. tauto.
Qed.

Lemma foldl_add_new_fresh (xs l : list Z) :
  NoDup (l ++ xs) → foldl add_new l xs = l ++ xs.
Proof.
  revert l. induction xs as [|x xs IH]; intros l Hnd; cbn [foldl].
  - by rewrite app_nil_r.
  - unfold add_new. case_bool_decide as Hx.
    + apply NoDup_app in Hnd as (_ & Hdis & _). destruct (Hdis x Hx). by left.
    + rewrite IH; rewrite <- app_assoc; done.
Qed.

Lemma Sorted_seqZ (len : nat) (m : Z) : Sorted Z.le (seqZ m (Z.of_nat len)).
Proof.
  revert m. induction len as [|len IH]; intros m.
  - rewrite seqZ_nil by lia. constructor.
  - rewrite seqZ_cons by lia.
    replace (Z.pred (Z.of_nat (S len))) with (Z.of_nat len) by lia.
    constructor; [apply IH |].
    destruct len as [|len]; [rewrite seqZ_nil by lia; constructor |].
    rewrite seqZ_cons by lia. constructor. lia.
Qed.

Lemma merge_sort_seqZ (m len : Z) : merge_sort Z.le (seqZ m len) = seqZ m len.
Proof.
  apply (Sorted_unique Z.le).
  - apply (Sorted_merge_sort Z.le).
  - destruct (decide (0 ≤ len)) as [Hlen|Hlen].
    + rewrite <- (Z2Nat.id len) by done. apply Sorted_seqZ.
    + rewrite seqZ_nil by lia. constructor.
  - apply merge_sort_Permutation.
Qed.

Lemma elem_of_seqZ' (m len n : Z) : n ∈ seqZ m len ↔ m ≤ n < m + len.
Proof. rewrite elem_of_seqZ. lia. Qed.

Lemma get_workflow_cmd_num_Ok starting_cmd_num workflow_config plan :
  get_workflow_cmd_num starting_cmd_num workflow_config = Ok plan →
  ∃ overrides,
    always_run_cmds starting_cmd_num workflow_config = Ok overrides ∧
    plan = merge_sort Z.le
             (foldl add_new overrides
                (seqZ starting_cmd_num
                   (first_missing workflow_config starting_cmd_num - starting_cmd_num))).
Proof.
  unfold get_workflow_cmd_num.
  destruct (always_run_cmds starting_cmd_num workflow_config) as [overrides|e]; [|done].
  pose proof (probe_all_boundary workflow_config starting_cmd_num overrides) as Hb.
  destruct (probe_all_spec workflow_config starting_cmd_num overrides)
    as (stop & Hpa & _). rewrite Hpa in Hb |- *. cbn [fst snd] in *. subst stop.
  destruct (List.length _ =? 0)%nat; [done |]. intros [= <-]. by exists overrides.
Qed.

(** C2, as stated, fails: with commands 1 to 3 and [always_run_cmds = 1, 10],
    the plan from starting number 2 holds 10, past the probed run 2..3. *)
Lemma plan_bounded_by_probe_counterexample :
  ¬ (∀ workflow_config starting_cmd_num plan,
       get_workflow_cmd_num starting_cmd_num workflow_config = Ok plan →
       ∀ n, n ∈ plan → n < first_missing workflow_config starting_cmd_num).
Proof.
  intros Hall.
  specialize (Hall cfg_override_beyond 2 [1; 2; 3; 10] eq_refl 10).
  assert (first_missing cfg_override_beyond 2 = 4) as Hfm by reflexivity.
  rewrite Hfm in Hall. assert (10 ∈ [1; 2; 3; 10]) as Hin by set_solver.
  specialize (Hall Hin). lia.
Qed.

(** C2, amended. The plan holds exactly the numbers of the override list
    (read only when the starting number is above 1) and of the contiguous run
    probed from the starting number, in ascending order; a number of the plan
    past that run is one the override list names.  Where the probe stops is
    decided by the numbered directives alone: it is the first number from the
    starting number on without a directive, whatever the override list. *)
Theorem plan_is_overrides_and_probed_run
    (workflow_config : config) (starting_cmd_num : Z) (plan : list Z) :
  get_workflow_cmd_num starting_cmd_num workflow_config = Ok plan →
  ∃ overrides,
    always_run_cmds starting_cmd_num workflow_config = Ok overrides ∧
    (starting_cmd_num ≤ 1 → overrides = []) ∧
    (∀ n, n ∈ plan ↔
          n ∈ overrides ∨
          starting_cmd_num ≤ n < first_missing workflow_config starting_cmd_num) ∧
    (∀ n, n ∈ plan → first_missing workflow_config starting_cmd_num ≤ n → n ∈ overrides) ∧
    Sorted Z.le plan ∧
    (∀ l, (probe_all workflow_config starting_cmd_num l).1 =
          first_missing workflow_config starting_cmd_num) ∧
    starting_cmd_num ≤ first_missing workflow_config starting_cmd_num ∧
    (∀ k, starting_cmd_num ≤ k < first_missing workflow_config starting_cmd_num →
          DSConfig.has_option workflow_config (Py.str_int k) = true) ∧
    DSConfig.has_option workflow_config
      (Py.str_int (first_missing workflow_config starting_cmd_num)) = false.
Proof.
  intros Hplan.
  destruct (get_workflow_cmd_num_Ok _ _ _ Hplan) as (overrides & Hov & ->).
  destruct (first_missing_spec workflow_config starting_cmd_num) as (Hle & Hin & Hout).
  assert (∀ n, n ∈ merge_sort Z.le
                 (foldl add_new overrides
                    (seqZ starting_cmd_num
                       (first_missing workflow_config starting_cmd_num - starting_cmd_num))) ↔
               n ∈ overrides ∨
               starting_cmd_num ≤ n < first_missing workflow_config starting_cmd_num)
    as Hmem.
  { intros n. rewrite merge_sort_Permutation, elem_of_foldl_add_new, elem_of_seqZ'.
    split; (intros [?|?]; [by left | right; lia]). }
  exists overrides. split; [done |]. split.
  { intros Hs. unfold always_run_cmds in Hov.
    destruct (starting_cmd_num >? 1) eqn:Hgt; [lia |]. by injection Hov as <-. }
  split; [exact Hmem |]. split.
  { intros n Hn Hge. apply Hmem in Hn as [?|?]; [done | lia]. }
  split; [apply (Sorted_merge_sort Z.le) |].
  split; [intros l; apply probe_all_boundary |]. done.
Qed.

Lemma plan_is_overrides_and_probed_run_witness :
  get_workflow_cmd_num 2 cfg_override_beyond = Ok [1; 2; 3; 10] ∧
  first_missing cfg_override_beyond 2 = 4 ∧
  10 ∈ ([1; 10] : list Z).
Proof.
  split; [reflexivity |]. split; [reflexivity |].
  destruct (plan_is_overrides_and_probed_run cfg_override_beyond 2 [1; 2; 3; 10] eq_refl)
    as (overrides & Hov & _ & _ & Hpast & _).
  vm_compute in Hov. injection Hov as <-.
  apply Hpast; [| vm_compute; discriminate].
  do 3 apply list_elem_of_further. apply list_elem_of_here.
Defined.

(** C4. When the numbered directives are exactly 1..K, no [always_run_cmds]
    directive is set and 1 ≤ S ≤ K, the plan from S is the list S, S+1, ..., K
    and the probe stops at K+1, the first number without a directive. *)
Theorem dense_plan (workflow_config : config) (S K : Z) :
  1 ≤ S → S ≤ K →
  (∀ n, DSConfig.has_option workflow_config (Py.str_int n) = true ↔ 1 ≤ n ≤ K) →
  workflow_config !! "always_run_cmds" = None →
  get_workflow_cmd_num S workflow_config = Ok (seqZ S (K - S + 1)) ∧
  first_missing workflow_config S = K + 1.
Proof.
  intros HS HK Hdense Hnone.
  assert (always_run_cmds S workflow_config = Ok []) as Hov.
  { unfold always_run_cmds, DSConfig.get_list, DSConfig.get. rewrite Hnone.
    by destruct (S >? 1). }
  destruct (first_missing_spec workflow_config S) as (Hle & Hin & Hout).
  assert (first_missing workflow_config S = K + 1) as Hfm.
  { destruct (decide (first_missing workflow_config S ≤ K)) as [Hlt|Hgt].
    - assert (DSConfig.has_option workflow_config
                (Py.str_int (first_missing workflow_config S)) = true) as Hin'
        by (apply Hdense; lia).
      rewrite Hin' in Hout. done.
    - destruct (decide (first_missing workflow_config S = K + 1)) as [|Hne]; [done |].
      assert (DSConfig.has_option workflow_config (Py.str_int (K + 1)) = true) as Hin'
        by (apply Hin; lia).
      apply Hdense in Hin'. lia. }
  split; [| exact Hfm].
  unfold get_workflow_cmd_num. rewrite Hov.
  pose proof (probe_all_boundary workflow_config S []) as Hb.
  destruct (probe_all_spec workflow_config S []) as (stop & Hpa & _).
  rewrite Hpa in Hb |- *. cbn [fst snd] in *. rewrite Hb, Hfm.
  replace (K + 1 - S) with (K - S + 1) by lia.
  rewrite foldl_add_new_fresh by apply NoDup_seqZ. cbn [app].
  destruct (Nat.eqb_spec (List.length (seqZ S (K - S + 1))) 0) as [Hlen|_].
  - rewrite length_seqZ in Hlen. lia.
  - by rewrite merge_sort_seqZ.
Qed.

Lemma dense_plan_witness :
  get_workflow_cmd_num 2 cfg_dense3 = Ok [2; 3] ∧ first_missing cfg_dense3 2 = 4.
Proof.
  apply (dense_plan cfg_dense3 2 3); [lia | lia | | reflexivity].
  intros n. unfold DSConfig.has_option, cfg_dense3, Py.str_int.
  rewrite bool_decide_eq_true. split.
  - intros [v Hv].
    apply lookup_insert_Some in Hv as [[Hk _]|[_ Hv]];
      [apply (pretty_Z_inj 1 n) in Hk; lia |].
    apply lookup_insert_Some in Hv as [[Hk _]|[_ Hv]];
      [apply (pretty_Z_inj 2 n) in Hk; lia |].
    apply lookup_insert_Some in Hv as [[Hk _]|[_ Hv]];
      [apply (pretty_Z_inj 3 n) in Hk; lia |].
    by rewrite lookup_empty in Hv.
  - intros Hn. assert (n = 1 ∨ n = 2 ∨ n = 3) as [-> | [-> | ->]] by lia; by eexists.
Defined.

(** ** [str.strip] *)

Lemma lstrip_first s c : first_char (Py.lstrip s) = Some c → Py.is_space c = false.
Proof.
  induction s as [|x s IH]; [done |]. cbn [Py.lstrip].
  destruct (Py.is_space x) eqn:Hx; [done |]. by intros [= <-].
Qed.

Lemma lstrip_last s c : last_char (Py.lstrip s) = Some c → last_char s = Some c.
Proof.
  induction s as [|x s IH]; [done |]. cbn [Py.lstrip].
  destruct (Py.is_space x) eqn:Hx; [|done].
  intros Hl. specialize (IH Hl). cbn [last_char]. by destruct s.
Qed.

Lemma rstrip_last s c : last_char (Py.rstrip s) = Some c → Py.is_space c = false.
Proof.
  induction s as [|x s IH]; [done |]. cbn [Py.rstrip].
  destruct (Py.is_space x) eqn:Hx; cbn [andb].
  - destruct (Py.rstrip s) as [|y r] eqn:Hr; [done |]. cbn [Py.is_empty last_char]. exact IH.
  - destruct (Py.rstrip s) as [|y r] eqn:Hr; cbn [last_char]; [|exact IH].
    by intros [= <-].
Qed.

Lemma lstrip_split s : ∃ l, s = l +:+ Py.lstrip s ∧ all_space l = true.
Proof.
  induction s as [|x s (l & IH & Hl)]; [by exists EmptyString |]. cbn [Py.lstrip].
  destruct (Py.is_space x) eqn:Hx.
  - exists (String x l). rewrite append_cons, <- IH. split; [done |].
    cbn [all_space]. by rewrite Hx, Hl.
  - by exists EmptyString.
Qed.

Lemma rstrip_split s : ∃ r, s = Py.rstrip s +:+ r ∧ all_space r = true.
Proof.
  induction s as [|x s (r & IH & Hr)]; [by exists EmptyString |]. cbn [Py.rstrip].
  destruct (Py.is_space x) eqn:Hx; cbn [andb].
  - destruct (Py.rstrip s) as [|y t] eqn:Ht; cbn [Py.is_empty].
    + exists (String x r). rewrite append_empty_l in *. subst s. split; [done |].
      cbn [all_space]. by rewrite Hx, Hr.
    + exists r. by rewrite append_cons, <- IH.
  - exists r. by rewrite append_cons, <- IH.
Qed.

(** [strip] removes a run of whitespace at each end, and what is left
    neither starts nor ends with whitespace. *)
Lemma strip_spec s :
  (∃ l r, s = l +:+ Py.strip s +:+ r ∧ all_space l = true ∧ all_space r = true) ∧
  (∀ c, first_char (Py.strip s) = Some c → Py.is_space c = false) ∧
  (∀ c, last_char (Py.strip s) = Some c → Py.is_space c = false).
Proof.
  unfold Py.strip. split; [| split].
  - destruct (rstrip_split s) as (r & Hs & Hr).
    destruct (lstrip_split (Py.rstrip s)) as (l & Hm & Hl).
    exists l, r. split; [| done]. rewrite <- append_assoc, <- Hm. exact Hs.
  - intros c. apply lstrip_first.
  - intros c Hc. apply lstrip_last in Hc. by apply rstrip_last in Hc.
Qed.

Lemma last_char_append s c : last_char (s +:+ String c EmptyString) = Some c.
Proof.
  induction s as [|x s IH]; [done |]. rewrite append_cons. cbn [last_char].
  destruct (s +:+ String c EmptyString) eqn:E; [by destruct s | exact IH].
Qed.

Lemma strip_no_trailing_newline s r : Py.strip s ≠ r +:+ Py.newline.
Proof.
  intros Heq. destruct (strip_spec s) as (_ & _ & Hlast).
  specialize (Hlast (ascii_of_nat 10)). rewrite Heq in Hlast.
  unfold Py.newline in Hlast. rewrite last_char_append in Hlast.
  by specialize (Hlast eq_refl).
Qed.

(** ** The engine *)

Section EngineFacts.

Context (H : Host).

Implicit Types (st : state H) (v : variables).

Lemma bind_Ok {A B} (m : M H A) (k : A → M H B) st b st' :
  bind H m k st = (Ok b, st') →
  ∃ a st1, m st = (Ok a, st1) ∧ k a st1 = (Ok b, st').
Proof. unfold bind. destruct (m st) as [[a|e] st1]; [eauto | done]. Qed.

Lemma run_cmd_frame full_cmd st r st' :
  run_cmd H full_cmd st = (r, st') →
  st_out st' = st_out st ∧ st_runtimes st' = st_runtimes st ∧
  st_world st' = (popen H full_cmd (st_world st)).2.
Proof.
  unfold run_cmd. destruct (popen H full_cmd (st_world st)) as [p w].
  destruct (_ || _); by intros [= <- <-].
Qed.

(** [run_cmd] returns the stripped standard output, and only when the
    process wrote nothing on standard error and ended with status 0. *)
Lemma run_cmd_Ok full_cmd st out st' :
  run_cmd H full_cmd st = (Ok out, st') →
  let p := (popen H full_cmd (st_world st)).1 in
  out = Py.strip (stdout p) ∧ stderr p = EmptyString ∧ return_code p = 0.
Proof.
  unfold run_cmd. destruct (popen H full_cmd (st_world st)) as [p w]. cbn [fst].
  destruct (negb (Py.is_empty (stderr p)) || negb (return_code p =? 0)) eqn:Hfail;
    [done |].
  intros [= <- <-]. apply orb_false_elim in Hfail as [Herr Hrc].
  apply negb_false_iff in Herr, Hrc. split; [done |]. split; [by destruct (stderr p) | lia].
Qed.

(** The only exception of [run_cmd] is the plain [Exception] it raises. *)
Lemma run_cmd_Raise full_cmd st e st' :
  run_cmd H full_cmd st = (Raise e, st') → ∃ msg, e = PlainException msg.
Proof.
  unfold run_cmd. destruct (popen H full_cmd (st_world st)) as [p w].
  destruct (_ || _); [| done]. intros [= <- <-]. by eexists.
Qed.

Lemma now_frame st d st' :
  now H st = (Ok d, st') → st_out st' = st_out st ∧ st_runtimes st' = st_runtimes st.
Proof.
  unfold now. destruct (datetime_now H (st_world st)) as [d0 w0]. by intros [= <- <-].
Qed.

Lemma track_out report_runtime thing st r st' :
  track H report_runtime thing st = (r, st') → st_out st' = st_out st.
Proof.
  unfold track, bind, now, ret. destruct report_runtime.
  - destruct (datetime_now H (st_world st)) as [d0 w0]. by intros [= <- <-].
  - by intros [= <- <-].
Qed.

Lemma report_out thing st r st' :
  report H thing st = (r, st') → st_out st' = st_out st.
Proof.
  unfold report, bind, now, ret. destruct (st_runtimes st !! thing).
  - destruct (datetime_now H (st_world st)) as [d0 w0]. by intros [= <- <-].
  - by intros [= <- <-].
Qed.

Lemma print_out line st r st' :
  print H line st = (r, st') → st_out st' = st_out st ++ [line].
Proof. unfold print. by intros [= <- <-]. Qed.

Lemma print_runtime_out label runtime st r st' :
  print_runtime H label runtime st = (r, st') →
  st_out st' = st_out st ∨ ∃ t, st_out st' = st_out st ++ [label +:+ t].
Proof.
  unfold print_runtime, ret. destruct runtime as [t|].
  - destruct (Py.is_empty t).
    + intros [= <- <-]. by left.
    + intros Hp. apply print_out in Hp. right. by exists t.
  - intros [= <- <-]. by left.
Qed.

Lemma prepare_cmd_inv workflow_config command_num raw v st command st' :
  prepare_cmd H workflow_config command_num raw v st = (Ok command, st') →
  st' = st ∧
  ∃ s, format (dict_str H) v raw = Ok s ∧ command = Py.replace "_PERC_" "%" s.
Proof.
  unfold prepare_cmd, prepare_cmd_with.
  destruct (format (dict_str H) v raw) as [s|e].
  - intros [= <- <-]. eauto.
  - destruct e; try done. by destruct (WorkflowException _ _ _ _ _ _ _).
Qed.

(** What a pass of the loop body that ends normally has done. *)
Lemma main_loop_body_Ok workflow_config num_chars_to_log report_runtime command_num
    v st v' st' :
  main_loop_body H workflow_config num_chars_to_log report_runtime command_num v st
    = (Ok v', st') →
  ∃ raw s command st1 cmd_output st2,
    workflow_config !! Py.str_int command_num = Some raw ∧
    format (dict_str H) v raw = Ok s ∧
    command = Py.replace "_PERC_" "%" s ∧
    run_cmd H command st1 = (Ok cmd_output, st2) ∧
    v' = <[cmd_output_key command_num := VStr cmd_output]> v ∧
    ∃ runtime_lines,
      st_out st' =
        st_out st ++
        ["#" +:+ Py.str_int command_num +:+ " >> " +:+
           Py.slice_to command num_chars_to_log +:+ " ...";
         Py.slice_to cmd_output num_chars_to_log] ++ runtime_lines ∧
      (runtime_lines = [] ∨
       ∃ t, runtime_lines = [("#" +:+ Py.str_int command_num +:+ " >> runtime: ") +:+ t]).
Proof.
  intros Hbody. unfold main_loop_body in Hbody.
  apply bind_Ok in Hbody as (raw & s0 & Hget & Hbody).
  apply bind_Ok in Hbody as (command & s1 & Hprep & Hbody).
  apply bind_Ok in Hbody as (? & s2 & Hprint & Hbody).
  apply bind_Ok in Hbody as (? & s3 & Htrack & Hbody).
  apply bind_Ok in Hbody as (cmd_output & s4 & Hrun & Hbody).
  apply bind_Ok in Hbody as (runtime & s5 & Hreport & Hbody).
  apply bind_Ok in Hbody as (? & s6 & Hprint2 & Hbody).
  apply bind_Ok in Hbody as (? & s7 & Hprt & Hbody).
  unfold ret in Hbody. injection Hbody as <- <-.
  unfold lift, DSConfig.get in Hget.
  destruct (workflow_config !! Py.str_int command_num) as [raw'|] eqn:Hraw; [|done].
  injection Hget as <- <-.
  apply prepare_cmd_inv in Hprep as (-> & s & Hfmt & Hcommand).
  cbv beta in Hrun.
  destruct (run_cmd H command s3) as [[out|e] sx] eqn:Hr; cycle 1.
  { destruct e; try done. by destruct (WorkflowException _ _ _ _ _ _ _). }
  injection Hrun as <- <-.
  exists raw', s, command, s3, out, sx. do 4 (split; [done |]). split; [done |].
  apply print_out in Hprint, Hprint2. apply track_out in Htrack.
  apply report_out in Hreport. apply run_cmd_frame in Hr as (Hr & _).
  apply print_runtime_out in Hprt as [Hprt|[t Hprt]].
  - exists []. split; [| by left].
    rewrite Hprt, Hprint2, Hreport, Hr, Htrack, Hprint, app_nil_r.
    by rewrite <- app_assoc.
  - exists [("#" +:+ Py.str_int command_num +:+ " >> runtime: ") +:+ t].
    split; [| right; by exists t].
    rewrite Hprt, Hprint2, Hreport, Hr, Htrack, Hprint.
    rewrite <- !app_assoc. reflexivity.
Qed.

End EngineFacts.

(** ** What is printed does not steer the run *)

Section Agreement.

Context (H : Host).

Lemma agree_ret {A} (a : A) : agree (ret H a) (ret H a).
Proof. by intros st1 st2 Hs. Qed.

Lemma agree_raise {A} (e : exn) : agree (raise H (A:=A) e) (raise H e).
Proof. by intros st1 st2 Hs. Qed.

Lemma agree_lift {A} (r : result A) : agree (lift H r) (lift H r).
Proof. by intros st1 st2 Hs. Qed.

Lemma agree_bind {A B} (m1 m2 : M H A) (k1 k2 : A → M H B) :
  agree m1 m2 → (∀ a, agree (k1 a) (k2 a)) → agree (bind H m1 k1) (bind H m2 k2).
Proof.
  intros Hm Hk st1 st2 Hs. unfold bind.
  destruct (Hm st1 st2 Hs) as [Hr Hs'].
  destruct (m1 st1) as [[a1|e1] st1'], (m2 st2) as [[a2|e2] st2'];
    cbn [fst snd] in Hr, Hs'; simplify_eq; [by apply Hk | done].
Qed.

Lemma agree_print line1 line2 : agree (print H line1) (print H line2).
Proof. by intros st1 st2 [Hw Hr]. Qed.

Lemma agree_run_cmd full_cmd : agree (run_cmd H full_cmd) (run_cmd H full_cmd).
Proof.
  intros st1 st2 [Hw Hr]. unfold run_cmd. rewrite Hw.
  destruct (popen H full_cmd (st_world st2)) as [p w]. by destruct (_ || _).
Qed.

Lemma agree_now : agree (now H) (now H).
Proof.
  intros st1 st2 [Hw Hr]. unfold now. rewrite Hw.
  by destruct (datetime_now H (st_world st2)) as [d w].
Qed.

Lemma agree_track report_runtime thing :
  agree (track H report_runtime thing) (track H report_runtime thing).
Proof.
  unfold track. destruct report_runtime; [| apply agree_ret].
  apply agree_bind; [apply agree_now |]. intros d st1 st2 [Hw Hr].
  cbn. unfold same_but_out. cbn. by rewrite Hr.
Qed.

Lemma agree_report thing : agree (report H thing) (report H thing).
Proof.
  intros st1 st2 Hs. unfold report. destruct Hs as [Hw Hr]. rewrite Hr.
  destruct (st_runtimes st2 !! thing) as [started|]; [| done].
  apply (agree_bind (now H) (now H)); [apply agree_now | | done].
  intros d. apply agree_ret.
Qed.

Lemma agree_print_runtime label1 label2 runtime :
  agree (print_runtime H label1 runtime) (print_runtime H label2 runtime).
Proof.
  unfold print_runtime. destruct runtime as [t|]; [| apply agree_ret].
  destruct (Py.is_empty t); [apply agree_ret | apply agree_print].
Qed.

Lemma agree_WorkflowException depth workflow_config command_num emsg v st1 st2 :
  same_but_out st1 st2 →
  (WorkflowException H depth workflow_config command_num emsg v st1).1 =
  (WorkflowException H depth workflow_config command_num emsg v st2).1 ∧
  same_but_out (WorkflowException H depth workflow_config command_num emsg v st1).2
               (WorkflowException H depth workflow_config command_num emsg v st2).2.
Proof.
  revert command_num emsg v st1 st2.
  induction depth as [|d IH]; intros command_num emsg v st1 st2 Hs; [done |].
  cbn [WorkflowException].
  destruct (DSConfig.get workflow_config "premature_end_cmd") as [raw|e]; [| done].
  unfold prepare_cmd_with.
  destruct (format (dict_str H) v raw) as [s|e]; cycle 1.
  { destruct e; try done.
    specialize (IH command_num
                  ("Required variable not found during execution " +:+ Py.repr key)
                  v st1 st2 Hs).
    destruct (WorkflowException H d _ _ _ _ st1) as [e1 st1'].
    destruct (WorkflowException H d _ _ _ _ st2) as [e2 st2'].
    cbn [fst snd] in IH |- *. destruct IH as [-> Hs']. done. }
  destruct (agree_run_cmd (Py.replace "_PERC_" "%" s) st1 st2 Hs) as [Hr Hs'].
  destruct (run_cmd H _ st1) as [[o1|e1] st1'], (run_cmd H _ st2) as [[o2|e2] st2'];
    cbn [fst snd] in Hr, Hs'; simplify_eq; [| done].
  split; [done |]. by destruct Hs'.
Qed.

Lemma agree_prepare_cmd workflow_config command_num raw v :
  agree (prepare_cmd H workflow_config command_num raw v)
        (prepare_cmd H workflow_config command_num raw v).
Proof.
  intros st1 st2 Hs. unfold prepare_cmd, prepare_cmd_with.
  destruct (format (dict_str H) v raw) as [s|e]; [done |].
  destruct e; try done.
  pose proof (agree_WorkflowException recursion_limit workflow_config command_num
                ("Required variable not found during execution " +:+ Py.repr key)
                v st1 st2 Hs) as IH.
  destruct (WorkflowException H _ _ _ _ _ st1) as [e1 st1'].
  destruct (WorkflowException H _ _ _ _ _ st2) as [e2 st2'].
  cbn [fst snd] in IH |- *. by destruct IH as [-> Hs'].
Qed.

(** The cap changes what the loop body prints and nothing else. *)
Lemma agree_main_loop_body workflow_config cap1 cap2 report_runtime command_num v :
  agree (main_loop_body H workflow_config cap1 report_runtime command_num v)
        (main_loop_body H workflow_config cap2 report_runtime command_num v).
Proof.
  unfold main_loop_body.
  apply agree_bind; [apply agree_lift |]. intros raw.
  apply agree_bind; [apply agree_prepare_cmd |]. intros command.
  apply agree_bind; [apply agree_print |]. intros _.
  apply agree_bind; [apply agree_track |]. intros _.
  apply agree_bind.
  { intros st1 st2 Hs. cbv beta.
    destruct (agree_run_cmd command st1 st2 Hs) as [Hr Hs'].
    destruct (run_cmd H command st1) as [[o1|e1] st1'],
             (run_cmd H command st2) as [[o2|e2] st2'];
      cbn [fst snd] in Hr, Hs'; simplify_eq; [done |].
    destruct e2; try done.
    pose proof (agree_WorkflowException recursion_limit workflow_config command_num
                  msg v st1' st2' Hs') as IH.
    destruct (WorkflowException H _ _ _ _ _ st1') as [x1 y1].
    destruct (WorkflowException H _ _ _ _ _ st2') as [x2 y2].
    cbn [fst snd] in IH |- *. by destruct IH as [-> ?]. }
  intros cmd_output.
  apply agree_bind; [apply agree_report |]. intros runtime.
  apply agree_bind; [apply agree_print |]. intros _.
  apply agree_bind; [apply agree_print_runtime |]. intros _.
  apply agree_ret.
Qed.

Lemma same_but_out_refl (st : state H) : same_but_out st st.
Proof. done. Qed.

End Agreement.

(** ** The loop body and the dictionary *)

(** The scenario of the cap: five characters are shown, the whole output is
    stored. *)
Example demo_capped :
  demo_run (Some cfg_capped) demo_argv =
  (Ok (<["cmd_1_output" := VStr "hello world"]> (main_convenience_variables demo_now)),
   ["#1 >> echo  ..."; "hello"; "Workflow completed at 2013-10-07 09:30:00"]).
Proof. vm_compute. reflexivity. Qed.

Section Growth.

Context (H : Host) (workflow_config : config) (num_chars_to_log : option Z)
  (report_runtime : bool).

Lemma main_zookeeper_Ok v st v' st' :
  main_zookeeper H workflow_config v st = (Ok v', st') →
  ∃ path,
    workflow_config !! "zk_queue_path" = Some path ∧
    ((path = EmptyString ∧ v' = v ∧ st' = st) ∨
     (path ≠ EmptyString ∧
      ∃ out, run_cmd H (zookeeper_bin +:+ " qpoll " +:+ path) st = (Ok out, st') ∧
             v' = <["zk_queue_value" := VStr out]> v)).
Proof.
  unfold main_zookeeper, DSConfig.get.
  destruct (workflow_config !! "zk_queue_path") as [path|]; [| done].
  intros Hz. exists path. split; [done |].
  destruct path as [|c path]; cbn [Py.is_empty] in Hz.
  - injection Hz as <- <-. by left.
  - right. split; [done |].
    destruct (run_cmd H _ st) as [[out|e] sx]; [| by destruct (is_Exception e)].
    injection Hz as <- <-. by exists out.
Qed.

Lemma main_loop_dom plan v st v' st' :
  main_loop H workflow_config num_chars_to_log report_runtime plan v st = (Ok v', st') →
  dom v ⊆ dom v'.
Proof.
  revert v st. induction plan as [|n plan IH]; intros v st Hloop; cbn [main_loop] in Hloop.
  - by injection Hloop as <- <-.
  - apply bind_Ok in Hloop as (v1 & st1 & Hbody & Hloop).
    apply main_loop_body_Ok in Hbody as (_ & _ & _ & _ & out & _ & _ & _ & _ & _ & -> & _).
    apply IH in Hloop. rewrite dom_insert_L in Hloop.
    etrans; [apply union_subseteq_r | exact Hloop].
Qed.

End Growth.

(** C9. The dictionary only grows.  It starts with the four convenience
    variables; the queue lookup leaves it as it is or adds [zk_queue_value];
    a pass of the loop body that ends normally writes [cmd_N_output] and
    leaves every other entry as it was; so a name that has an entry keeps one
    through the loop and to the end of the run. *)
Theorem variables_only_grow
    (H : Host) (workflow_config : config) (num_chars_to_log : option Z)
    (report_runtime : bool) :
  (∀ now, dom (main_convenience_variables now)
          = ({["now"; "YrMn"; "YrMnDy"; "curdate"]} : gset string)) ∧
  (∀ v st v' st',
     main_zookeeper H workflow_config v st = (Ok v', st') →
     (v' = v ∨ ∃ out, v' = <["zk_queue_value" := VStr out]> v) ∧ dom v ⊆ dom v') ∧
  (∀ command_num v st v' st',
     main_loop_body H workflow_config num_chars_to_log report_runtime command_num v st
       = (Ok v', st') →
     (∃ out, v' = <[cmd_output_key command_num := VStr out]> v) ∧
     (∀ k, k ≠ cmd_output_key command_num → v' !! k = v !! k) ∧
     dom v ⊆ dom v') ∧
  (∀ plan v st v' st',
     main_loop H workflow_config num_chars_to_log report_runtime plan v st = (Ok v', st') →
     dom v ⊆ dom v') ∧
  (∀ starting_command_num st v' st',
     main_workflow H workflow_config starting_command_num st = (Ok v', st') →
     ({["now"; "YrMn"; "YrMnDy"; "curdate"]} : gset string) ⊆ dom v').
Proof.
  assert (∀ now, dom (main_convenience_variables now)
                 = ({["now"; "YrMn"; "YrMnDy"; "curdate"]} : gset string)) as Hinit.
  { intros now. unfold main_convenience_variables.
    rewrite !dom_insert_L, dom_empty_L. set_solver. }
  assert (∀ v st v' st',
            main_zookeeper H workflow_config v st = (Ok v', st') →
            (v' = v ∨ ∃ out, v' = <["zk_queue_value" := VStr out]> v) ∧ dom v ⊆ dom v')
    as Hzk.
  { intros v st v' st' Hz.
    apply main_zookeeper_Ok in Hz as (path & _ & [(_ & -> & _)|(_ & out & _ & ->)]).
    - split; [by left | done].
    - split; [right; by exists out |]. rewrite dom_insert_L. apply union_subseteq_r. }
  split; [exact Hinit |]. split; [exact Hzk |]. split; [| split].
  - intros command_num v st v' st' Hbody.
    apply main_loop_body_Ok in Hbody as (_ & _ & _ & _ & out & _ & _ & _ & _ & _ & -> & _).
    split; [by exists out |]. split.
    + intros k Hk. by rewrite lookup_insert_ne.
    + rewrite dom_insert_L. apply union_subseteq_r.
  - apply main_loop_dom.
  - intros starting_command_num st v' st' Hwf. unfold main_workflow in Hwf.
    apply bind_Ok in Hwf as (now_ & s1 & Hnow & Hwf).
    apply bind_Ok in Hwf as (v1 & s2 & Hz & Hwf).
    apply bind_Ok in Hwf as (? & s3 & _ & Hwf).
    apply bind_Ok in Hwf as (plan & s4 & _ & Hwf).
    apply bind_Ok in Hwf as (v2 & s5 & Hloop & Hwf).
    apply bind_Ok in Hwf as (? & s6 & _ & Hwf).
    apply bind_Ok in Hwf as (? & s7 & _ & Hwf).
    apply bind_Ok in Hwf as (? & s8 & _ & Hwf).
    unfold ret in Hwf. injection Hwf as <- <-.
    apply Hzk in Hz as [_ Hz]. apply main_loop_dom in Hloop.
    rewrite Hinit in Hz. by etrans.
Qed.

Lemma variables_only_grow_witness :
  dom (main_convenience_variables demo_now) ⊆
  dom (<["cmd_1_output" := VStr "hello"]> (main_convenience_variables demo_now)).
Proof.
  exact (proj2 (proj2 (proj1 (proj2 (proj2
           (variables_only_grow (demo_host None) cfg_hello None false)))
           1 (main_convenience_variables demo_now) (initial_state (demo_host None) tt)
           (<["cmd_1_output" := VStr "hello"]> (main_convenience_variables demo_now))
           (Build_state (demo_host None) tt ["#1 >> echo hello ..."; "hello"] ∅)
           eq_refl))).
Defined.

(** ** Failure and exit *)

Section FailureFacts.

Context (H : Host) (workflow_config : config).

(** The cleanup command runs and succeeds: its output is printed once and
    the program exits with the message of the failure that was handed in. *)
Lemma WorkflowException_cleanup_ok d command_num emsg v st raw s out st' :
  workflow_config !! "premature_end_cmd" = Some raw →
  format (dict_str H) v raw = Ok s →
  run_cmd H (Py.replace "_PERC_" "%" s) st = (Ok out, st') →
  WorkflowException H (S d) workflow_config command_num emsg v st =
  (SystemExit (Some (premature_message command_num emsg)),
   (print H ("#Premature workflow end command executed ..." +:+ Py.newline +:+ out) st').2).
Proof.
  intros Hraw Hfmt Hrun. cbn [WorkflowException]. unfold DSConfig.get, prepare_cmd_with.
  by rewrite Hraw, Hfmt, Hrun.
Qed.

(** The cleanup command runs and fails: the exception of [run_cmd] is not a
    [ConfigException], it leaves the constructor, and [sys.exit] is not
    reached. *)
Lemma WorkflowException_cleanup_fails d command_num emsg v st raw s e st' :
  workflow_config !! "premature_end_cmd" = Some raw →
  format (dict_str H) v raw = Ok s →
  run_cmd H (Py.replace "_PERC_" "%" s) st = (Raise e, st') →
  WorkflowException H (S d) workflow_config command_num emsg v st = (e, st').
Proof.
  intros Hraw Hfmt Hrun. cbn [WorkflowException]. unfold DSConfig.get, prepare_cmd_with.
  rewrite Hraw, Hfmt, Hrun. by destruct (run_cmd_Raise H _ _ _ _ Hrun) as [msg ->].
Qed.

(** The cleanup command reads a variable the dictionary does not have: the
    constructor calls itself until the interpreter gives up. *)
Lemma WorkflowException_cleanup_unexpandable depth command_num emsg v st raw key :
  workflow_config !! "premature_end_cmd" = Some raw →
  format (dict_str H) v raw = Raise (KeyError key) →
  WorkflowException H depth workflow_config command_num emsg v st = (RuntimeError, st).
Proof.
  intros Hraw Hfmt. revert emsg. induction depth as [|d IH]; intros emsg; [done |].
  cbn [WorkflowException]. unfold DSConfig.get, prepare_cmd_with.
  by rewrite Hraw, Hfmt, IH.
Qed.

(** A configuration that cannot be read ends the program with a message. *)
Lemma unreadable_config_exit_status prog filename rest st msg :
  DSConfig_init H filename (st_world st) = inr msg →
  (List.length rest ≤ 1)%nat →
  (main H (prog :: filename :: rest) st).1 = Raise (SystemExit (Some msg)) ∧
  exit_status (main H (prog :: filename :: rest) st).1 = 1.
Proof.
  intros Hinit Hlen. destruct rest as [|num [|? ?]]; cbn [List.length] in Hlen; [| | lia];
    cbn [main]; by rewrite Hinit.
Qed.

End FailureFacts.

(** C1, against the code: command 1 fails, the cleanup command
    [undo-step-one] is run and fails as well, and the program ends with the
    exception of the cleanup command, not caught, instead of the message
    naming command 1. *)
Theorem cleanup_failure_masks_original_failure :
  demo_run (Some cfg_cleanup_fails) demo_argv =
  (Raise (PlainException
            (Py.newline +:+
             "Unexpected return code or value: 127, bash: undo-step-one: command not found")),
   ["#1 >> false ..."]) ∧
  (demo_run (Some cfg_cleanup_fails) demo_argv).1 ≠
  Raise (SystemExit
           (Some (premature_message 1
                    (Py.newline +:+ "Unexpected return code or value: 1, ")))).
Proof. split; [vm_compute; reflexivity | vm_compute; discriminate]. Qed.

(** C7, against the code: command 1 reads [cmd_2_output], which the
    dictionary does not have.  The lookup raises [KeyError] naming it, but
    the cleanup command [undo-step-one] is then run and fails, and the
    program ends with the exception of the cleanup command, not caught,
    instead of the message naming the missing variable.  When the cleanup
    template itself reads the missing variable, the constructor calls itself
    until the interpreter gives up, and the program ends with
    [RuntimeError]. *)
Theorem missing_variable_masked_by_cleanup_failure :
  format (dict_str (demo_host None)) (main_convenience_variables demo_now)
    "echo %(cmd_2_output)s" = Raise (KeyError "cmd_2_output") ∧
  demo_run (Some cfg_missing_variable) demo_argv =
  (Raise (PlainException
            (Py.newline +:+
             "Unexpected return code or value: 127, bash: undo-step-one: command not found")),
   []) ∧
  (demo_run (Some cfg_missing_variable) demo_argv).1 ≠
  Raise (SystemExit
           (Some (premature_message 1
                    ("Required variable not found during execution " +:+
                     Py.repr "cmd_2_output")))) ∧
  demo_run (Some (<["premature_end_cmd" := "undo %(cmd_2_output)s"]> cfg_missing_variable))
    demo_argv = (Raise RuntimeError, []).
Proof.
  split; [reflexivity |]. split; [vm_compute; reflexivity |].
  split; [vm_compute; discriminate | vm_compute; reflexivity].
Qed.

(** With a cleanup command that succeeds, its output is printed once and the
    message names the command that failed. *)
Example demo_cleanup_ok :
  demo_run (Some cfg_cleanup_ok) demo_argv =
  (Raise (SystemExit
            (Some (premature_message 1
                     (Py.newline +:+ "Unexpected return code or value: 1, ")))),
   ["#1 >> false ...";
    "#Premature workflow end command executed ..." +:+ Py.newline +:+ "cleaned"]).
Proof. vm_compute. reflexivity. Qed.

Example demo_cleanup_unexpandable :
  demo_run (Some cfg_cleanup_unexpandable) demo_argv =
  (Raise RuntimeError, ["#1 >> false ..."]).
Proof. vm_compute. reflexivity. Qed.

(** Command 1 fails and no cleanup is configured. *)
Example demo_no_cleanup :
  demo_run (Some (delete "premature_end_cmd" cfg_cleanup_ok)) demo_argv =
  (Raise (SystemExit
            (Some (premature_message 1
                     (Py.newline +:+ "Unexpected return code or value: 1, ")))),
   ["#1 >> false ..."]).
Proof. vm_compute. reflexivity. Qed.

(** C3, against the code: with no argument, or with more than two, the
    usage text is printed and [sys.exit] is given [None], the value
    [print_usage] returns, so the exit status is 0. *)
Theorem wrong_argument_count_exits_with_status_0
    (H : Host) (st : state H) (prog a b c : string) (rest : list string) :
  (main H [prog] st).1 = Raise (SystemExit None) ∧
  exit_status (main H [prog] st).1 = 0 ∧
  exit_status (main H (prog :: a :: b :: c :: rest) st).1 = 0 ∧
  st_out (main H [prog] st).2 =
    st_out st ++
    ["Workflow Runner v1.1";
     "Usage: workflow_runner.py <full path to workflow config ini> <starting command num, default 1>";
     "e.g. ./workflow_runner.py /opt/datasrv/share/bin/config/WF-reporting-current_balances.ini"].
Proof.
  repeat split; cbn; by rewrite <- ?app_assoc.
Qed.

Example demo_unreadable_config :
  exit_status (demo_run None demo_argv).1 = 1.
Proof. reflexivity. Qed.

(** * Further properties *)

(** ** Templates *)

Section TemplateFacts.

Variable dict_str : variables → string.
Variable vars : variables.

Lemma frun_escape a : frun dict_str vars FText a "%%" = Ok ("%", (FText, a)).
Proof. reflexivity. Qed.

Lemma frun_ref a name val :
  Py.mem "(" name = false → Py.mem ")" name = false →
  vars !! name = Some val →
  frun dict_str vars FText a ("%(" +:+ name +:+ ")s") = Ok (pyval_str val, (FText, None)).
Proof.
  intros Ho Hc Hval.
  change ("%(" +:+ name +:+ ")s") with (String "%" (String "(" (name +:+ ")s"))).
  rewrite (frun_cons _ _ FText).
  change (fstep dict_str vars FText a "%") with (Ok (FPercent, a, EmptyString)).
  cbv beta iota. rewrite (frun_cons _ _ FPercent).
  change (fstep dict_str vars FPercent a "(") with (Ok (FKey 1 EmptyString, a, EmptyString)).
  cbv beta iota. rewrite (frun_key _ _ _ _ _ _ Ho Hc), append_empty_l.
  rewrite frun_cons.
  replace (fstep dict_str vars (FKey 1 name) a ")")
    with (Ok (FFlags fspec0, Some (AVal val), EmptyString)).
  2:{ cbn [fstep]. change (Ascii.eqb ")" ")") with true. cbv iota. by rewrite Hval. }
  cbv beta iota.
  change (frun dict_str vars (FFlags fspec0) (Some (AVal val)) "s")
    with (Ok (pyval_str val +:+ EmptyString, (FText, @None farg))).
  cbv beta iota. by rewrite !append_empty_l, append_empty_r.
Qed.

Lemma frun_segments gs : ∀ a out,
  forallb segment_ok gs = true →
  template_value vars gs = Some out →
  ∃ a', frun dict_str vars FText a (template gs) = Ok (out, (FText, a')).
Proof.
  induction gs as [|g gs IH]; intros a out Hok Hval.
  - injection Hval as <-. by exists a.
  - cbn [forallb] in Hok. apply andb_prop in Hok as [Hg Hok].
    cbn [template_value] in Hval.
    destruct (segment_value vars g) as [x|] eqn:Hx; [| done].
    destruct (template_value vars gs) as [y|] eqn:Hy; [| done].
    injection Hval as <-. cbn [template]. rewrite frun_app.
    assert (∃ a1, frun dict_str vars FText a (segment_text g) = Ok (x, (FText, a1)))
      as [a1 ->].
    { destruct g as [s| |name]; cbn [segment_text segment_value segment_ok] in *.
      - injection Hx as <-. exists a. apply frun_text. by apply negb_true_iff.
      - injection Hx as <-. exists a. apply frun_escape.
      - destruct (vars !! name) as [val|] eqn:Hval; [| done].
        injection Hx as <-. exists None.
        apply andb_prop in Hg as [Ho Hc]. apply negb_true_iff in Ho, Hc.
        by apply frun_ref. }
    destruct (IH a1 y Hok eq_refl) as [a' ->]. by exists a'.
Qed.

Lemma format_segments gs out :
  forallb segment_ok gs = true →
  template_value vars gs = Some out →
  format dict_str vars (template gs) = Ok out.
Proof.
  intros Hok Hval. unfold format.
  by destruct (frun_segments gs (Some ADict) out Hok Hval) as [a' ->].
Qed.

(** Inside a key, and as long as no closing parenthesis comes, the scan
    stays inside the key. *)
Lemma frun_key_open name : ∀ d key a,
  Py.mem ")" name = false →
  ∃ d' key', frun dict_str vars (FKey (S d) key) a name
             = Ok (EmptyString, (FKey (S d') key', a)).
Proof.
  induction name as [|c name IH]; intros d key a Hc.
  - by exists d, key.
  - rewrite mem_cons in Hc. apply orb_false_elim in Hc as [Hc1 Hc].
    rewrite frun_cons. cbn [fstep]. rewrite (Ascii.eqb_sym c ")"), Hc1.
    destruct (Ascii.eqb c "(").
    + destruct (IH (S d) (key +:+ "(") a Hc) as (d' & key' & ->). by exists d', key'.
    + destruct (IH d (key +:+ String c EmptyString) a Hc) as (d' & key' & ->).
      by exists d', key'.
Qed.

Lemma format_unfinished pre s name :
  format dict_str vars pre = Ok s →
  format dict_str vars (pre +:+ "%") = Raise ValueError ∧
  (Py.mem ")" name = false →
   format dict_str vars (pre +:+ "%(" +:+ name) = Raise ValueError).
Proof.
  intros Hpre. destruct (format_Ok_frun _ _ _ _ Hpre) as [a Ha]. split.
  - unfold format. by rewrite frun_app, Ha.
  - intros Hc. unfold format. rewrite frun_app, Ha.
    change ("%(" +:+ name) with (String "%" (String "(" name)).
    rewrite (frun_cons _ _ FText).
    change (fstep dict_str vars FText a "%") with (Ok (FPercent, a, EmptyString)).
    cbv beta iota. rewrite (frun_cons _ _ FPercent).
    change (fstep dict_str vars FPercent a "(") with (Ok (FKey 1 EmptyString, a, EmptyString)).
    cbv beta iota.
    by destruct (frun_key_open name 0 EmptyString a Hc) as (d' & key' & ->).
Qed.

End TemplateFacts.

(** X1. A template written with text, [%%] and placeholders [%(name)s] whose
    names all have an entry expands in one pass: every placeholder gives the
    [str] of its value, [%%] gives one percent sign, text is copied; then
    [_PERC_] is replaced in the whole result, values included.  The state is
    left alone. *)
Theorem prepare_cmd_template
    (H : Host) (workflow_config : config) (command_num : Z) (gs : list segment)
    (v : variables) (st : state H) (out : string) :
  forallb segment_ok gs = true →
  template_value v gs = Some out →
  prepare_cmd H workflow_config command_num (template gs) v st =
  (Ok (Py.replace "_PERC_" "%" out), st).
Proof.
  intros Hok Hval. apply prepare_cmd_Ok. by apply format_segments.
Qed.

Lemma prepare_cmd_template_witness :
  prepare_cmd (demo_host None) ∅ 2 "echo 100%% of %(cmd_1_output)s > %(YrMn)s.txt"
    (<["cmd_1_output" := VStr "a_PERC_b %(now)s"]> (main_convenience_variables demo_now))
    (initial_state (demo_host None) tt) =
  (Ok "echo 100% of a%b %(now)s > 201310.txt", initial_state (demo_host None) tt).
Proof.
  exact (prepare_cmd_template (demo_host None) ∅ 2
           [Text "echo 100"; Percent; Text " of "; Ref "cmd_1_output"; Text " > ";
            Ref "YrMn"; Text ".txt"]
           (<["cmd_1_output" := VStr "a_PERC_b %(now)s"]>
              (main_convenience_variables demo_now))
           (initial_state (demo_host None) tt)
           "echo 100% of a_PERC_b %(now)s > 201310.txt" eq_refl eq_refl).
Defined.

(** X2. A template that stops inside a conversion specification, after a
    lone percent sign or inside [%(name], cannot be expanded: the [%]
    operator raises [ValueError], which [prepare_cmd] does not catch.  The
    loop body ends on it before anything is printed or run, and the cleanup
    of [WorkflowException] is not tried. *)
Theorem unfinished_template_is_ValueError
    (H : Host) (workflow_config : config) (num_chars_to_log : option Z)
    (report_runtime : bool) (command_num : Z) (pre name s : string)
    (v : variables) (st : state H) :
  format (dict_str H) v pre = Ok s →
  Py.mem ")" name = false →
  (∀ raw, raw = pre +:+ "%" ∨ raw = pre +:+ "%(" +:+ name →
     prepare_cmd H workflow_config command_num raw v st = (Raise ValueError, st) ∧
     (workflow_config !! Py.str_int command_num = Some raw →
      main_loop_body H workflow_config num_chars_to_log report_runtime command_num v st
      = (Raise ValueError, st))).
Proof.
  intros Hpre Hc raw Hraw.
  assert (format (dict_str H) v raw = Raise ValueError) as Hfmt.
  { destruct (format_unfinished (dict_str H) v pre s name Hpre) as [H1 H2].
    destruct Hraw as [-> | ->]; [exact H1 | exact (H2 Hc)]. }
  assert (prepare_cmd H workflow_config command_num raw v st = (Raise ValueError, st))
    as Hprep.
  { unfold prepare_cmd, prepare_cmd_with. by rewrite Hfmt. }
  split; [exact Hprep |]. intros Hcfg.
  unfold main_loop_body, bind, lift, DSConfig.get. by rewrite Hcfg, Hprep.
Qed.

Lemma unfinished_template_is_ValueError_witness :
  main_loop_body (demo_host None) (<["1" := "echo 50%"]> cfg_cleanup_ok) None false 1
    (main_convenience_variables demo_now) (initial_state (demo_host None) tt) =
  (Raise ValueError, initial_state (demo_host None) tt).
Proof.
  exact (proj2 (unfinished_template_is_ValueError (demo_host None)
                  (<["1" := "echo 50%"]> cfg_cleanup_ok) None false 1 "echo 50" "x" "echo 50"
                  (main_convenience_variables demo_now)
                  (initial_state (demo_host None) tt) eq_refl eq_refl
                  "echo 50%" (or_introl eq_refl)) eq_refl).
Defined.

(** ** The plan *)

Lemma filter_ext_in {A} (P Q : A → Prop) `{!∀ x, Decision (P x)} `{!∀ x, Decision (Q x)}
    (l : list A) :
  (∀ x, x ∈ l → P x ↔ Q x) → filter P l = filter Q l.
Proof.
  induction l as [|x l IH]; intros Hpq; [done |].
  rewrite !filter_cons. rewrite IH by (intros y Hy; apply Hpq; by right).
  destruct (decide (P x)) as [Hp|Hp], (decide (Q x)) as [Hq|Hq]; try done.
  - destruct Hq. apply Hpq; [by left | done].
  - destruct Hp. apply Hpq; [by left | done].
Qed.

Lemma filter_all {A} (P : A → Prop) `{!∀ x, Decision (P x)} (l : list A) :
  (∀ x, x ∈ l → P x) → filter P l = l.
Proof.
  induction l as [|x l IH]; intros Hp; [done |].
  rewrite filter_cons, decide_True by (apply Hp; by left).
  f_equal. apply IH. intros y Hy. apply Hp. by right.
Qed.

(** The probing loop appends, in order, the numbers the list does not hold
    yet. *)
Lemma foldl_add_new_filter (xs l : list Z) :
  NoDup xs → foldl add_new l xs = l ++ filter (λ x, x ∉ l) xs.
Proof.
  revert l. induction xs as [|x xs IH]; intros l Hnd; cbn [foldl].
  - by rewrite filter_nil, app_nil_r.
  - apply NoDup_cons in Hnd as [Hx Hnd]. rewrite filter_cons. unfold add_new.
    case_bool_decide as Hin.
    + rewrite IH by done. by rewrite decide_False by (intros Hn; by apply Hn).
    + rewrite IH by done. rewrite decide_True by done. rewrite <- app_assoc. cbn [app].
      do 2 f_equal. apply filter_ext_in. intros y Hy.
      rewrite elem_of_app, list_elem_of_singleton. split; [tauto |].
      intros Hyl [?| ->]; [done | by apply Hx].
Qed.

Lemma always_run_cmds_Raise starting_cmd_num workflow_config e :
  always_run_cmds starting_cmd_num workflow_config = Raise e → e = ValueError.
Proof.
  unfold always_run_cmds, DSConfig.get_list, DSConfig.get.
  destruct (starting_cmd_num >? 1); [| done].
  destruct (workflow_config !! "always_run_cmds") as [s|]; [| done].
  generalize (DSConfig._getList s). intros l. revert e.
  induction l as [|x l IH]; intros e; cbn [ints]; [done |].
  destruct (Py.int x); [| by intros [= <-]].
  destruct (ints l) as [r|e']; [done |]. intros [= <-]. by apply IH.
Qed.

Lemma ints_malformed l x : x ∈ l → Py.int x = None → ints l = Raise ValueError.
Proof.
  intros Hx Hint. induction l as [|y l IH]; [by apply elem_of_nil in Hx |].
  cbn [ints]. apply elem_of_cons in Hx as [<-|Hx]; [by rewrite Hint |].
  destruct (Py.int y); [| done]. by rewrite (IH Hx).
Qed.

Lemma probe_Some_bound workflow_config fuel cmd_num l stop l' :
  probe fuel workflow_config cmd_num l = Some (stop, l') →
  stop - cmd_num < Z.of_nat fuel.
Proof.
  revert cmd_num l. induction fuel as [|fuel IH]; intros cmd_num l Hp; [done |].
  cbn [probe] in Hp.
  destruct (DSConfig.has_option workflow_config (Py.str_int cmd_num)).
  - apply IH in Hp. lia.
  - injection Hp as <- <-. lia.
Qed.

Lemma first_missing_bound workflow_config starting_cmd_num :
  first_missing workflow_config starting_cmd_num - starting_cmd_num
  ≤ Z.of_nat (size workflow_config).
Proof.
  unfold first_missing, probe_all.
  destruct (probe_terminates workflow_config starting_cmd_num []) as [[stop l'] Hp].
  rewrite Hp. apply probe_Some_bound in Hp.
  unfold probe_fuel in Hp. cbn. lia.
Qed.

(** The list the generator sorts. *)
Lemma get_workflow_cmd_num_unfold starting_cmd_num workflow_config :
  get_workflow_cmd_num starting_cmd_num workflow_config =
  match always_run_cmds starting_cmd_num workflow_config with
  | Raise e => Raise e
  | Ok overrides =>
      let l := overrides ++
               filter (λ x, x ∉ overrides)
                 (seqZ starting_cmd_num
                    (first_missing workflow_config starting_cmd_num - starting_cmd_num)) in
      match l with
      | [] => Raise (WFConfigException (Some "No workflow commands found."))
      | _ => Ok (merge_sort Z.le l)
      end
  end.
Proof.
  unfold get_workflow_cmd_num.
  destruct (always_run_cmds starting_cmd_num workflow_config) as [overrides|e]; [| done].
  pose proof (probe_all_boundary workflow_config starting_cmd_num overrides) as Hb.
  destruct (probe_all_spec workflow_config starting_cmd_num overrides)
    as (stop & Hpa & _). rewrite Hpa in Hb |- *. cbn [fst snd] in *. subst stop.
  rewrite foldl_add_new_filter by apply NoDup_seqZ. cbv zeta.
  by destruct (overrides ++ _).
Qed.

Lemma first_missing_start workflow_config starting_cmd_num :
  first_missing workflow_config starting_cmd_num = starting_cmd_num ↔
  DSConfig.has_option workflow_config (Py.str_int starting_cmd_num) = false.
Proof.
  destruct (first_missing_spec workflow_config starting_cmd_num) as (Hle & Hin & Hout).
  split.
  - intros Heq. by rewrite Heq in Hout.
  - intros Hno.
    destruct (decide (first_missing workflow_config starting_cmd_num = starting_cmd_num))
      as [|Hne]; [done |].
    rewrite Hin in Hno by lia. done.
Qed.

(** X3. The generator gives up with ["No workflow commands found."] exactly
    when its [try] block leaves the override list empty (the directive is not
    read, or its lookup ends in the [ConfigException] that is caught) and the
    starting number itself has no directive; a plan it yields is never
    empty. *)
Theorem no_workflow_commands_found (workflow_config : config) (starting_cmd_num : Z) :
  (get_workflow_cmd_num starting_cmd_num workflow_config
     = Raise (SystemExit (Some "No workflow commands found.")) ↔
   always_run_cmds starting_cmd_num workflow_config = Ok [] ∧
   DSConfig.has_option workflow_config (Py.str_int starting_cmd_num) = false) ∧
  (∀ plan, get_workflow_cmd_num starting_cmd_num workflow_config = Ok plan → plan ≠ []).
Proof.
  rewrite get_workflow_cmd_num_unfold.
  destruct (always_run_cmds starting_cmd_num workflow_config) as [overrides|e] eqn:Hov.
  - cbv zeta.
    destruct (overrides ++ _) as [|x l] eqn:Hl.
    + apply app_eq_nil in Hl as [-> Hl]. split; [| done].
      * split; [intros _ | done]. split; [done |]. apply first_missing_start.
        destruct (first_missing_spec workflow_config starting_cmd_num) as (Hle & _).
        destruct (decide (first_missing workflow_config starting_cmd_num
                          = starting_cmd_num)) as [|Hne]; [done |]. exfalso.
        assert (starting_cmd_num ∈
                  filter (λ x, x ∉ ([] : list Z))
                    (seqZ starting_cmd_num
                       (first_missing workflow_config starting_cmd_num
                        - starting_cmd_num))) as Hin.
        { apply list_elem_of_filter. split; [apply not_elem_of_nil |].
          apply elem_of_seqZ. lia. }
        rewrite Hl in Hin. by apply elem_of_nil in Hin.
    + split.
      * split; [done |]. intros [[= ->] Hno]. apply first_missing_start in Hno.
        rewrite Hno, Z.sub_diag, seqZ_nil in Hl by lia. done.
      * intros plan [= <-] Hnil.
        pose proof (merge_sort_Permutation Z.le (x :: l)) as Hp.
        rewrite Hnil in Hp. by apply Permutation_nil_cons in Hp.
  - apply always_run_cmds_Raise in Hov as ->. split; [| done].
    split; [done | by intros [? _]].
Qed.

Lemma no_workflow_commands_found_witness :
  get_workflow_cmd_num 5 cfg_dense3 = Raise (SystemExit (Some "No workflow commands found.")).
Proof.
  apply (proj1 (no_workflow_commands_found cfg_dense3 5)). split; reflexivity.
Defined.

(** X4. From a starting number of at most 1 the [always_run_cmds] directive
    is not read at all, malformed or not: the plan is the contiguous run of
    numbered directives from the starting number, and there is none exactly
    when the starting number has no directive. *)
Theorem plan_from_the_start (workflow_config : config) (starting_cmd_num : Z) :
  starting_cmd_num ≤ 1 →
  get_workflow_cmd_num starting_cmd_num workflow_config =
  if DSConfig.has_option workflow_config (Py.str_int starting_cmd_num)
  then Ok (seqZ starting_cmd_num
             (first_missing workflow_config starting_cmd_num - starting_cmd_num))
  else Raise (SystemExit (Some "No workflow commands found.")).
Proof.
  intros Hs. rewrite get_workflow_cmd_num_unfold.
  assert (always_run_cmds starting_cmd_num workflow_config = Ok []) as ->.
  { unfold always_run_cmds. by destruct (starting_cmd_num >? 1) eqn:Hgt; [lia |]. }
  cbv zeta. rewrite app_nil_l.
  rewrite filter_all by (intros x _; apply not_elem_of_nil).
  destruct (DSConfig.has_option workflow_config (Py.str_int starting_cmd_num)) eqn:Hopt.
  - destruct (seqZ _ _) as [|x l] eqn:Hl.
    + assert (first_missing workflow_config starting_cmd_num = starting_cmd_num) as Hfm.
      { destruct (first_missing_spec workflow_config starting_cmd_num) as (Hle & _).
        pose proof (length_seqZ starting_cmd_num
                      (first_missing workflow_config starting_cmd_num - starting_cmd_num))
          as Hlen.
        rewrite Hl in Hlen. cbn in Hlen. lia. }
      apply first_missing_start in Hfm. congruence.
    + rewrite <- Hl. by rewrite merge_sort_seqZ.
  - apply first_missing_start in Hopt. by rewrite Hopt, Z.sub_diag, seqZ_nil by lia.
Qed.

Lemma plan_from_the_start_witness :
  get_workflow_cmd_num 1 cfg_override_malformed = Ok [1; 2].
Proof. exact (plan_from_the_start cfg_override_malformed 1 ltac:(lia)). Defined.

Lemma StronglySorted_le_NoDup_lt (l : list Z) :
  StronglySorted Z.le l → NoDup l → StronglySorted Z.lt l.
Proof.
  induction 1 as [|x l Hs IH Hall]; intros Hnd; [constructor |].
  apply NoDup_cons in Hnd as [Hx Hnd]. constructor; [by apply IH |].
  rewrite Forall_forall in Hall |- *. intros y Hy. specialize (Hall y Hy).
  destruct (decide (x = y)) as [->|]; [done | lia].
Qed.

Lemma NoDup_with_new (overrides xs : list Z) :
  NoDup xs → NoDup (overrides ++ filter (λ x, x ∉ overrides) xs) ↔ NoDup overrides.
Proof.
  intros Hxs. rewrite NoDup_app. split; [by intros (? & _) |]. intros Hov.
  split; [done |]. split; [| by apply NoDup_filter].
  intros x Hx Hf. apply list_elem_of_filter in Hf as [Hf _]. done.
Qed.

(** X5. A plan is the override numbers followed by the probed numbers the
    override list does not name, put in ascending order.  An override list
    without repetitions gives a strictly ascending plan; a number the
    directive names twice stays twice in the plan. *)
Theorem plan_is_sorted_union
    (workflow_config : config) (starting_cmd_num : Z) (plan : list Z) :
  get_workflow_cmd_num starting_cmd_num workflow_config = Ok plan →
  ∃ overrides,
    always_run_cmds starting_cmd_num workflow_config = Ok overrides ∧
    plan ≡ₚ overrides ++
            filter (λ x, x ∉ overrides)
              (seqZ starting_cmd_num
                 (first_missing workflow_config starting_cmd_num - starting_cmd_num)) ∧
    Sorted Z.le plan ∧
    (NoDup plan ↔ NoDup overrides) ∧
    (NoDup overrides → StronglySorted Z.lt plan).
Proof.
  rewrite get_workflow_cmd_num_unfold.
  destruct (always_run_cmds starting_cmd_num workflow_config) as [overrides|e]; [| done].
  cbv zeta. set (l := overrides ++ _).
  assert (NoDup l ↔ NoDup overrides) as Hnd by (apply NoDup_with_new, NoDup_seqZ).
  destruct l as [|x l'] eqn:Hl; [done |]. rewrite <- Hl in *. intros [= <-].
  exists overrides. split; [done |]. split; [apply merge_sort_Permutation |].
  split; [apply (Sorted_merge_sort Z.le) |].
  assert (NoDup (merge_sort Z.le l) ↔ NoDup overrides) as Hnd'.
  { by rewrite merge_sort_Permutation. }
  split; [exact Hnd' |]. intros Hov.
  apply StronglySorted_le_NoDup_lt; [| by apply Hnd'].
  apply (StronglySorted_merge_sort Z.le).
Qed.

Lemma plan_is_sorted_union_witness :
  get_workflow_cmd_num 2 cfg_override_twice = Ok [1; 1; 2; 3] ∧
  ¬ NoDup ([1; 1; 2; 3] : list Z).
Proof.
  split; [reflexivity |].
  destruct (plan_is_sorted_union cfg_override_twice 2 [1; 1; 2; 3] eq_refl)
    as (overrides & Hov & _ & _ & Hnd & _).
  vm_compute in Hov. injection Hov as <-. intros Hplan. apply Hnd in Hplan.
  apply NoDup_cons in Hplan as [Hin _]. apply Hin. by left.
Defined.

(** X6. Above starting number 1, an entry of [always_run_cmds] that is not
    an integer, an empty entry included, ends the generator with
    [ValueError], whatever commands are configured. *)
Theorem malformed_override_is_ValueError
    (workflow_config : config) (starting_cmd_num : Z) (s x : string) :
  1 < starting_cmd_num →
  workflow_config !! "always_run_cmds" = Some s →
  x ∈ DSConfig._getList s →
  Py.int x = None →
  get_workflow_cmd_num starting_cmd_num workflow_config = Raise ValueError.
Proof.
  intros Hs Hcfg Hx Hint. unfold get_workflow_cmd_num, always_run_cmds.
  destruct (starting_cmd_num >? 1) eqn:Hgt; [| lia].
  unfold DSConfig.get_list, DSConfig.get. rewrite Hcfg.
  by rewrite (ints_malformed _ _ Hx Hint).
Qed.

Lemma malformed_override_is_ValueError_witness :
  get_workflow_cmd_num 2 cfg_override_malformed = Raise ValueError ∧
  get_workflow_cmd_num 2 (<["always_run_cmds" := EmptyString]> cfg_dense3)
  = Raise ValueError.
Proof.
  split.
  - apply (malformed_override_is_ValueError cfg_override_malformed 2 "1, two" "two");
      [lia | reflexivity | | reflexivity].
    apply list_elem_of_further, list_elem_of_here.
  - apply (malformed_override_is_ValueError _ 2 EmptyString EmptyString);
      [lia | reflexivity | | reflexivity].
    apply list_elem_of_here.
Defined.

(** X7. The probing loop stops after at most as many commands as the
    section has options, so a plan is never longer than the override list
    and the section together. *)
Theorem plan_length_bound
    (workflow_config : config) (starting_cmd_num : Z) :
  first_missing workflow_config starting_cmd_num - starting_cmd_num
    ≤ Z.of_nat (size workflow_config) ∧
  (∀ plan overrides,
     get_workflow_cmd_num starting_cmd_num workflow_config = Ok plan →
     always_run_cmds starting_cmd_num workflow_config = Ok overrides →
     (List.length plan ≤ List.length overrides + size workflow_config)%nat).
Proof.
  pose proof (first_missing_bound workflow_config starting_cmd_num) as Hb.
  split; [exact Hb |]. intros plan overrides Hplan Hov.
  rewrite get_workflow_cmd_num_unfold, Hov in Hplan. cbv zeta in Hplan.
  destruct (overrides ++ _) as [|x l] eqn:Hl; [done |]. injection Hplan as <-.
  rewrite merge_sort_Permutation, <- Hl, length_app.
  pose proof (length_filter (λ x, x ∉ overrides)
                (seqZ starting_cmd_num
                   (first_missing workflow_config starting_cmd_num - starting_cmd_num)))
    as Hf.
  rewrite length_seqZ in Hf. lia.
Qed.

Lemma plan_length_bound_witness :
  (List.length [1; 2; 3; 10] ≤ List.length [1; 10] + size cfg_override_beyond)%nat.
Proof.
  exact (proj2 (plan_length_bound cfg_override_beyond 2) [1; 2; 3; 10] [1; 10]
           eq_refl eq_refl).
Defined.

(** ** Exceptions and exits *)

Lemma fstep_exn dict_str vars m a c e :
  fstep dict_str vars m a c = Raise e →
  (∃ key, e = KeyError key ∧ vars !! key = None) ∨ e = ValueError ∨ e = TypeError.
Proof.
  unfold fstep, fdot, flenmod, fconv.
  repeat case_match; intros [= <-]; eauto.
Qed.

Lemma frun_exn dict_str vars s : ∀ m a e,
  frun dict_str vars m a s = Raise e →
  (∃ key, e = KeyError key ∧ vars !! key = None) ∨ e = ValueError ∨ e = TypeError.
Proof.
  induction s as [|c s IH]; intros m a e; [done |].
  rewrite frun_cons.
  destruct (fstep dict_str vars m a c) as [[[m' a'] out]|e'] eqn:Hstep.
  - destruct (frun dict_str vars m' a' s) as [[o fin]|e''] eqn:Hrun; [done |].
    intros [= <-]. by eapply IH.
  - intros [= <-]. by eapply fstep_exn.
Qed.

(** The [%] operator fails with [KeyError] (for a name that has no entry),
    [ValueError] or [TypeError] only. *)
Lemma format_exn dict_str vars fmt e :
  format dict_str vars fmt = Raise e →
  (∃ key, e = KeyError key ∧ vars !! key = None) ∨ e = ValueError ∨ e = TypeError.
Proof.
  unfold format.
  destruct (frun dict_str vars FText (Some ADict) fmt) as [[o [m a]]|e'] eqn:Hrun.
  - destruct m; intros [= <-]; eauto.
  - intros [= <-]. by eapply frun_exn.
Qed.

Section ExitFacts.

Context (H : Host) (workflow_config : config).

(** What leaves [WorkflowException]: it prints the cleanup output at most
    once, and only on the way to the exit that names the command; an exit it
    makes always carries the message of a premature end of that command. *)
Lemma WorkflowException_result depth : ∀ command_num emsg v st e st',
  WorkflowException H depth workflow_config command_num emsg v st = (e, st') →
  st_runtimes st' = st_runtimes st ∧
  (st_out st' = st_out st ∨
   ∃ out, st_out st' =
            st_out st ++ ["#Premature workflow end command executed ..." +:+
                          Py.newline +:+ out] ∧
          e = SystemExit (Some (premature_message command_num emsg))) ∧
  (∀ a, e = SystemExit a → a = Some (premature_message command_num emsg)).
Proof.
  destruct depth as [|d]; intros command_num emsg v st e st' Hw.
  { injection Hw as <- <-. split; [done |]. split; [by left | done]. }
  pose proof Hw as Hw0.
  cbn [WorkflowException] in Hw. unfold DSConfig.get in Hw.
  destruct (workflow_config !! "premature_end_cmd") as [raw|] eqn:Hraw; cycle 1.
  { injection Hw as <- <-. split; [done |]. split; [by left |]. by intros a [= <-]. }
  destruct (format (dict_str H) v raw) as [s|e0] eqn:Hfmt.
  - unfold prepare_cmd_with in Hw. rewrite Hfmt in Hw.
    destruct (run_cmd H (Py.replace "_PERC_" "%" s) st) as [[out|e1] st1] eqn:Hrun.
    + injection Hw as <- <-. apply run_cmd_frame in Hrun as (Hout & Hrt & _).
      split; [done |]. split; [| by intros a [= <-]].
      right. exists out. cbn. by rewrite Hout.
    + apply run_cmd_frame in Hrun as Hframe. destruct Hframe as (Hout & Hrt & _).
      apply run_cmd_Raise in Hrun as [msg ->]. injection Hw as <- <-.
      split; [done |]. split; [by left | done].
  - destruct (format_exn _ _ _ _ Hfmt) as [(key & -> & _)|[-> | ->]].
    + rewrite (WorkflowException_cleanup_unexpandable H workflow_config (S d)
                 command_num emsg v st raw key Hraw Hfmt) in Hw0.
      injection Hw0 as <- <-. split; [done |]. split; [by left | done].
    + unfold prepare_cmd_with in Hw. rewrite Hfmt in Hw. injection Hw as <- <-.
      split; [done |]. split; [by left | done].
    + unfold prepare_cmd_with in Hw. rewrite Hfmt in Hw. injection Hw as <- <-.
      split; [done |]. split; [by left | done].
Qed.

Lemma prepare_cmd_Raise command_num raw v st e st' :
  prepare_cmd H workflow_config command_num raw v st = (Raise e, st') →
  ∀ a, e = SystemExit a → ∃ emsg, a = Some (premature_message command_num emsg).
Proof.
  unfold prepare_cmd, prepare_cmd_with.
  destruct (format (dict_str H) v raw) as [s|e0] eqn:Hfmt; [done |].
  destruct (format_exn _ _ _ _ Hfmt) as [(key & -> & _)|[-> | ->]];
    [| by intros [= <- <-] | by intros [= <- <-]].
  destruct (WorkflowException H _ _ _ _ _ st) as [e1 st1] eqn:Hw.
  intros [= <- <-] a ->. apply WorkflowException_result in Hw as (_ & _ & Ha).
  eexists. by apply Ha.
Qed.

(** An exit out of the loop body names the command of that pass. *)
Lemma main_loop_body_Raise num_chars_to_log report_runtime command_num v st e st' :
  main_loop_body H workflow_config num_chars_to_log report_runtime command_num v st
    = (Raise e, st') →
  ∀ a, e = SystemExit a → ∃ emsg, a = Some (premature_message command_num emsg).
Proof.
  unfold main_loop_body, bind, lift, DSConfig.get.
  destruct (workflow_config !! Py.str_int command_num) as [raw|]; [| by intros [= <- <-]].
  destruct (prepare_cmd H workflow_config command_num raw v st) as [[command|e0] st0]
    eqn:Hprep; [| intros [= <- <-]; by eapply prepare_cmd_Raise].
  destruct (print H _ st0) as [[[]|e1] st1] eqn:Hprint; [| by unfold print in Hprint].
  destruct (track H report_runtime _ st1) as [[[]|e2] st2] eqn:Htrack; cycle 1.
  { unfold track, bind, now, ret in Htrack. destruct report_runtime; [| done].
    by destruct (datetime_now H (st_world st1)). }
  destruct (run_cmd H command st2) as [[out|e3] st3] eqn:Hrun.
  - destruct (report H _ st3) as [[runtime|e4] st4] eqn:Hrep; cycle 1.
    { unfold report, bind, now, ret in Hrep. destruct (st_runtimes st3 !! _); [| done].
      by destruct (datetime_now H (st_world st3)). }
    destruct (print H _ st4) as [[[]|e5] st5] eqn:Hprint2; [| by unfold print in Hprint2].
    destruct (print_runtime H _ runtime st5) as [[[]|e6] st6] eqn:Hprt; [done |].
    unfold print_runtime, ret, print in Hprt. destruct runtime as [t|]; [| done].
    by destruct (Py.is_empty t).
  - apply run_cmd_Raise in Hrun as [msg ->].
    destruct (WorkflowException H _ _ _ _ _ st3) as [e1 st1'] eqn:Hw.
    intros [= <- <-] a ->. apply WorkflowException_result in Hw as (_ & _ & Ha).
    eexists. by apply Ha.
Qed.

Lemma main_loop_Raise num_chars_to_log report_runtime plan : ∀ v st e st',
  main_loop H workflow_config num_chars_to_log report_runtime plan v st = (Raise e, st') →
  ∀ a, e = SystemExit a →
    ∃ command_num emsg, command_num ∈ plan ∧ a = Some (premature_message command_num emsg).
Proof.
  induction plan as [|n plan IH]; intros v st e st' Hloop a Ha; [done |].
  cbn [main_loop] in Hloop. unfold bind in Hloop.
  destruct (main_loop_body H _ _ _ n v st) as [[v1|e1] st1] eqn:Hbody.
  - destruct (IH _ _ _ _ Hloop a Ha) as (m & emsg & Hm & ->).
    exists m, emsg. split; [by right | done].
  - injection Hloop as <- <-.
    destruct (main_loop_body_Raise _ _ _ _ _ _ _ Hbody a Ha) as [emsg ->].
    exists n, emsg. split; [by left | done].
Qed.

Lemma get_workflow_cmd_num_Raise starting_cmd_num e :
  get_workflow_cmd_num starting_cmd_num workflow_config = Raise e →
  e = SystemExit (Some "No workflow commands found.") ∨ e = ValueError.
Proof.
  unfold get_workflow_cmd_num.
  destruct (always_run_cmds starting_cmd_num workflow_config) as [l|e0] eqn:Hov.
  - destruct (_ =? _)%nat; [| done]. intros [= <-]. by left.
  - intros [= <-]. apply always_run_cmds_Raise in Hov. by right.
Qed.

Lemma main_zookeeper_Raise v st e st' :
  main_zookeeper H workflow_config v st = (Raise e, st') →
  ∃ msg, e = SystemExit (Some msg).
Proof.
  unfold main_zookeeper, DSConfig.get, raise.
  destruct (workflow_config !! "zk_queue_path") as [path|];
    [| intros [= <- <-]; by eexists].
  destruct (Py.is_empty path); [done |].
  destruct (run_cmd H _ st) as [[out|e0] st0] eqn:Hrun; [done |].
  apply run_cmd_Raise in Hrun as [msg ->]. intros [= <- <-]. by eexists.
Qed.

Lemma main_workflow_Raise starting_command_num st e st' :
  main_workflow H workflow_config starting_command_num st = (Raise e, st') →
  e ≠ SystemExit None.
Proof.
  unfold main_workflow, bind.
  destruct (now H st) as [[now_|e0] st0] eqn:Hnow; cycle 1.
  { unfold now in Hnow. by destruct (datetime_now H (st_world st)). }
  destruct (main_zookeeper H workflow_config _ st0) as [[v1|e1] st1] eqn:Hzk; cycle 1.
  { apply main_zookeeper_Raise in Hzk as [msg ->]. by intros [= <- <-]. }
  destruct (track H _ "workflow" st1) as [[[]|e2] st2] eqn:Htrack; cycle 1.
  { unfold track, bind, now, ret in Htrack.
    destruct (main_report_runtime workflow_config); [| done].
    by destruct (datetime_now H (st_world st1)). }
  unfold lift.
  destruct (get_workflow_cmd_num starting_command_num workflow_config) as [plan|e3]
    eqn:Hplan; cycle 1.
  { apply get_workflow_cmd_num_Raise in Hplan as [-> | ->]; by intros [= <- <-]. }
  destruct (main_loop H workflow_config _ _ plan v1 st2) as [[v2|e4] st3] eqn:Hloop; cycle 1.
  { intros [= <- <-] ->.
    by destruct (main_loop_Raise _ _ _ _ _ _ _ Hloop None eq_refl) as (n & emsg & _ & ?). }
  destruct (print H _ st3) as [[[]|e5] st4] eqn:Hprint; [| by unfold print in Hprint].
  destruct (report H "workflow" st4) as [[runtime|e6] st5] eqn:Hrep; cycle 1.
  { unfold report, bind, now, ret in Hrep. destruct (st_runtimes st4 !! _); [| done].
    by destruct (datetime_now H (st_world st4)). }
  destruct (print_runtime H _ runtime st5) as [[[]|e7] st6] eqn:Hprt; [done |].
  unfold print_runtime, ret, print in Hprt. destruct runtime as [t|]; [| done].
  by destruct (Py.is_empty t).
Qed.

End ExitFacts.

Section RunFacts.

Context (H : Host) (workflow_config : config) (num_chars_to_log : option Z).

Lemma main_loop_app report_runtime l1 l2 : ∀ v st,
  main_loop H workflow_config num_chars_to_log report_runtime (l1 ++ l2) v st =
  match main_loop H workflow_config num_chars_to_log report_runtime l1 v st with
  | (Ok v1, st1) => main_loop H workflow_config num_chars_to_log report_runtime l2 v1 st1
  | (Raise e, st1) => (Raise e, st1)
  end.
Proof.
  induction l1 as [|n l1 IH]; intros v st; [done |].
  cbn [app main_loop]. unfold bind.
  destruct (main_loop_body H _ _ _ n v st) as [[v1|e] st1]; [apply IH | done].
Qed.

Lemma main_loop_frame report_runtime plan : ∀ v st v' st',
  main_loop H workflow_config num_chars_to_log report_runtime plan v st = (Ok v', st') →
  dom v' = dom v ∪ output_keys plan ∧
  (∀ k, k ∉ output_keys plan → v' !! k = v !! k).
Proof.
  unfold output_keys.
  induction plan as [|n plan IH]; intros v st v' st' Hloop; cbn [main_loop] in Hloop.
  - injection Hloop as <- <-. rewrite fmap_nil, list_to_set_nil. split; [| done].
    by rewrite (right_id_L ∅ (∪)).
  - apply bind_Ok in Hloop as (v1 & st1 & Hbody & Hloop).
    apply main_loop_body_Ok in Hbody as (_ & _ & _ & _ & out & _ & _ & _ & _ & _ & -> & _).
    apply IH in Hloop as [Hdom Hframe]. rewrite fmap_cons, list_to_set_cons. split.
    + rewrite Hdom, dom_insert_L.
      rewrite (assoc_L (∪)), (comm_L (∪) (dom v)). done.
    + intros k Hk. apply not_elem_of_union in Hk as [Hk1 Hk2].
      rewrite Hframe by done. apply lookup_insert_ne.
      intros <-. apply Hk1. by apply elem_of_singleton.
Qed.

(** With runtime reporting off nothing is ever tracked, and the loop body
    prints its two lines only. *)
Lemma main_loop_body_quiet command_num v st v' st' :
  st_runtimes st = ∅ →
  main_loop_body H workflow_config num_chars_to_log false command_num v st = (Ok v', st') →
  st_runtimes st' = ∅ ∧ List.length (st_out st') = (List.length (st_out st) + 2)%nat.
Proof.
  intros Hrt Hbody. unfold main_loop_body in Hbody.
  apply bind_Ok in Hbody as (raw & s0 & Hget & Hbody).
  apply bind_Ok in Hbody as (command & s1 & Hprep & Hbody).
  apply bind_Ok in Hbody as (? & s2 & Hprint & Hbody).
  apply bind_Ok in Hbody as (? & s3 & Htrack & Hbody).
  apply bind_Ok in Hbody as (cmd_output & s4 & Hrun & Hbody).
  apply bind_Ok in Hbody as (runtime & s5 & Hreport & Hbody).
  apply bind_Ok in Hbody as (? & s6 & Hprint2 & Hbody).
  apply bind_Ok in Hbody as (? & s7 & Hprt & Hbody).
  unfold ret in Hbody. injection Hbody as <- <-.
  unfold lift in Hget. injection Hget as _ <-.
  apply prepare_cmd_inv in Hprep as (-> & _).
  unfold print in Hprint. injection Hprint as <- <-.
  unfold track, ret in Htrack. injection Htrack as <- <-.
  cbv beta in Hrun.
  destruct (run_cmd H command _) as [[out|e] sx] eqn:Hr; cycle 1.
  { destruct e; try done. by destruct (WorkflowException _ _ _ _ _ _ _). }
  injection Hrun as <- <-. apply run_cmd_frame in Hr as (Hout & Hrt' & _).
  cbn [st_out st_runtimes] in Hout, Hrt'. rewrite Hrt in Hrt'.
  unfold report in Hreport. rewrite Hrt', lookup_empty in Hreport.
  injection Hreport as <- <-.
  unfold print in Hprint2. injection Hprint2 as <- <-.
  unfold print_runtime, ret in Hprt. injection Hprt as <- <-.
  cbn [st_out st_runtimes]. split; [done |].
  rewrite Hout, !length_app. cbn [List.length]. lia.
Qed.

Lemma main_loop_quiet plan : ∀ v st v' st',
  st_runtimes st = ∅ →
  main_loop H workflow_config num_chars_to_log false plan v st = (Ok v', st') →
  st_runtimes st' = ∅ ∧
  List.length (st_out st') = (List.length (st_out st) + 2 * List.length plan)%nat.
Proof.
  induction plan as [|n plan IH]; intros v st v' st' Hrt Hloop; cbn [main_loop] in Hloop.
  - injection Hloop as <- <-. split; [done |]. cbn [List.length]. lia.
  - apply bind_Ok in Hloop as (v1 & st1 & Hbody & Hloop).
    apply main_loop_body_quiet in Hbody as [Hrt1 Hlen1]; [| done].
    apply IH in Hloop as [Hrt2 Hlen2]; [| done]. split; [done |].
    cbn [List.length]. lia.
Qed.

End RunFacts.

Lemma length_append (a b : string) :
  String.length (a +:+ b) = (String.length a + String.length b)%nat.
Proof. induction a as [|x a IH]; [done |]. rewrite append_cons. cbn. by rewrite IH. Qed.

Lemma append_inj_r (a b c : string) : a +:+ c = b +:+ c → a = b.
Proof.
  revert b. induction a as [|x a IH]; intros b Heq.
  - destruct b as [|y b]; [done |]. apply (f_equal String.length) in Heq.
    rewrite append_empty_l, append_cons in Heq. cbn in Heq. rewrite length_append in Heq. lia.
  - destruct b as [|y b].
    + apply (f_equal String.length) in Heq.
      rewrite append_empty_l, append_cons in Heq. cbn in Heq. rewrite length_append in Heq. lia.
    + rewrite !append_cons in Heq. injection Heq as -> Heq. f_equal. by apply IH.
Qed.

Lemma cmd_output_key_inj (m n : Z) : cmd_output_key m = cmd_output_key n → m = n.
Proof.
  unfold cmd_output_key. intros Heq. apply (inj (String.append "cmd_")) in Heq.
  apply append_inj_r in Heq. by apply (inj pretty) in Heq.
Qed.

Lemma elem_of_output_keys (plan : list Z) (n : Z) :
  cmd_output_key n ∈ output_keys plan ↔ n ∈ plan.
Proof.
  unfold output_keys. rewrite elem_of_list_to_set, list_elem_of_fmap. split.
  - intros (m & Heq & Hm). by apply cmd_output_key_inj in Heq as ->.
  - intros Hn. by exists n.
Qed.

Lemma convenience_name_not_output_key (plan : list Z) (k : string) :
  k ∈ ["now"; "YrMn"; "YrMnDy"; "curdate"; "zk_queue_value"] → k ∉ output_keys plan.
Proof.
  intros Hk Hin. unfold output_keys in Hin.
  apply elem_of_list_to_set, list_elem_of_fmap in Hin as (n & -> & _).
  unfold cmd_output_key in Hk.
  change ("cmd_" +:+ Py.str_int n +:+ "_output")
    with (String "c" (String "m" ("d_" +:+ Py.str_int n +:+ "_output"))) in Hk.
  repeat (apply elem_of_cons in Hk as [Hk|Hk]; [discriminate Hk |]).
  by apply elem_of_nil in Hk.
Qed.

(** ** The run as a whole *)

(** X8. What leaves [WorkflowException]: the cleanup output is printed at
    most once, and only when the cleanup command has succeeded, in which case
    the program exits with the message of the failure that was handed in;
    whenever the constructor ends in [sys.exit], the message is that of the
    premature end of the command it was given, so the exit status is 1;
    nothing is tracked. *)
Theorem cleanup_output_at_most_once
    (H : Host) (workflow_config : config) (depth : nat) (command_num : Z)
    (emsg : string) (v : variables) (st : state H) :
  let r := WorkflowException H depth workflow_config command_num emsg v st in
  st_runtimes r.2 = st_runtimes st ∧
  (st_out r.2 = st_out st ∨
   ∃ out, st_out r.2 =
            st_out st ++ ["#Premature workflow end command executed ..." +:+
                          Py.newline +:+ out] ∧
          r.1 = SystemExit (Some (premature_message command_num emsg))) ∧
  (∀ a, r.1 = SystemExit a → a = Some (premature_message command_num emsg)) ∧
  exit_status (Raise r.1 : result variables) = 1.
Proof.
  cbv zeta.
  destruct (WorkflowException H depth workflow_config command_num emsg v st)
    as [e st'] eqn:Hw.
  destruct (WorkflowException_result H workflow_config depth _ _ _ _ _ _ Hw)
    as (Hrt & Hout & Hexit).
  cbn [fst snd]. split; [done |]. split; [done |]. split; [done |].
  destruct e as [| | | | | |a]; try done. by rewrite (Hexit a eq_refl).
Qed.

Lemma cleanup_output_at_most_once_witness :
  exit_status
    (Raise (WorkflowException (demo_host None) recursion_limit cfg_cleanup_fails 1
              "boom" (main_convenience_variables demo_now)
              (initial_state (demo_host None) tt)).1 : result variables) = 1 ∧
  st_out (WorkflowException (demo_host None) recursion_limit cfg_cleanup_fails 1
            "boom" (main_convenience_variables demo_now)
            (initial_state (demo_host None) tt)).2 = [].
Proof.
  destruct (cleanup_output_at_most_once (demo_host None) cfg_cleanup_fails recursion_limit 1
              "boom" (main_convenience_variables demo_now)
              (initial_state (demo_host None) tt)) as (_ & [Hout|(out & _ & Hexit)] & _ & Hst).
  - split; [exact Hst | exact Hout].
  - exfalso. revert Hexit. generalize (premature_message 1 "boom"). intros msg.
    change ((WorkflowException (demo_host None) recursion_limit cfg_cleanup_fails 1
               "boom" (main_convenience_variables demo_now)
               (initial_state (demo_host None) tt)).1)
      with (PlainException
              (Py.newline +:+
               "Unexpected return code or value: 127, bash: undo-step-one: command not found")).
    discriminate.
Defined.

(** X9. Every [sys.exit] of the program after parameter validation carries
    a message: one of the two about the queue, ["No workflow commands
    found."], or the premature end of a command of the plan. *)
Theorem exit_messages
    (H : Host) (workflow_config : config) (starting_command_num : Z)
    (st st' : state H) (a : option string) :
  main_workflow H workflow_config starting_command_num st = (Raise (SystemExit a), st') →
  a = Some "ZK queue path directive not found in config file (can be empty but must be defined)" ∨
  (∃ path, workflow_config !! "zk_queue_path" = Some path ∧
           a = Some ("Nothing in the workflow queue '" +:+ path +:+ "'")) ∨
  a = Some "No workflow commands found." ∨
  (∃ plan command_num emsg,
     get_workflow_cmd_num starting_command_num workflow_config = Ok plan ∧
     command_num ∈ plan ∧ a = Some (premature_message command_num emsg)).
Proof.
  unfold main_workflow, bind.
  destruct (now H st) as [[now_|e0] st0] eqn:Hnow; cycle 1.
  { unfold now in Hnow. by destruct (datetime_now H (st_world st)). }
  destruct (main_zookeeper H workflow_config _ st0) as [[v1|e1] st1] eqn:Hzk; cycle 1.
  { intros [= -> <-]. unfold main_zookeeper, DSConfig.get, raise in Hzk.
    destruct (workflow_config !! "zk_queue_path") as [path|];
      [| injection Hzk as <- <-; by left].
    destruct (Py.is_empty path); [done |].
    destruct (run_cmd H _ st0) as [[out|e0] sx] eqn:Hrun; [done |].
    apply run_cmd_Raise in Hrun as [msg ->]. cbn [is_Exception] in Hzk.
    injection Hzk as <- <-. right; left. by exists path. }
  destruct (track H _ "workflow" st1) as [[[]|e2] st2] eqn:Htrack; cycle 1.
  { unfold track, bind, now, ret in Htrack.
    destruct (main_report_runtime workflow_config); [| done].
    by destruct (datetime_now H (st_world st1)). }
  unfold lift.
  destruct (get_workflow_cmd_num starting_command_num workflow_config) as [plan|e3]
    eqn:Hplan; cycle 1.
  { apply get_workflow_cmd_num_Raise in Hplan as [-> | ->]; intros [= <- <-].
    right; right; by left. }
  destruct (main_loop H workflow_config _ _ plan v1 st2) as [[v2|e4] st3] eqn:Hloop; cycle 1.
  { intros [= -> <-].
    destruct (main_loop_Raise _ _ _ _ _ _ _ _ _ Hloop a eq_refl) as (n & emsg & Hn & ->).
    right; right; right. by exists plan, n, emsg. }
  destruct (print H _ st3) as [[[]|e5] st4] eqn:Hprint; [| by unfold print in Hprint].
  destruct (report H "workflow" st4) as [[runtime|e6] st5] eqn:Hrep; cycle 1.
  { unfold report, bind, now, ret in Hrep. destruct (st_runtimes st4 !! _); [| done].
    by destruct (datetime_now H (st_world st4)). }
  destruct (print_runtime H _ runtime st5) as [[[]|e7] st6] eqn:Hprt; [done |].
  unfold print_runtime, ret, print in Hprt. destruct runtime as [t|]; [| done].
  by destruct (Py.is_empty t).
Qed.

Lemma exit_messages_witness :
  ∃ plan command_num emsg,
    get_workflow_cmd_num 1 cfg_cleanup_ok = Ok plan ∧ command_num ∈ plan ∧
    Some (premature_message 1 (Py.newline +:+ "Unexpected return code or value: 1, "))
    = Some (premature_message command_num emsg).
Proof.
  destruct (exit_messages (demo_host None) cfg_cleanup_ok 1
              (initial_state (demo_host None) tt)
              (main_workflow (demo_host None) cfg_cleanup_ok 1
                 (initial_state (demo_host None) tt)).2
              (Some (premature_message 1
                       (Py.newline +:+ "Unexpected return code or value: 1, ")))
              eq_refl) as [Ha|[(path & _ & Ha)|[Ha|Hplan]]].
  - vm_compute in Ha. discriminate Ha.
  - exfalso. vm_compute in Ha. discriminate Ha.
  - vm_compute in Ha. discriminate Ha.
  - exact Hplan.
Defined.

(** X10. Once the argument count is accepted (one or two arguments), the
    exit status is 0 exactly when the whole run completes: an unreadable
    configuration, a second argument that is not an integer and every failure
    of the run end with status 1. *)
Theorem accepted_arguments_exit_status
    (H : Host) (prog filename : string) (rest : list string) (st : state H) :
  (List.length rest ≤ 1)%nat →
  exit_status (main H (prog :: filename :: rest) st).1 = 0 ↔
  ∃ v, (main H (prog :: filename :: rest) st).1 = Ok v.
Proof.
  intros Hlen. split; [| by intros [v ->]].
  assert (∀ workflow_config n,
            exit_status (main_workflow H workflow_config n st).1 = 0 →
            ∃ v, (main_workflow H workflow_config n st).1 = Ok v) as Hwf.
  { intros workflow_config n.
    destruct (main_workflow H workflow_config n st) as [[v|e] st'] eqn:Hm; [by eexists |].
    apply main_workflow_Raise in Hm. cbn [fst exit_status].
    destruct e as [| | | | | |[msg|]]; done. }
  destruct rest as [|num [|? ?]]; cbn [List.length] in Hlen; [| | lia]; cbn [main].
  - destruct (DSConfig_init H filename (st_world st)) as [cfg|msg]; [apply Hwf | done].
  - destruct (DSConfig_init H filename (st_world st)) as [cfg|msg]; [| done].
    destruct (Py.int num) as [n|]; [apply Hwf | done].
Qed.

Lemma accepted_arguments_exit_status_witness :
  ∃ v, (main (demo_host (Some cfg_hello)) ["workflow_runner.py"; "wf.ini"; "1"]
          (initial_state (demo_host (Some cfg_hello)) tt)).1 = Ok v.
Proof.
  apply (accepted_arguments_exit_status (demo_host (Some cfg_hello))
           "workflow_runner.py" "wf.ini" ["1"]); [cbn; lia | reflexivity].
Defined.

Section RunTheorems.

Context (H : Host) (workflow_config : config) (num_chars_to_log : option Z)
  (report_runtime : bool).

Lemma main_workflow_Ok starting_command_num st v' st' :
  main_workflow H workflow_config starting_command_num st = (Ok v', st') →
  ∃ st0 v1 st1 st2 plan st3,
    main_zookeeper H workflow_config
      (main_convenience_variables (datetime_now H (st_world st)).1) st0 = (Ok v1, st1) ∧
    st_out st0 = st_out st ∧ st_runtimes st0 = st_runtimes st ∧
    st2 = (track H (main_report_runtime workflow_config) "workflow" st1).2 ∧
    get_workflow_cmd_num starting_command_num workflow_config = Ok plan ∧
    main_loop H workflow_config (main_num_chars_to_log workflow_config)
      (main_report_runtime workflow_config) plan v1 st2 = (Ok v', st3) ∧
    ∃ runtime_lines,
      st_out st' =
        st_out st3 ++
        ["Workflow completed at " +:+ datetime_str (datetime_now H (st_world st)).1]
        ++ runtime_lines ∧
      (st_runtimes st3 !! "workflow" = None → runtime_lines = []).
Proof.
  intros Hwf. unfold main_workflow in Hwf.
  apply bind_Ok in Hwf as (now_ & s1 & Hnow & Hwf).
  apply bind_Ok in Hwf as (v1 & s2 & Hz & Hwf).
  apply bind_Ok in Hwf as ([] & s3 & Htrack & Hwf).
  apply bind_Ok in Hwf as (plan & s4 & Hplan & Hwf).
  apply bind_Ok in Hwf as (v2 & s5 & Hloop & Hwf).
  apply bind_Ok in Hwf as ([] & s6 & Hprint & Hwf).
  apply bind_Ok in Hwf as (runtime & s7 & Hrep & Hwf).
  apply bind_Ok in Hwf as ([] & s8 & Hprt & Hwf).
  unfold ret in Hwf. injection Hwf as <- <-.
  unfold lift in Hplan. injection Hplan as Hplan <-.
  assert (now_ = (datetime_now H (st_world st)).1) as ->.
  { unfold now in Hnow. destruct (datetime_now H (st_world st)). by injection Hnow as <- _. }
  apply now_frame in Hnow as [Hout0 Hrt0].
  exists s1, v1, s2, s3, plan, s5. split; [done |]. split; [done |]. split; [done |].
  split; [by rewrite Htrack |]. split; [done |]. split; [done |].
  pose proof (print_out _ _ _ _ _ Hprint) as Hout6.
  pose proof (report_out _ _ _ _ _ Hrep) as Hout7.
  pose proof (print_runtime_out _ _ _ _ _ _ Hprt) as Hout8.
  destruct (st_runtimes s5 !! "workflow") as [d|] eqn:Hlook.
  - destruct Hout8 as [Hout8|[t Hout8]].
    + exists []. split; [| done]. by rewrite Hout8, Hout7, Hout6, app_nil_r.
    + exists [">> runtime: " +:+ t]. split; [| done].
      rewrite Hout8, Hout7, Hout6. by rewrite <- app_assoc.
  - exists []. split; [| done].
    unfold print in Hprint. injection Hprint as <-.
    unfold report in Hrep. cbn [st_runtimes] in Hrep. rewrite Hlook in Hrep.
    injection Hrep as <- <-. unfold print_runtime, ret in Hprt. injection Hprt as <-.
    by rewrite app_nil_r.
Qed.

End RunTheorems.

(** X11. The loop over a plan is the loop over its first part followed by
    the loop over the rest, started from the dictionary and the state the
    first part leaves; when the first part fails, the run ends there
    whatever commands follow. *)
Theorem loop_runs_in_plan_order
    (H : Host) (workflow_config : config) (num_chars_to_log : option Z)
    (report_runtime : bool) (l1 l2 : list Z) (v : variables) (st : state H) :
  main_loop H workflow_config num_chars_to_log report_runtime (l1 ++ l2) v st =
  match main_loop H workflow_config num_chars_to_log report_runtime l1 v st with
  | (Ok v1, st1) => main_loop H workflow_config num_chars_to_log report_runtime l2 v1 st1
  | (Raise e, st1) => (Raise e, st1)
  end ∧
  (∀ e st1,
     main_loop H workflow_config num_chars_to_log report_runtime l1 v st = (Raise e, st1) →
     main_loop H workflow_config num_chars_to_log report_runtime (l1 ++ l2) v st
     = (Raise e, st1)).
Proof.
  split; [apply main_loop_app |]. intros e st1 Hl1. by rewrite main_loop_app, Hl1.
Qed.

Lemma loop_runs_in_plan_order_witness :
  main_loop (demo_host None) cfg_cleanup_ok None false ([1] ++ [2; 3])
    (main_convenience_variables demo_now) (initial_state (demo_host None) tt) =
  main_loop (demo_host None) cfg_cleanup_ok None false [1]
    (main_convenience_variables demo_now) (initial_state (demo_host None) tt).
Proof.
  rewrite (surjective_pairing
             (main_loop (demo_host None) cfg_cleanup_ok None false [1]
                (main_convenience_variables demo_now) (initial_state (demo_host None) tt))).
  apply (proj2 (loop_runs_in_plan_order (demo_host None) cfg_cleanup_ok None false
                  [1] [2; 3] (main_convenience_variables demo_now)
                  (initial_state (demo_host None) tt))).
  reflexivity.
Defined.

(** X12. When the loop completes, the dictionary holds the entries it
    started with and one [cmd_N_output] for every command N of the plan, and
    no other name. *)
Theorem completed_loop_dictionary
    (H : Host) (workflow_config : config) (num_chars_to_log : option Z)
    (report_runtime : bool) (plan : list Z) (v : variables) (st : state H)
    (v' : variables) (st' : state H) :
  main_loop H workflow_config num_chars_to_log report_runtime plan v st = (Ok v', st') →
  dom v' = dom v ∪ output_keys plan ∧
  (∀ n, n ∈ plan → is_Some (v' !! cmd_output_key n)) ∧
  (∀ n, is_Some (v' !! cmd_output_key n) → n ∈ plan ∨ is_Some (v !! cmd_output_key n)).
Proof.
  intros Hloop. apply main_loop_frame in Hloop as [Hdom _].
  split; [exact Hdom |]. split.
  - intros n Hn. apply elem_of_dom. rewrite Hdom. apply elem_of_union_r.
    by apply elem_of_output_keys.
  - intros n Hn. apply elem_of_dom in Hn. rewrite Hdom in Hn.
    apply elem_of_union in Hn as [Hn|Hn].
    + right. by apply elem_of_dom.
    + left. by apply elem_of_output_keys.
Qed.

Lemma completed_loop_dictionary_witness :
  dom (<["cmd_2_output" := VStr "hello world"]>
         (<["cmd_1_output" := VStr "hello"]> (main_convenience_variables demo_now)))
  = dom (main_convenience_variables demo_now) ∪ output_keys [1; 2].
Proof.
  exact (proj1 (completed_loop_dictionary (demo_host None) cfg_hello None false [1; 2]
                  (main_convenience_variables demo_now)
                  (initial_state (demo_host None) tt)
                  (<["cmd_2_output" := VStr "hello world"]>
                     (<["cmd_1_output" := VStr "hello"]>
                        (main_convenience_variables demo_now)))
                  (Build_state (demo_host None) tt
                     ["#1 >> echo hello ..."; "hello";
                      "#2 >> echo hello world ..."; "hello world"] ∅)
                  eq_refl)).
Defined.

(** X13. No command output is ever stored under the name of a convenience
    variable or of the queue value: when the run completes, [now], [YrMn],
    [YrMnDy] and [curdate] still hold what was computed from the clock
    reading at the start, whatever the commands printed. *)
Theorem convenience_variables_survive
    (H : Host) (workflow_config : config) :
  (∀ num_chars_to_log report_runtime plan v st v' st' k,
     main_loop H workflow_config num_chars_to_log report_runtime plan v st = (Ok v', st') →
     k ∈ ["now"; "YrMn"; "YrMnDy"; "curdate"; "zk_queue_value"] →
     v' !! k = v !! k) ∧
  (∀ starting_command_num st v' st',
     main_workflow H workflow_config starting_command_num st = (Ok v', st') →
     let d := (datetime_now H (st_world st)).1 in
     v' !! "now" = Some (VDatetime d) ∧
     v' !! "YrMn" = Some (VStr (strftime_Ym d)) ∧
     v' !! "YrMnDy" = Some (VStr (strftime_Ymd d)) ∧
     v' !! "curdate" = Some (VStr (strftime_Y_m_d d))).
Proof.
  assert (∀ num_chars_to_log report_runtime plan v st v' st' k,
            main_loop H workflow_config num_chars_to_log report_runtime plan v st
              = (Ok v', st') →
            k ∈ ["now"; "YrMn"; "YrMnDy"; "curdate"; "zk_queue_value"] →
            v' !! k = v !! k) as Hloop.
  { intros cap rr plan v st v' st' k Hl Hk.
    apply main_loop_frame in Hl as [_ Hframe]. apply Hframe.
    by apply convenience_name_not_output_key. }
  split; [exact Hloop |].
  intros n st v' st' Hwf d.
  apply main_workflow_Ok in Hwf
    as (st0 & v1 & st1 & st2 & plan & st3 & Hzk & _ & _ & _ & _ & Hl & _).
  fold d in Hzk.
  assert (∀ k, k ∈ ["now"; "YrMn"; "YrMnDy"; "curdate"] →
               v' !! k = main_convenience_variables d !! k) as Hk.
  { intros k Hin. rewrite (Hloop _ _ _ _ _ _ _ k Hl); cycle 1.
    { repeat (apply elem_of_cons in Hin as [->|Hin]; [set_solver |]).
      by apply elem_of_nil in Hin. }
    apply main_zookeeper_Ok in Hzk as (path & _ & [(_ & -> & _)|(_ & out & _ & ->)]);
      [done |].
    apply lookup_insert_ne. intros <-.
    repeat (apply elem_of_cons in Hin as [Hin|Hin]; [discriminate Hin |]).
    by apply elem_of_nil in Hin. }
  repeat split; (rewrite Hk; [reflexivity | set_solver]).
Qed.

Lemma convenience_variables_survive_witness :
  (<["cmd_1_output" := VStr "hello world"]> (main_convenience_variables demo_now))
    !! "YrMn" = Some (VStr "201310").
Proof.
  exact (proj1 (proj2 (proj2 (convenience_variables_survive (demo_host (Some cfg_capped))
                  cfg_capped) 1 (initial_state (demo_host (Some cfg_capped)) tt)
           (<["cmd_1_output" := VStr "hello world"]> (main_convenience_variables demo_now))
           (Build_state (demo_host (Some cfg_capped)) tt
              ["#1 >> echo  ..."; "hello"; "Workflow completed at 2013-10-07 09:30:00"] ∅)
           eq_refl))).
Defined.

(** X14. Two commands never share an output name, so the output of a
    command stays in the dictionary as it was stored for as long as that
    command does not run again. *)
Theorem outputs_of_other_commands_persist
    (H : Host) (workflow_config : config) (num_chars_to_log : option Z)
    (report_runtime : bool) :
  (∀ m n, cmd_output_key m = cmd_output_key n → m = n) ∧
  (∀ plan n v st v' st',
     main_loop H workflow_config num_chars_to_log report_runtime plan v st = (Ok v', st') →
     n ∉ plan →
     v' !! cmd_output_key n = v !! cmd_output_key n).
Proof.
  split; [exact cmd_output_key_inj |].
  intros plan n v st v' st' Hloop Hn.
  apply main_loop_frame in Hloop as [_ Hframe]. apply Hframe.
  by rewrite elem_of_output_keys.
Qed.

Lemma outputs_of_other_commands_persist_witness :
  (<["cmd_2_output" := VStr "hello world"]>
     (<["cmd_1_output" := VStr "hello"]> (main_convenience_variables demo_now)))
    !! cmd_output_key 1 =
  (<["cmd_1_output" := VStr "hello"]> (main_convenience_variables demo_now))
    !! cmd_output_key 1.
Proof.
  assert (main_loop (demo_host None) cfg_hello None false [2]
            (<["cmd_1_output" := VStr "hello"]> (main_convenience_variables demo_now))
            (initial_state (demo_host None) tt) =
          (Ok (<["cmd_2_output" := VStr "hello world"]>
                 (<["cmd_1_output" := VStr "hello"]> (main_convenience_variables demo_now))),
           Build_state (demo_host None) tt
             ["#2 >> echo hello world ..."; "hello world"] ∅)) as Hrun
    by reflexivity.
  apply (proj2 (outputs_of_other_commands_persist (demo_host None) cfg_hello None false)
           [2] 1 _ _ _ _ Hrun).
  intros Hin. apply list_elem_of_singleton in Hin. discriminate Hin.
Defined.

Section TrackFacts.
Context (H : Host).

Lemma track_Ok report_runtime thing (st : state H) :
  track H report_runtime thing st = (Ok tt, (track H report_runtime thing st).2).
Proof.
  unfold track, bind, now, ret. destruct report_runtime; [| done].
  by destruct (datetime_now H (st_world st)).
Qed.

Lemma track_world report_runtime thing (st : state H) :
  st_world (track H report_runtime thing st).2 =
  if report_runtime then (datetime_now H (st_world st)).2 else st_world st.
Proof.
  unfold track, bind, now, ret. destruct report_runtime; [| done].
  by destruct (datetime_now H (st_world st)).
Qed.

Lemma run_cmd_Raise_message full_cmd (st : state H) msg st' :
  run_cmd H full_cmd st = (Raise (PlainException msg), st') →
  let p := (popen H full_cmd (st_world st)).1 in
  is_failure p = true ∧ msg = run_cmd_message p.
Proof.
  unfold run_cmd, is_failure, run_cmd_message.
  destruct (popen H full_cmd (st_world st)) as [p w]. cbn [fst].
  destruct (_ || _); [| done]. by intros [= <- <-].
Qed.

End TrackFacts.

(** X15. When [run_cmd] raises its exception for a command of the plan and
    no cleanup is configured, the run ends there: the program exits with the
    message that names the command and carries the message of [run_cmd],
    only the echoed command line has been printed, and no later command of
    the plan is run.  [run_cmd] has raised for a process that wrote on
    standard error or ended with a status other than 0, and its message holds
    the output, the status and the error text of that process. *)
Theorem failing_command_ends_the_run
    (H : Host) (workflow_config : config) (num_chars_to_log : option Z)
    (report_runtime : bool) (command_num : Z) (rest : list Z) (v : variables)
    (st : state H) (raw s msg : string) (st' : state H) :
  workflow_config !! Py.str_int command_num = Some raw →
  format (dict_str H) v raw = Ok s →
  workflow_config !! "premature_end_cmd" = None →
  let command := Py.replace "_PERC_" "%" s in
  let echo := "#" +:+ Py.str_int command_num +:+ " >> " +:+
              Py.slice_to command num_chars_to_log +:+ " ..." in
  let st1 := (track H report_runtime ("cmd_" +:+ Py.str_int command_num)
                (print H echo st).2).2 in
  run_cmd H command st1 = (Raise (PlainException msg), st') →
  main_loop H workflow_config num_chars_to_log report_runtime (command_num :: rest) v st
    = (Raise (SystemExit (Some (premature_message command_num msg))), st') ∧
  st_out st' = st_out st ++ [echo] ∧
  let w := if report_runtime then (datetime_now H (st_world st)).2 else st_world st in
  let p := (popen H command w).1 in
  is_failure p = true ∧ msg = run_cmd_message p.
Proof.
  intros Hraw Hfmt Hnone command echo st1 Hrun.
  split; [| split].
  - cbn [main_loop]. unfold bind at 1.
    unfold main_loop_body, bind, lift, DSConfig.get. rewrite Hraw.
    rewrite (prepare_cmd_Ok H workflow_config command_num raw v st s Hfmt).
    fold command. fold echo.
    destruct (print H echo st) as [[[]|e] sp] eqn:Hprint; [| by unfold print in Hprint].
    cbn [snd] in st1.
    rewrite (track_Ok H report_runtime _ sp). fold st1. rewrite Hrun.
    destruct recursion_limit_S as [d ->].
    by rewrite (WorkflowException_no_directive H workflow_config d _ _ _ _ Hnone).
  - apply run_cmd_frame in Hrun as (-> & _). subst st1.
    destruct (track H report_runtime _ (print H echo st).2) as [r sx] eqn:Ht.
    apply track_out in Ht. cbn [snd]. by rewrite Ht.
  - cbv zeta. apply run_cmd_Raise_message in Hrun. cbv zeta in Hrun.
    subst st1. by rewrite track_world in Hrun.
Qed.

Lemma failing_command_ends_the_run_witness :
  main_loop (demo_host None) (delete "premature_end_cmd" cfg_cleanup_ok) None false
    [1; 2; 3] (main_convenience_variables demo_now) (initial_state (demo_host None) tt)
  = (Raise (SystemExit
              (Some (premature_message 1
                       (Py.newline +:+ "Unexpected return code or value: 1, ")))),
     Build_state (demo_host None) tt ["#1 >> false ..."] ∅) ∧
  is_failure (demo_popen "false" tt).1 = true.
Proof.
  assert (delete "premature_end_cmd" cfg_cleanup_ok !! Py.str_int 1 = Some "false")
    as Hraw by reflexivity.
  assert (format (dict_str (demo_host None)) (main_convenience_variables demo_now) "false"
          = Ok "false") as Hfmt by reflexivity.
  assert (delete "premature_end_cmd" cfg_cleanup_ok !! "premature_end_cmd" = None)
    as Hnone by reflexivity.
  assert (run_cmd (demo_host None) "false"
            (Build_state (demo_host None) tt ["#1 >> false ..."] ∅) =
          (Raise (PlainException (Py.newline +:+ "Unexpected return code or value: 1, ")),
           Build_state (demo_host None) tt ["#1 >> false ..."] ∅)) as Hrun by reflexivity.
  destruct (failing_command_ends_the_run (demo_host None)
              (delete "premature_end_cmd" cfg_cleanup_ok) None false 1 [2; 3]
              (main_convenience_variables demo_now) (initial_state (demo_host None) tt)
              "false" "false" _ _ Hraw Hfmt Hnone Hrun) as (Hloop & _ & Hfail & _).
  split; [exact Hloop | exact Hfail].
Defined.

(** X16. With [report_runtimes] set to [false] nothing is tracked and no
    runtime is printed: a completed run executes two [print] statements for
    every command of the plan, the echoed command and its output (one
    statement each, however many lines the text holds), and then the closing
    [print]. *)
Theorem quiet_run_prints_twice_per_command
    (H : Host) (workflow_config : config) (starting_command_num : Z)
    (st : state H) (v' : variables) (st' : state H) :
  main_report_runtime workflow_config = false →
  st_runtimes st = ∅ →
  main_workflow H workflow_config starting_command_num st = (Ok v', st') →
  ∃ plan,
    get_workflow_cmd_num starting_command_num workflow_config = Ok plan ∧
    List.length (st_out st') = (List.length (st_out st) + 2 * List.length plan + 1)%nat ∧
    last (st_out st') =
      Some ("Workflow completed at " +:+ datetime_str (datetime_now H (st_world st)).1).
Proof.
  intros Hoff Hrt Hwf.
  apply main_workflow_Ok in Hwf
    as (st0 & v1 & st1 & st2 & plan & st3 & Hzk & Hout0 & Hrt0 & Hst2 & Hplan & Hloop &
        lines & Hout & Hlines).
  rewrite Hoff in Hst2, Hloop. unfold track, ret in Hst2. cbn [snd] in Hst2. subst st2.
  assert (st_out st1 = st_out st0 ∧ st_runtimes st1 = st_runtimes st0) as [Hout1 Hrt1].
  { apply main_zookeeper_Ok in Hzk as (path & _ & [(_ & _ & ->)|(_ & out & Hrun & _)]);
      [done |].
    by apply run_cmd_frame in Hrun as (? & ? & _). }
  apply main_loop_quiet in Hloop as [Hrt3 Hlen3]; [| by rewrite Hrt1, Hrt0].
  rewrite Hlines in Hout by (by rewrite Hrt3, lookup_empty).
  exists plan. split; [done |]. rewrite Hout, app_nil_r. split.
  - rewrite length_app, Hlen3, Hout1, Hout0. cbn [List.length]. lia.
  - by rewrite last_snoc.
Qed.

Lemma quiet_run_prints_twice_per_command_witness :
  ∃ plan,
    get_workflow_cmd_num 1 cfg_hello = Ok plan ∧
    List.length ["#1 >> echo hello ..."; "hello"; "#2 >> echo hello world ..."; "hello world";
                 "Workflow completed at 2013-10-07 09:30:00"]
    = (List.length ([] : list string) + 2 * List.length plan + 1)%nat ∧
    last ["#1 >> echo hello ..."; "hello"; "#2 >> echo hello world ..."; "hello world";
          "Workflow completed at 2013-10-07 09:30:00"]
    = Some ("Workflow completed at " +:+ datetime_str demo_now).
Proof.
  assert (main_workflow (demo_host None) cfg_hello 1 (initial_state (demo_host None) tt) =
          (Ok (<["cmd_2_output" := VStr "hello world"]>
                 (<["cmd_1_output" := VStr "hello"]> (main_convenience_variables demo_now))),
           Build_state (demo_host None) tt
             ["#1 >> echo hello ..."; "hello"; "#2 >> echo hello world ..."; "hello world";
              "Workflow completed at 2013-10-07 09:30:00"] ∅)) as Hrun by reflexivity.
  exact (quiet_run_prints_twice_per_command (demo_host None) cfg_hello 1
           (initial_state (demo_host None) tt) _ _ eq_refl eq_refl Hrun).
Defined.

Lemma append_inj_l (a b c : string) : a +:+ b = a +:+ c → b = c.
Proof.
  induction a as [|x a IH]; [done |]. rewrite !append_cons. intros [= Heq]. by apply IH.
Qed.

(** X17. The two exits of the queue lookup come before everything else:
    when the program exits with the message that [zk_queue_path] is not
    configured, the directive has no entry; when it exits with the message
    that there is nothing in the queue, the message names the configured
    path, which is not empty, and not the reason the lookup gave; in both
    cases nothing has been printed and nothing tracked, so no command of the
    workflow has been looked at. *)
Theorem queue_exit_comes_first
    (H : Host) (workflow_config : config) (starting_command_num : Z)
    (st : state H) (m : string) (st' : state H) :
  main_workflow H workflow_config starting_command_num st = (Raise (SystemExit (Some m)), st') →
  (m = "ZK queue path directive not found in config file (can be empty but must be defined)" →
   workflow_config !! "zk_queue_path" = None ∧
   st_out st' = st_out st ∧ st_runtimes st' = st_runtimes st) ∧
  (∀ path, m = "Nothing in the workflow queue '" +:+ path +:+ "'" →
     workflow_config !! "zk_queue_path" = Some path ∧ path ≠ EmptyString ∧
     st_out st' = st_out st ∧ st_runtimes st' = st_runtimes st).
Proof.
  unfold main_workflow, bind.
  destruct (now H st) as [[now_|e0] st0] eqn:Hnow; cycle 1.
  { unfold now in Hnow. by destruct (datetime_now H (st_world st)). }
  apply now_frame in Hnow as [Hout0 Hrt0].
  destruct (main_zookeeper H workflow_config _ st0) as [[v1|e1] st1] eqn:Hzk; cycle 1.
  { intros [= -> <-]. unfold main_zookeeper, DSConfig.get, raise in Hzk.
    destruct (workflow_config !! "zk_queue_path") as [path|].
    - destruct path as [|c path]; cbn [Py.is_empty] in Hzk; [done |].
      destruct (run_cmd H _ st0) as [[out|e0] sx] eqn:Hrun; [done |].
      pose proof (run_cmd_Raise H _ _ _ _ Hrun) as [msg ->]. cbn [is_Exception] in Hzk.
      apply run_cmd_frame in Hrun as (Hox & Hrx & _).
      injection Hzk as <- <-. split; [intros Heq; discriminate Heq |].
      intros path' Heq. apply append_inj_l in Heq.
      apply append_inj_r in Heq. subst path'.
      split; [done |]. split; [done |]. by rewrite Hox, Hrx.
    - injection Hzk as <- <-. split; [done |]. intros path Heq. discriminate Heq. }
  destruct (track H _ "workflow" st1) as [[[]|e2] st2] eqn:Htrack; cycle 1.
  { by rewrite track_Ok in Htrack. }
  unfold lift.
  destruct (get_workflow_cmd_num starting_command_num workflow_config) as [plan|e3]
    eqn:Hplan; cycle 1.
  { apply get_workflow_cmd_num_Raise in Hplan as [-> | ->]; intros [= <- <-].
    split; [intros Heq; discriminate Heq |]. intros path Heq. cbv in Heq. discriminate Heq. }
  destruct (main_loop H workflow_config _ _ plan v1 st2) as [[v2|e4] st3] eqn:Hloop; cycle 1.
  { intros [= -> <-].
    destruct (main_loop_Raise _ _ _ _ _ _ _ _ _ Hloop _ eq_refl) as (n & emsg & _ & [= ->]).
    unfold premature_message.
    split; [intros Heq; discriminate Heq |]. intros path Heq. discriminate Heq. }
  destruct (print H _ st3) as [[[]|e5] st4] eqn:Hprint; [| by unfold print in Hprint].
  destruct (report H "workflow" st4) as [[runtime|e6] st5] eqn:Hrep; cycle 1.
  { unfold report, bind, now, ret in Hrep. destruct (st_runtimes st4 !! _); [| done].
    by destruct (datetime_now H (st_world st4)). }
  destruct (print_runtime H _ runtime st5) as [[[]|e7] st6] eqn:Hprt; [done |].
  unfold print_runtime, ret, print in Hprt. destruct runtime as [t|]; [| done].
  by destruct (Py.is_empty t).
Qed.

Lemma queue_exit_comes_first_witness :
  cfg_gate !! "zk_queue_path" = Some "/queues/daily" ∧
  st_out (main_workflow (demo_host None) cfg_gate 1 (initial_state (demo_host None) tt)).2 = [].
Proof.
  destruct (queue_exit_comes_first (demo_host None) cfg_gate 1
              (initial_state (demo_host None) tt)
              "Nothing in the workflow queue '/queues/daily'"
              (main_workflow (demo_host None) cfg_gate 1
                 (initial_state (demo_host None) tt)).2 eq_refl) as [_ Hq].
  destruct (Hq "/queues/daily" eq_refl) as (Hpath & _ & Hout & _).
  split; [exact Hpath | exact Hout].
Defined.

(** X18. [WorkflowRuntime]: after [track] of a name, whatever was recorded
    before, [report] of that name gives the time elapsed since that call;
    tracking a name leaves the records of the other names alone; with
    reporting off [track] records nothing, and [report] gives [False] for a
    name that was never tracked. *)
Theorem track_then_report (H : Host) (thing : string) (st : state H) :
  let d := (datetime_now H (st_world st)).1 in
  let st1 := (track H true thing st).2 in
  st_runtimes st1 !! thing = Some d ∧
  (∀ other, other ≠ thing → st_runtimes st1 !! other = st_runtimes st !! other) ∧
  (report H thing st1).1 =
    Ok (Some (timedelta_str H d (datetime_now H (st_world st1)).1)) ∧
  track H false thing st = (Ok tt, st) ∧
  (st_runtimes st !! thing = None → report H thing st = (Ok None, st)).
Proof.
  cbv zeta. unfold track, report, bind, now, ret.
  destruct (datetime_now H (st_world st)) as [d w] eqn:Hnow. cbn [fst snd st_runtimes st_world].
  rewrite lookup_insert_eq.
  split; [done |]. split; [intros other Hne; by rewrite lookup_insert_ne |].
  split; [by destruct (datetime_now H w) |]. split; [done |].
  by intros ->.
Qed.

Lemma track_then_report_witness :
  report (demo_host None) "cmd_7" (initial_state (demo_host None) tt)
  = (Ok None, initial_state (demo_host None) tt).
Proof.
  exact (proj2 (proj2 (proj2 (proj2
           (track_then_report (demo_host None) "cmd_7" (initial_state (demo_host None) tt)))))
           eq_refl).
Defined.

(** ** [dslib/dsconfig.py] *)

Lemma split_nonempty sep s : Py.split sep s ≠ [].
Proof.
  destruct s as [|c s]; [done |]. cbn [Py.split].
  destruct (Ascii.eqb c sep); [done |]. by destruct (Py.split sep s).
Qed.

Lemma split_without_sep sep x : Py.mem sep x = false → Py.split sep x = [x].
Proof.
  induction x as [|c x IH]; intros Hx; [done |].
  rewrite mem_cons in Hx. apply orb_false_elim in Hx as [Hc Hx].
  cbn [Py.split]. by rewrite Ascii.eqb_sym, Hc, (IH Hx).
Qed.

Lemma split_at_sep sep x rest :
  Py.mem sep x = false →
  Py.split sep (x +:+ String sep rest) = x :: Py.split sep rest.
Proof.
  induction x as [|c x IH]; intros Hx.
  - rewrite append_empty_l. cbn [Py.split]. by rewrite Ascii.eqb_refl.
  - rewrite mem_cons in Hx. apply orb_false_elim in Hx as [Hc Hx].
    rewrite append_cons. cbn [Py.split]. by rewrite Ascii.eqb_sym, Hc, (IH Hx).
Qed.

Lemma split_elements sep s x : x ∈ Py.split sep s → Py.mem sep x = false.
Proof.
  revert x. induction s as [|c s IH]; intros x Hx.
  - apply list_elem_of_singleton in Hx as ->. done.
  - cbn [Py.split] in Hx. destruct (Ascii.eqb c sep) eqn:Hc.
    + apply elem_of_cons in Hx as [->|Hx]; [done | by apply IH].
    + pose proof (split_nonempty sep s) as Hne.
      destruct (Py.split sep s) as [|h t]; [done |].
      apply elem_of_cons in Hx as [->|Hx].
      * rewrite mem_cons, Ascii.eqb_sym, Hc. apply IH. by left.
      * apply IH. by right.
Qed.

Lemma split_join sep l :
  l ≠ [] → (∀ x, x ∈ l → Py.mem sep x = false) →
  Py.split sep (py_join (String sep EmptyString) l) = l.
Proof.
  induction l as [|x l IH]; intros Hne Hl; [done |].
  destruct l as [|y l].
  - cbn [py_join]. apply split_without_sep, Hl. by left.
  - change (py_join (String sep EmptyString) (x :: y :: l))
      with (x +:+ String sep (py_join (String sep EmptyString) (y :: l))).
    rewrite split_at_sep by (apply Hl; by left).
    f_equal. apply IH; [done |]. intros z Hz. apply Hl. by right.
Qed.

Lemma lstrip_fixed s :
  (∀ c, first_char s = Some c → Py.is_space c = false) → Py.lstrip s = s.
Proof. destruct s as [|c s]; [done |]. intros Hc. cbn. by rewrite (Hc c eq_refl). Qed.

Lemma rstrip_fixed s :
  (∀ c, last_char s = Some c → Py.is_space c = false) → Py.rstrip s = s.
Proof.
  induction s as [|x s IH]; intros Hc; [done |]. cbn [Py.rstrip].
  destruct s as [|y s].
  - cbn. by rewrite (Hc x eq_refl).
  - rewrite IH by (intros c Hl; by apply Hc). cbn [Py.is_empty]. by rewrite andb_false_r.
Qed.

Lemma strip_idempotent s : Py.strip (Py.strip s) = Py.strip s.
Proof.
  destruct (strip_spec s) as (_ & Hfirst & Hlast).
  unfold Py.strip at 1. by rewrite (rstrip_fixed _ Hlast), (lstrip_fixed _ Hfirst).
Qed.

Lemma mem_strip c s : Py.mem c s = false → Py.mem c (Py.strip s) = false.
Proof.
  destruct (strip_spec s) as ((l & r & Hs & _) & _). intros Hc.
  rewrite Hs, !mem_append in Hc.
  apply orb_false_elim in Hc as [_ Hc]. by apply orb_false_elim in Hc as [Hc _].
Qed.

Lemma contains_strip old s : contains old s = false → contains old (Py.strip s) = false.
Proof.
  intros Hs. destruct (contains old (Py.strip s)) eqn:Hc; [| done].
  apply contains_spec in Hc as (pre & post & Hc).
  destruct (strip_spec s) as ((l & r & Heq & _) & _).
  assert (contains old s = true) as Hs'; [| congruence].
  apply contains_spec. exists (l +:+ pre), (post +:+ r).
  rewrite Heq, Hc. by rewrite !append_assoc.
Qed.

(** X19. [_getList] never gives an empty list; its items carry no comma and
    no whitespace at either end; and it reads back a list written with
    commas: the items of [",".join(l)], each one stripped, whenever no item
    of [l] holds a comma. *)
Theorem getList_reads_back_a_joined_list :
  (∀ s, DSConfig._getList s ≠ []) ∧
  (∀ s x, x ∈ DSConfig._getList s → Py.strip x = x ∧ Py.mem "," x = false) ∧
  (∀ l, l ≠ [] → (∀ x, x ∈ l → Py.mem "," x = false) →
        DSConfig._getList (py_join "," l) = Py.strip <$> l).
Proof.
  unfold DSConfig._getList. split; [| split].
  - intros s Hnil. apply fmap_nil_inv in Hnil. by apply split_nonempty in Hnil.
  - intros s x Hx. apply list_elem_of_fmap in Hx as (y & -> & Hy).
    split; [apply strip_idempotent |]. apply mem_strip. by eapply split_elements.
  - intros l Hne Hl. by rewrite (split_join "," l Hne Hl).
Qed.

Lemma getList_reads_back_a_joined_list_witness :
  DSConfig._getList (py_join "," ["1"; " 2"; "10 "]) = ["1"; "2"; "10"].
Proof.
  apply (proj2 (proj2 getList_reads_back_a_joined_list) ["1"; " 2"; "10 "]); [done |].
  intros x Hx.
  repeat (apply elem_of_cons in Hx as [->|Hx]; [reflexivity |]).
  by apply elem_of_nil in Hx.
Defined.

(** X20. [_getZookeeper] returns the standard output of the client,
    stripped, exactly when the client ended having written nothing on
    standard error and the word FATAL is not in its output; the exit status
    is not looked at.  A value it returns never holds FATAL and has no
    whitespace at either end.  It raises [ConfigException] exactly when the
    client ended with something on standard error, or with FATAL in its
    output, and the message carries that text; the [OSError] of a client
    that cannot be started leaves it as it is. *)
Theorem getZookeeper_outcome
    {W : Type} (popen_argv : list string → W → spawned * W)
    (zk_base_path zk_key : string) (w : W) :
  let started := popen_argv [_zookeeper_bin; "get"; zk_base_path +:+ "/" +:+ zk_key] w in
  let r := _getZookeeper popen_argv zk_base_path zk_key w in
  (∀ value,
     r.1 = Returns value ↔
     ∃ p, started.1 = Exited p ∧ stderr p = EmptyString ∧
          contains "FATAL" (stdout p) = false ∧ value = Py.strip (stdout p)) ∧
  (∀ value, r.1 = Returns value →
     contains "FATAL" value = false ∧ Py.strip value = value) ∧
  (∀ msg,
     r.1 = RaisesConfigException msg ↔
     ∃ p, started.1 = Exited p ∧
          (stderr p ≠ EmptyString ∧ msg = "Error running zookeeper: " +:+ stderr p ∨
           stderr p = EmptyString ∧ contains "FATAL" (stdout p) = true ∧
           msg = "ZooKeeper error: " +:+ stdout p)) ∧
  (∀ errmsg, r.1 = RaisesOSError errmsg ↔ started.1 = NotStarted errmsg) ∧
  r.2 = started.2.
Proof.
  cbv zeta. unfold _getZookeeper.
  destruct (popen_argv _ w) as [[p|errmsg|] w']; cbn [fst snd].
  - destruct (stderr p) as [|c err] eqn:Herr; cbn [Py.is_empty negb].
    + destruct (contains "FATAL" (stdout p)) eqn:Hfatal; cbn [fst snd].
      * split; [| split; [done | split; [| split; [done | done]]]].
        -- intros value. split; [done |]. intros (p' & [= <-] & _ & Hf & _). congruence.
        -- intros msg. split.
           ++ intros [= <-]. exists p. split; [done |]. right. by rewrite Herr.
           ++ intros (p' & [= <-] & [[Hne _]|(_ & _ & ->)]); [by rewrite Herr in Hne | done].
      * split; [| split; [| split; [| split; [done | done]]]].
        -- intros value. split.
           ++ intros [= <-]. exists p. by rewrite Herr.
           ++ by intros (p' & [= <-] & _ & _ & ->).
        -- intros value [= <-]. split; [by apply contains_strip | apply strip_idempotent].
        -- intros msg. split; [done |].
           intros (p' & [= <-] & [[Hne _]|(_ & Hf & _)]); [by rewrite Herr in Hne | congruence].
    + split; [| split; [done | split; [| split; [done | done]]]].
      * intros value. split; [done |].
        intros (p' & [= <-] & He & _). by rewrite Herr in He.
      * intros msg. split.
        -- intros [= <-]. exists p. split; [done |]. left. by rewrite Herr.
        -- intros (p' & [= <-] & [[_ ->]|(He & _)]); [by rewrite Herr | by rewrite Herr in He].
  - split; [| split; [done | split; [| split; [| done]]]].
    + intros value. split; [done | by intros (p & ? & _)].
    + intros msg. split; [done | by intros (p & ? & _)].
    + intros errmsg'. split; by intros [= ->].
  - split; [| split; [done | split; [| split; [done | done]]]].
    + intros value. split; [done | by intros (p & ? & _)].
    + intros msg. split; [done | by intros (p & ? & _)].
Qed.

Lemma getZookeeper_outcome_witness :
  (_getZookeeper demo_zk "/ds/app" "mode" tt).1 = Returns "batch" ∧
  (_getZookeeper demo_zk "/ds/app" "missing" tt).1 =
    RaisesConfigException "ZooKeeper error: FATAL: node does not exist".
Proof.
  split.
  - apply (proj1 (getZookeeper_outcome demo_zk "/ds/app" "mode" tt) "batch").
    eexists. split; [reflexivity |]. split; [reflexivity |]. split; reflexivity.
  - apply (proj1 (proj2 (proj2 (getZookeeper_outcome demo_zk "/ds/app" "missing" tt)))
             "ZooKeeper error: FATAL: node does not exist").
    eexists. split; [reflexivity |]. right. split; [reflexivity |]. split; reflexivity.
Defined.

(** ** Names of outputs *)

Lemma mem_pretty_N_go c x s :
  Py.is_digit c = false → Py.mem c (pretty_N_go x s) = Py.mem c s.
Proof.
  intros Hc. revert s. induction (N.lt_wf_0 x) as [x _ IH]; intros s.
  assert (x = 0 ∨ 0 < x)%N as [->|Hx] by lia.
  - by rewrite pretty_N_go_0.
  - rewrite pretty_N_go_step by done. rewrite IH by (by apply N.div_lt).
    rewrite mem_cons.
    replace (Ascii.eqb c (pretty_N_char (x `mod` 10))) with false; [done |].
    symmetry. apply Ascii.eqb_neq. intros ->.
    unfold pretty_N_char in Hc. by repeat case_match.
Qed.

(** The decimal form of an integer holds digits and the minus sign only. *)
Lemma mem_str_int c n :
  Py.is_digit c = false → c ≠ "-"%char → Py.mem c (Py.str_int n) = false.
Proof.
  intros Hc Hdash. unfold Py.str_int, pretty, pretty_Z.
  assert (∀ p, Py.mem c (pretty (N.pos p)) = false) as Hpos.
  { intros p. unfold pretty, pretty_N. rewrite decide_False by done.
    by rewrite mem_pretty_N_go. }
  destruct n as [|p|p].
  - rewrite mem_cons. cbn [Py.mem existsb list_ascii_of_string]. rewrite orb_false_r.
    apply Ascii.eqb_neq. intros ->. done.
  - apply Hpos.
  - change ("-" +:+ pretty p) with (String "-" (pretty (N.pos p))).
    rewrite mem_cons, Hpos, orb_false_r. by apply Ascii.eqb_neq.
Qed.

Lemma cmd_output_key_no_parenthesis n :
  Py.mem "(" (cmd_output_key n) = false ∧ Py.mem ")" (cmd_output_key n) = false.
Proof.
  unfold cmd_output_key. rewrite !mem_append.
  by rewrite !mem_str_int by done.
Qed.

(** X21. Every number the probe puts in the plan has a directive; a number
    of the plan without one comes from [always_run_cmds], and when the loop
    gets to it the lookup of its template raises a [ConfigException] that
    nothing catches: nothing is printed and the cleanup is not tried. *)
Theorem override_without_directive
    (H : Host) (workflow_config : config) (starting_cmd_num : Z) (plan : list Z)
    (num_chars_to_log : option Z) (report_runtime : bool) (n : Z)
    (v : variables) (st : state H) :
  get_workflow_cmd_num starting_cmd_num workflow_config = Ok plan →
  n ∈ plan →
  DSConfig.has_option workflow_config (Py.str_int n) = false →
  (∃ overrides,
     always_run_cmds starting_cmd_num workflow_config = Ok overrides ∧ n ∈ overrides) ∧
  main_loop_body H workflow_config num_chars_to_log report_runtime n v st =
  (Raise (ConfigException
            ("No option " +:+ Py.repr (Py.str_int n) +:+ " in section: 'workflow_config'")),
   st).
Proof.
  intros Hplan Hn Hopt. split.
  - destruct (get_workflow_cmd_num_Ok _ _ _ Hplan) as (overrides & Hov & ->).
    exists overrides. split; [done |].
    rewrite merge_sort_Permutation, elem_of_foldl_add_new, elem_of_seqZ' in Hn.
    destruct Hn as [Hn|Hn]; [done |].
    destruct (first_missing_spec workflow_config starting_cmd_num) as (_ & Hin & _).
    rewrite Hin in Hopt by lia. done.
  - unfold DSConfig.has_option in Hopt. apply bool_decide_eq_false in Hopt.
    apply eq_None_not_Some in Hopt.
    unfold main_loop_body, bind, lift, DSConfig.get. by rewrite Hopt.
Qed.

Lemma override_without_directive_witness :
  main_loop_body (demo_host None) cfg_override_beyond None false 10
    (main_convenience_variables demo_now) (initial_state (demo_host None) tt) =
  (Raise (ConfigException "No option '10' in section: 'workflow_config'"),
   initial_state (demo_host None) tt).
Proof.
  refine (proj2 (override_without_directive (demo_host None) cfg_override_beyond 2
                   [1; 2; 3; 10] None false 10 (main_convenience_variables demo_now)
                   (initial_state (demo_host None) tt) eq_refl _ eq_refl)).
  do 3 apply list_elem_of_further. apply list_elem_of_here.
Defined.

(** X22. A command cannot read the output of a command that has not run
    yet: after the commands before it have completed, a template with a
    placeholder for [cmd_N_output], where N is not among them and had no
    entry to begin with, does not expand, and the pass ends in
    [WorkflowException] with the message that names that variable. *)
Theorem forward_reference_fails
    (H : Host) (workflow_config : config) (num_chars_to_log : option Z)
    (report_runtime : bool) (done_before : list Z) (m n : Z)
    (v : variables) (st : state H) (v1 : variables) (st1 : state H)
    (pre rest s : string) :
  main_loop H workflow_config num_chars_to_log report_runtime done_before v st
    = (Ok v1, st1) →
  n ∉ done_before →
  v !! cmd_output_key n = None →
  workflow_config !! Py.str_int m
    = Some (pre +:+ "%(" +:+ cmd_output_key n +:+ ")" +:+ rest) →
  format (dict_str H) v1 pre = Ok s →
  let emsg := "Required variable not found during execution " +:+
              Py.repr (cmd_output_key n) in
  main_loop_body H workflow_config num_chars_to_log report_runtime m v1 st1 =
  (Raise (WorkflowException H recursion_limit workflow_config m emsg v1 st1).1,
   (WorkflowException H recursion_limit workflow_config m emsg v1 st1).2).
Proof.
  intros Hloop Hn Hv Hraw Hpre emsg.
  apply main_loop_frame in Hloop as [_ Hframe].
  assert (v1 !! cmd_output_key n = None) as Hv1.
  { rewrite Hframe; [done |]. by rewrite elem_of_output_keys. }
  destruct (cmd_output_key_no_parenthesis n) as [Ho Hc].
  pose proof (format_missing (dict_str H) v1 pre (cmd_output_key n) rest s Hpre Ho Hc Hv1)
    as Hfmt.
  unfold main_loop_body, bind, lift, DSConfig.get. rewrite Hraw.
  by rewrite (prepare_cmd_KeyError H workflow_config m _ v1 st1 _ Hfmt).
Qed.

Lemma forward_reference_fails_witness :
  main_loop_body (demo_host None) (<["2" := "echo %(cmd_3_output)s"]> cfg_hello) None false 2
    (<["cmd_1_output" := VStr "hello"]> (main_convenience_variables demo_now))
    (Build_state (demo_host None) tt ["#1 >> echo hello ..."; "hello"] ∅) =
  (Raise (SystemExit (Some "Workflow ended prematurely, #2 command error: Required variable not found during execution 'cmd_3_output'")),
   Build_state (demo_host None) tt ["#1 >> echo hello ..."; "hello"] ∅).
Proof.
  assert (main_loop (demo_host None) (<["2" := "echo %(cmd_3_output)s"]> cfg_hello)
            None false [1] (main_convenience_variables demo_now)
            (initial_state (demo_host None) tt) =
          (Ok (<["cmd_1_output" := VStr "hello"]> (main_convenience_variables demo_now)),
           Build_state (demo_host None) tt ["#1 >> echo hello ..."; "hello"] ∅)) as Hrun
    by reflexivity.
  refine (eq_trans
            (forward_reference_fails (demo_host None)
               (<["2" := "echo %(cmd_3_output)s"]> cfg_hello) None false [1] 2 3
               (main_convenience_variables demo_now) (initial_state (demo_host None) tt)
               _ _ "echo " "s" "echo " Hrun _ eq_refl eq_refl eq_refl) _).
  - intros Hin. apply list_elem_of_singleton in Hin. discriminate Hin.
  - reflexivity.
Defined.

(** ** The log and the stored output *)

Section ExactFacts.

Context (H : Host).

(** A pass of the loop body that ends normally, in full: the template is the
    directive of the command, the command is started in the world the clock
    reading of [track] left, the process ended without error, and the lines
    printed are the echoed command, the output and, when the command was
    tracked, its runtime. *)
Lemma main_loop_body_exact workflow_config num_chars_to_log report_runtime command_num
    v st v' st' :
  main_loop_body H workflow_config num_chars_to_log report_runtime command_num v st
    = (Ok v', st') →
  ∃ raw s,
    workflow_config !! Py.str_int command_num = Some raw ∧
    format (dict_str H) v raw = Ok s ∧
    let command := Py.replace "_PERC_" "%" s in
    let w := if report_runtime then (datetime_now H (st_world st)).2 else st_world st in
    let p := (popen H command w).1 in
    let started :=
      if report_runtime then Some (datetime_now H (st_world st)).1
      else st_runtimes st !! ("cmd_" +:+ Py.str_int command_num) in
    stderr p = EmptyString ∧ return_code p = 0 ∧
    v' = <[cmd_output_key command_num := VStr (Py.strip (stdout p))]> v ∧
    st_out st' =
      st_out st ++
      ["#" +:+ Py.str_int command_num +:+ " >> " +:+
         Py.slice_to command num_chars_to_log +:+ " ...";
       Py.slice_to (Py.strip (stdout p)) num_chars_to_log] ++
      match started with
      | Some d =>
          let t := timedelta_str H d (datetime_now H (popen H command w).2).1 in
          if Py.is_empty t then []
          else [("#" +:+ Py.str_int command_num +:+ " >> runtime: ") +:+ t]
      | None => []
      end.
Proof.
  intros Hbody. unfold main_loop_body in Hbody.
  apply bind_Ok in Hbody as (raw & s0 & Hget & Hbody).
  apply bind_Ok in Hbody as (command & s1 & Hprep & Hbody).
  apply bind_Ok in Hbody as (? & s2 & Hprint & Hbody).
  apply bind_Ok in Hbody as (? & s3 & Htrack & Hbody).
  apply bind_Ok in Hbody as (cmd_output & s4 & Hrun & Hbody).
  apply bind_Ok in Hbody as (runtime & s5 & Hreport & Hbody).
  apply bind_Ok in Hbody as (? & s6 & Hprint2 & Hbody).
  apply bind_Ok in Hbody as (? & s7 & Hprt & Hbody).
  unfold ret in Hbody. injection Hbody as <- <-.
  unfold lift, DSConfig.get in Hget.
  destruct (workflow_config !! Py.str_int command_num) as [raw'|] eqn:Hraw; [|done].
  injection Hget as <- <-.
  apply prepare_cmd_inv in Hprep as (-> & s & Hfmt & ->).
  exists raw', s. split; [done |]. split; [done |]. cbv zeta.
  cbv beta in Hrun.
  destruct (run_cmd H _ s3) as [[out|e] sx] eqn:Hr; cycle 1.
  { destruct e; try done. by destruct (WorkflowException _ _ _ _ _ _ _). }
  injection Hrun as <- <-.
  unfold print in Hprint. injection Hprint as _ <-.
  assert (st_world s3 =
            (if report_runtime then (datetime_now H (st_world st)).2 else st_world st) ∧
          st_out s3 = st_out st ++
            ["#" +:+ Py.str_int command_num +:+ " >> " +:+
             Py.slice_to (Py.replace "_PERC_" "%" s) num_chars_to_log +:+ " ..."] ∧
          st_runtimes s3 !! ("cmd_" +:+ Py.str_int command_num) =
            (if report_runtime then Some (datetime_now H (st_world st)).1
             else st_runtimes st !! ("cmd_" +:+ Py.str_int command_num)))
    as (Hw3 & Hout3 & Hrt3).
  { unfold track, bind, now, ret in Htrack. cbn [st_world st_out st_runtimes] in Htrack.
    revert Htrack. destruct report_runtime.
    - cbn [st_world st_out st_runtimes].
      destruct (datetime_now H (st_world st)) as [d w']. cbv beta iota.
      intros [= _ <-]. cbn [st_world st_out st_runtimes fst snd].
      by rewrite lookup_insert_eq.
    - by intros [= _ <-]. }
  pose proof (run_cmd_Ok H _ _ _ _ Hr) as (Hout & Herr & Hrc). cbv zeta in Hout, Herr, Hrc.
  apply run_cmd_frame in Hr as (Hox & Hrx & Hwx).
  rewrite Hw3 in Hout, Herr, Hrc, Hwx.
  split; [done |]. split; [done |]. split; [by rewrite Hout |].
  assert (st_out s5 = st_out sx ∧
          runtime =
            match st_runtimes sx !! ("cmd_" +:+ Py.str_int command_num) with
            | Some d => Some (timedelta_str H d (datetime_now H (st_world sx)).1)
            | None => None
            end) as [Ho5 Hruntime].
  { unfold report in Hreport. revert Hreport.
    destruct (st_runtimes sx !! _) as [d|].
    - unfold bind, now, ret.
      destruct (datetime_now H (st_world sx)) as [d' w'].
      by intros [= <- <-].
    - by intros [= <- <-]. }
  rewrite Hrx, Hrt3, Hwx in Hruntime.
  unfold print in Hprint2. injection Hprint2 as _ <-.
  rewrite <- Hout.
  unfold print_runtime in Hprt.
  assert (∀ (l1 : list string) a b l2, (l1 ++ [a]) ++ [b] ++ l2 = l1 ++ [a; b] ++ l2) as Happ.
  { intros. by rewrite <- app_assoc. }
  destruct (if report_runtime then _ else _) as [d|]; subst runtime.
  - cbv zeta.
    destruct (Py.is_empty (timedelta_str H d _)).
    + unfold ret in Hprt. injection Hprt as _ <-. cbn [st_out].
      rewrite Ho5, Hox, Hout3. rewrite <- app_assoc. reflexivity.
    + unfold print in Hprt. injection Hprt as _ <-. cbn [st_out].
      rewrite Ho5, Hox, Hout3. rewrite <- !app_assoc. reflexivity.
  - unfold ret in Hprt. injection Hprt as _ <-. cbn [st_out].
    rewrite Ho5, Hox, Hout3. rewrite <- app_assoc. reflexivity.
Qed.

End ExactFacts.

Lemma take_prefix n s : ∃ r, s = Py.take n s +:+ r.
Proof.
  revert s. induction n as [|n IH]; intros s; [by exists s; destruct s |].
  destruct s as [|c s]; [by exists EmptyString |].
  destruct (IH s) as [r Hr]. exists r. cbn [Py.take]. by rewrite append_cons, <- Hr.
Qed.

Lemma take_length n s : (String.length (Py.take n s) ≤ n)%nat.
Proof.
  revert s. induction n as [|n IH]; intros s; [by destruct s |].
  destruct s as [|c s]; cbn [Py.take String.length]; [lia |]. specialize (IH s). lia.
Qed.

Lemma slice_to_prefix s stop : ∃ r, s = Py.slice_to s stop +:+ r.
Proof.
  unfold Py.slice_to. destruct stop as [k|].
  - destruct (0 <=? k); apply take_prefix.
  - exists EmptyString. by rewrite append_empty_r.
Qed.

(** A later template that reads the output of a command gets what is
    stored under its name. *)
Lemma format_output_key dict_str (v : variables) command_num out :
  v !! cmd_output_key command_num = Some (VStr out) →
  format dict_str v ("%(" +:+ cmd_output_key command_num +:+ ")s") = Ok out.
Proof.
  intros Hv. destruct (cmd_output_key_no_parenthesis command_num) as [Ho Hc].
  unfold format. by rewrite (frun_ref dict_str v _ _ _ Ho Hc Hv).
Qed.

(** C8. The cap is the integer of the [max_num_chars_cmd_output] directive,
    and there is none when the directive is absent or is no integer.  A pass
    of the loop body that ends normally under this cap has run the command of
    the directive [N], stored its whole output under [cmd_N_output], where a
    later template reads it in full, and printed exactly the echoed command
    line and the output, each cut by the cap and each a prefix of the full
    text, followed by the runtime line when the command was tracked: cut to
    at most [k] characters for a cap [k >= 0], in full without a cap.  The
    dictionary that results is the same under every cap, and the loop of
    the program runs under this cap. *)
Theorem cap_truncates_log_only (H : Host) (workflow_config : config) :
  let cap := main_num_chars_to_log workflow_config in
  cap = match workflow_config !! "max_num_chars_cmd_output" with
        | Some value => Py.int value
        | None => None
        end ∧
  (∀ report_runtime command_num v st v' st',
     main_loop_body H workflow_config cap report_runtime command_num v st = (Ok v', st') →
     ∃ raw s,
       workflow_config !! Py.str_int command_num = Some raw ∧
       format (dict_str H) v raw = Ok s ∧
       let command := Py.replace "_PERC_" "%" s in
       let w := if report_runtime then (datetime_now H (st_world st)).2 else st_world st in
       let cmd_output := Py.strip (stdout (popen H command w).1) in
       let started :=
         if report_runtime then Some (datetime_now H (st_world st)).1
         else st_runtimes st !! ("cmd_" +:+ Py.str_int command_num) in
       v' = <["cmd_" +:+ Py.str_int command_num +:+ "_output" := VStr cmd_output]> v ∧
       format (dict_str H) v'
         ("%(" +:+ ("cmd_" +:+ Py.str_int command_num +:+ "_output") +:+ ")s") = Ok cmd_output ∧
       st_out st' =
         st_out st ++
         ["#" +:+ Py.str_int command_num +:+ " >> " +:+ Py.slice_to command cap +:+ " ...";
          Py.slice_to cmd_output cap] ++
         match started with
         | Some d =>
             let t := timedelta_str H d (datetime_now H (popen H command w).2).1 in
             if Py.is_empty t then []
             else [("#" +:+ Py.str_int command_num +:+ " >> runtime: ") +:+ t]
         | None => []
         end ∧
       (∃ r, command = Py.slice_to command cap +:+ r) ∧
       (∃ r, cmd_output = Py.slice_to cmd_output cap +:+ r) ∧
       (cap = None →
        Py.slice_to command cap = command ∧ Py.slice_to cmd_output cap = cmd_output) ∧
       (∀ k, cap = Some k → 0 ≤ k →
          Py.slice_to command cap = Py.take (Z.to_nat k) command ∧
          Py.slice_to cmd_output cap = Py.take (Z.to_nat k) cmd_output ∧
          (String.length (Py.slice_to command cap) ≤ Z.to_nat k)%nat ∧
          (String.length (Py.slice_to cmd_output cap) ≤ Z.to_nat k)%nat) ∧
       (∀ cap',
          (main_loop_body H workflow_config cap' report_runtime command_num v st).1 = Ok v')) ∧
  (∀ starting_command_num st v' st',
     main_workflow H workflow_config starting_command_num st = (Ok v', st') →
     ∃ plan v1 st1 st2,
       get_workflow_cmd_num starting_command_num workflow_config = Ok plan ∧
       st_out st1 = st_out st ∧
       main_loop H workflow_config cap (main_report_runtime workflow_config) plan v1 st1
         = (Ok v', st2) ∧
       ∃ closing,
         st_out st' =
           st_out st2 ++
           ["Workflow completed at " +:+ datetime_str (datetime_now H (st_world st)).1]
           ++ closing).
Proof.
  cbv zeta. split; [| split].
  - unfold main_num_chars_to_log, DSConfig.get.
    by destruct (workflow_config !! "max_num_chars_cmd_output").
  - intros report_runtime command_num v st v' st' Hbody.
    destruct (main_loop_body_exact H _ _ _ _ _ _ _ _ Hbody)
      as (raw & s & Hraw & Hfmt & _ & _ & Hv' & Hout).
    cbv zeta in Hv', Hout.
    exists raw, s. split; [done |]. split; [done |].
    split; [exact Hv' |]. split.
    { apply (format_output_key (dict_str H) v' command_num). rewrite Hv'.
      apply lookup_insert_eq. }
    split; [exact Hout |].
    split; [apply slice_to_prefix |]. split; [apply slice_to_prefix |]. split.
    { by intros ->. }
    split.
    { intros k -> Hk. unfold Py.slice_to.
      replace (0 <=? k) with true by (symmetry; by apply Z.leb_le).
      split; [done |]. split; [done |]. split; apply take_length. }
    intros cap'.
    destruct (agree_main_loop_body H workflow_config cap'
                (main_num_chars_to_log workflow_config) report_runtime
                command_num v st st (same_but_out_refl H st)) as [-> _].
    by rewrite Hbody.
  - intros starting_command_num st v' st' Hwf.
    apply main_workflow_Ok in Hwf
      as (st0 & v1 & st1 & st2 & plan & st3 & Hzk & Hout0 & _ & Hst2 & Hplan & Hloop &
          lines & Hout & _).
    exists plan, v1, st2, st3. split; [done |]. split; [| split; [done | by exists lines]].
    assert (st_out st1 = st_out st0) as Hout1.
    { apply main_zookeeper_Ok in Hzk as (path & _ & [(_ & _ & ->)|(_ & out & Hrun & _)]);
        [done |].
      by apply run_cmd_frame in Hrun as (? & _). }
    rewrite Hst2.
    destruct (track H (main_report_runtime workflow_config) "workflow" st1) as [r sx] eqn:Ht.
    apply track_out in Ht. cbn [snd]. by rewrite Ht, Hout1.
Qed.

Lemma cap_truncates_log_only_witness :
  main_num_chars_to_log cfg_capped = Some 5 ∧
  format (dict_str (demo_host None))
    (<["cmd_1_output" := VStr "hello world"]> (main_convenience_variables demo_now))
    "%(cmd_1_output)s" = Ok "hello world" ∧
  ["#1 >> echo  ..."; "hello"] =
    ["#1 >> " +:+ Py.take 5 "echo hello world" +:+ " ..."; Py.take 5 "hello world"] ∧
  (main_loop_body (demo_host None) cfg_capped None false 1
     (main_convenience_variables demo_now) (initial_state (demo_host None) tt)).1 =
  Ok (<["cmd_1_output" := VStr "hello world"]> (main_convenience_variables demo_now)).
Proof.
  assert (main_loop_body (demo_host None) cfg_capped (main_num_chars_to_log cfg_capped)
            false 1 (main_convenience_variables demo_now)
            (initial_state (demo_host None) tt) =
          (Ok (<["cmd_1_output" := VStr "hello world"]> (main_convenience_variables demo_now)),
           Build_state (demo_host None) tt ["#1 >> echo  ..."; "hello"] ∅)) as Hrun
    by reflexivity.
  destruct (cap_truncates_log_only (demo_host None) cfg_capped) as (Hcap & Hbody & _).
  destruct (Hbody false 1 _ _ _ _ Hrun)
    as (raw & s & Hraw & Hfmt & _ & Hlater & Hout & _ & _ & _ & Hk & Hany).
  assert (raw = "echo hello world") as -> by (by injection Hraw as <-).
  assert (s = "echo hello world") as -> by (by injection Hfmt as <-).
  split; [exact Hcap |]. split; [exact Hlater |]. split; [| exact (Hany None)].
  exact Hout.
Defined.

(** C10. What [run_cmd] returns is the standard output of the process with
    the whitespace at both ends removed: it neither starts nor ends with a
    whitespace character, and in particular does not end with a newline.
    A pass of the loop body that ends normally stores under [cmd_N_output]
    this stripped output of the command it ran, the directive [N] expanded
    and started where [track] left the world, and a later template that
    reads [cmd_N_output] gets it without a trailing newline; the queue lookup
    stores the stripped output of [qpoll] under [zk_queue_value]. *)
Theorem stored_output_is_stripped (H : Host) :
  (∀ full_cmd st out st',
     run_cmd H full_cmd st = (Ok out, st') →
     out = Py.strip (stdout (popen H full_cmd (st_world st)).1) ∧
     (∃ l r, stdout (popen H full_cmd (st_world st)).1 = l +:+ out +:+ r ∧
             all_space l = true ∧ all_space r = true) ∧
     (∀ c, first_char out = Some c → Py.is_space c = false) ∧
     (∀ c, last_char out = Some c → Py.is_space c = false) ∧
     (∀ r, out ≠ r +:+ Py.newline)) ∧
  (∀ workflow_config num_chars_to_log report_runtime command_num v st v' st',
     main_loop_body H workflow_config num_chars_to_log report_runtime command_num v st
       = (Ok v', st') →
     ∃ raw s,
       workflow_config !! Py.str_int command_num = Some raw ∧
       format (dict_str H) v raw = Ok s ∧
       let command := Py.replace "_PERC_" "%" s in
       let w := if report_runtime then (datetime_now H (st_world st)).2 else st_world st in
       let out := Py.strip (stdout (popen H command w).1) in
       run_cmd H command
         {| st_world := w; st_out := st_out st; st_runtimes := st_runtimes st |} =
       (Ok out, {| st_world := (popen H command w).2; st_out := st_out st;
                   st_runtimes := st_runtimes st |}) ∧
       v' !! ("cmd_" +:+ Py.str_int command_num +:+ "_output") = Some (VStr out) ∧
       format (dict_str H) v'
         ("%(" +:+ ("cmd_" +:+ Py.str_int command_num +:+ "_output") +:+ ")s") = Ok out ∧
       (∀ r, out ≠ r +:+ Py.newline)) ∧
  (∀ workflow_config path v st v' st',
     workflow_config !! "zk_queue_path" = Some path → path ≠ EmptyString →
     main_zookeeper H workflow_config v st = (Ok v', st') →
     v' !! "zk_queue_value" =
     Some (VStr (Py.strip
                   (stdout (popen H (zookeeper_bin +:+ " qpoll " +:+ path)
                              (st_world st)).1)))).
Proof.
  split; [| split].
  - intros full_cmd st out st' Hrun. apply run_cmd_Ok in Hrun as (-> & _ & _).
    destruct (strip_spec (stdout (popen H full_cmd (st_world st)).1))
      as (Hsplit & Hfirst & Hlast).
    split; [done |]. split; [done |]. split; [done |]. split; [done |].
    intros r. apply strip_no_trailing_newline.
  - intros workflow_config cap rr command_num v st v' st' Hbody.
    destruct (main_loop_body_exact H _ _ _ _ _ _ _ _ Hbody)
      as (raw & s & Hraw & Hfmt & Herr & Hrc & Hv' & _).
    cbv zeta in Herr, Hrc, Hv'.
    exists raw, s. split; [done |]. split; [done |]. cbv zeta.
    assert (v' !! cmd_output_key command_num =
            Some (VStr (Py.strip (stdout (popen H (Py.replace "_PERC_" "%" s)
               (if rr then (datetime_now H (st_world st)).2 else st_world st)).1))))
      as Hkey by (rewrite Hv'; apply lookup_insert_eq).
    split; [| split; [exact Hkey | split]].
    + unfold run_cmd. cbn [st_world st_out st_runtimes].
      destruct (popen H _ _) as [p w']. cbn [fst snd] in *.
      by rewrite Herr, Hrc.
    + by apply (format_output_key (dict_str H) v' command_num).
    + intros r. apply strip_no_trailing_newline.
  - intros workflow_config path v st v' st' Hpath Hne Hz.
    apply main_zookeeper_Ok in Hz as (path' & Hpath' & Hcases).
    rewrite Hpath in Hpath'. injection Hpath' as <-.
    destruct Hcases as [(-> & _)|(_ & out & Hrun & ->)]; [done |].
    apply run_cmd_Ok in Hrun as (-> & _ & _). by rewrite lookup_insert_eq.
Qed.

Lemma stored_output_is_stripped_witness :
  (∃ l r, stdout (demo_popen "echo hello" tt).1 = l +:+ "hello" +:+ r ∧
          all_space l = true ∧ all_space r = true) ∧
  stdout (demo_popen "echo hello" tt).1 = "hello" +:+ Py.newline ∧
  (<["cmd_1_output" := VStr "hello"]> (main_convenience_variables demo_now))
    !! "cmd_1_output" = Some (VStr (Py.strip ("hello" +:+ Py.newline))) ∧
  format (dict_str (demo_host None))
    (<["cmd_1_output" := VStr "hello"]> (main_convenience_variables demo_now))
    "echo %(cmd_1_output)s world" = Ok "echo hello world".
Proof.
  split.
  { exact (proj1 (proj2 (proj1 (stored_output_is_stripped (demo_host None))
             "echo hello" (initial_state (demo_host None) tt) "hello"
             (initial_state (demo_host None) tt) eq_refl))). }
  split; [reflexivity |].
  assert (main_loop_body (demo_host None) cfg_hello None false 1
            (main_convenience_variables demo_now) (initial_state (demo_host None) tt) =
          (Ok (<["cmd_1_output" := VStr "hello"]> (main_convenience_variables demo_now)),
           Build_state (demo_host None) tt ["#1 >> echo hello ..."; "hello"] ∅)) as Hrun
    by reflexivity.
  destruct (proj1 (proj2 (stored_output_is_stripped (demo_host None))) _ _ _ _ _ _ _ _ Hrun)
    as (raw & s & Hraw & Hfmt & _ & Hkey & _).
  assert (raw = "echo hello") as -> by (by injection Hraw as <-).
  assert (s = "echo hello") as -> by (by injection Hfmt as <-).
  split; [exact Hkey | reflexivity].
Defined.
